(** * hdCycles: mesh synchronisation and attribute population

    A shallow embedding of [HdCyclesMesh] (mesh.cpp) and of the conversion and
    primvar utilities (utils.cpp) of the hdCycles render delegate.

    Conventions of the embedding:
    - C++ [int]/[size_t] values are [Z]/[nat]; the one place where the source
      converts a possibly negative [int] to [size_t] is written out
      ([size_t_of_int]).
    - [float] and [double] are the carrier types of a [Numerics] structure:
      the code under study only moves, negates, compares and narrows them.
    - A [result] is [Ok] when the C++ code returns, and [Undefined] when it
      reads or writes outside an array, goes through a null or dangling
      pointer, reads a local it never initialised, or enters a loop that has
      no exit.
    - [TfToken] and [SdfPath] are strings; the empty path is the empty string. *)

From Stdlib Require Import ZArith QArith Lia.
From stdpp Require Import base list strings gmap.

Close Scope Q_scope.

Set Default Proof Using "Type".

(** ** Outcomes of C++ code *)

Inductive result (A : Type) : Type :=
  | Ok (a : A)
  | Undefined.
Arguments Ok {A} a.
Arguments Undefined {A}.

#[global] Instance result_ret : MRet result := fun _ a => Ok a.
#[global] Instance result_bind : MBind result := fun _ _ f r =>
  match r with
  | Ok a => f a
  | Undefined => Undefined
  end.

(** ** Numeric carrier types *)

Class Numerics := {
  float : Type;
  double : Type;
  f_zero : float;
  f_half : float;
  f_one : float;
  f_two : float;
  f_neg : float -> float;
  f_add : float -> float -> float;
  f_sub : float -> float -> float;
  f_mul : float -> float -> float;
  f_div : float -> float -> float;
  (** [a == b] on floats *)
  f_eqb : float -> float -> bool;
  d_zero : double;
  d_one : double;
  d_eqb : double -> double -> bool;
  (** [static_cast<float>] of a double and of an int *)
  float_of_double : double -> float;
  float_of_int : Z -> float;
}.

Definition TfToken := string.
Definition SdfPath := string.

Module HdTokens.
Definition points : TfToken := "points".
Definition normals : TfToken := "normals".
Definition velocities : TfToken := "velocities".
Definition widths : TfToken := "widths".
Definition displayColor : TfToken := "displayColor".
Definition leftHanded : TfToken := "leftHanded".
Definition rightHanded : TfToken := "rightHanded".
End HdTokens.

Module HdPrimvarRoleTokens.
Definition normal : TfToken := "normal".
Definition textureCoordinate : TfToken := "textureCoordinate".
Definition color : TfToken := "color".
Definition vector : TfToken := "vector".
End HdPrimvarRoleTokens.

Inductive HdInterpolation :=
  | HdInterpolationConstant
  | HdInterpolationUniform
  | HdInterpolationVarying
  | HdInterpolationVertex
  | HdInterpolationFaceVarying
  | HdInterpolationInstance.

#[global] Instance HdInterpolation_eq_dec : EqDecision HdInterpolation.
Proof. solve_decision. Defined.

(** [(size_t) k] for an [int] [k]: the comparison [j < k - 2] of a [size_t]
    with an [int] converts the [int]. *)
Definition size_t_of_int (k : Z) : Z := (k mod 2 ^ 64)%Z.

Definition INT_MAX : Z := (2 ^ 31 - 1)%Z.

(** ** Values of the scene graph and of the renderer *)

Section Values.
Context {N : Numerics}.

Definition GfVec2 (A : Type) : Type := A * A.
Definition GfVec3 (A : Type) : Type := A * A * A.
Definition GfVec4 (A : Type) : Type := A * A * A * A.
Definition GfVec3f : Type := GfVec3 float.

Definition float2 : Type := float * float.
Definition float3 : Type := float * float * float.
Definition float4 : Type := float * float * float * float.

Definition make_float2 (a b : float) : float2 := (a, b).
Definition make_float3 (a b c : float) : float3 := (a, b, c).
Definition make_float4 (a b c d : float) : float4 := (a, b, c, d).

Definition float4_x (v : float4) : float := let '(a, _, _, _) := v in a.
Definition float4_y (v : float4) : float := let '(_, b, _, _) := v in b.
Definition float4_z (v : float4) : float := let '(_, _, c, _) := v in c.

(** A [VtValue]: empty, or holding one of the array types the populators
    know, or holding something else ([VtOther], with its array size). *)
Inductive VtValue :=
  | VtEmpty
  | VtFloatArray (a : list float)
  | VtDoubleArray (a : list double)
  | VtIntArray (a : list Z)
  | VtBoolArray (a : list bool)
  | VtVec2fArray (a : list (GfVec2 float))
  | VtVec2dArray (a : list (GfVec2 double))
  | VtVec2iArray (a : list (GfVec2 Z))
  | VtVec3fArray (a : list (GfVec3 float))
  | VtVec3dArray (a : list (GfVec3 double))
  | VtVec3iArray (a : list (GfVec3 Z))
  | VtVec4fArray (a : list (GfVec4 float))
  | VtVec4dArray (a : list (GfVec4 double))
  | VtVec4iArray (a : list (GfVec4 Z))
  | VtOther (array_size : nat).

Definition GetArraySize (v : VtValue) : nat :=
  match v with
  | VtEmpty => 0
  | VtFloatArray a => length a
  | VtDoubleArray a => length a
  | VtIntArray a => length a
  | VtBoolArray a => length a
  | VtVec2fArray a => length a
  | VtVec2dArray a => length a
  | VtVec2iArray a => length a
  | VtVec3fArray a => length a
  | VtVec3dArray a => length a
  | VtVec3iArray a => length a
  | VtVec4fArray a => length a
  | VtVec4dArray a => length a
  | VtVec4iArray a => length a
  | VtOther n => n
  end.

Definition IsEmpty (v : VtValue) : bool :=
  match v with VtEmpty => true | _ => false end.

(** [value.Get<VtVec3fArray>()]: the held array, or an empty array when the
    value holds something else. *)
Definition Get_VtVec3fArray (v : VtValue) : list GfVec3f :=
  match v with VtVec3fArray a => a | _ => [] end.

(** One slot of an attribute buffer ([char* data] read through a [U*]):
    still zero-initialised, or holding the last [U] stored there. *)
Inductive AttrElem :=
  | elem_zero
  | elem_float (v : float)
  | elem_float2 (v : float2)
  | elem_float3 (v : float3)
  | elem_float4 (v : float4).

(** *** utils.cpp, conversions *)

Definition vec3f_to_float3 (v : GfVec3f) : float3 :=
  let '(a, b, c) := v in make_float3 a b c.

Definition vec1f_to_float4 (v : float) : float4 := make_float4 v v v v.

Definition vec2f_to_float4 (v : GfVec2 float) (a_z a_alpha : float) : float4 :=
  let '(a, b) := v in make_float4 a b a_z a_alpha.

Definition vec3f_to_float4 (v : GfVec3f) (a_alpha : float) : float4 :=
  let '(a, b, c) := v in make_float4 a b c a_alpha.

Definition vec4f_to_float4 (v : GfVec4 float) : float4 :=
  let '(a, b, c, d) := v in make_float4 a b c d.

(** [to_cycles<T>], one definition per specialisation used by
    [_PopulateAttribute]. *)
Definition to_cycles_float (v : float) : float := v.
Definition to_cycles_double (v : double) : float := float_of_double v.
Definition to_cycles_int (v : Z) : float := float_of_int v.

Definition to_cycles_GfVec2f (v : GfVec2 float) : float2 :=
  let '(a, b) := v in make_float2 a b.
Definition to_cycles_GfVec2d (v : GfVec2 double) : float2 :=
  let '(a, b) := v in make_float2 (float_of_double a) (float_of_double b).
Definition to_cycles_GfVec2i (v : GfVec2 Z) : float2 :=
  let '(a, b) := v in make_float2 (float_of_int a) (float_of_int b).

Definition to_cycles_GfVec3f (v : GfVec3 float) : float3 :=
  let '(a, b, c) := v in make_float3 a b c.
Definition to_cycles_GfVec3d (v : GfVec3 double) : float3 :=
  let '(a, b, c) := v in
  make_float3 (float_of_double a) (float_of_double b) (float_of_double c).
Definition to_cycles_GfVec3i (v : GfVec3 Z) : float3 :=
  let '(a, b, c) := v in
  make_float3 (float_of_int a) (float_of_int b) (float_of_int c).

Definition to_cycles_GfVec4f (v : GfVec4 float) : float4 :=
  let '(a, b, c, d) := v in make_float4 a b c d.
Definition to_cycles_GfVec4d (v : GfVec4 double) : float4 :=
  let '(a, b, c, d) := v in
  make_float4 (float_of_double a) (float_of_double b) (float_of_double c)
              (float_of_double d).
Definition to_cycles_GfVec4i (v : GfVec4 Z) : float4 :=
  let '(a, b, c, d) := v in
  make_float4 (float_of_int a) (float_of_int b) (float_of_int c)
              (float_of_int d).
End Values.

(** ** utils.cpp, the attribute populators

    [T] is the scene-graph element type, [U] the renderer element type and
    [to_cycles] the conversion [to_cycles<T, U>]; [data] is the attribute's
    buffer seen as an array of [U]. *)

(** What the populators print on the standard output. *)
Inductive Diagnostic :=
  | ConstantIncompatibleSize (arr_size : nat)
  | UniformSizes (array_size face_counts : nat)
  | Oversized
  | InterpolationUnsupported (i : HdInterpolation)
  | InvalidColorSize.

Section Populators.
Context {T U : Type} (to_cycles : T -> U).

(** [((U* )data)[i] = v] *)
Definition attr_write (data : list U) (i : nat) (v : U) : result (list U) :=
  if decide (i < length data) then Ok (<[i := v]> data) else Undefined.

(** [usd_data[i]] for an [int] index *)
Definition usd_read (usd_data : list T) (i : Z) : result T :=
  if decide (0 <= i)%Z
  then match usd_data !! Z.to_nat i with
       | Some x => Ok x
       | None => Undefined
       end
  else Undefined.

(** The loop [for (i = 0; i < arr_size; i++) data[i] = to_cycles(usd_data[i])],
    from element [i] on. *)
Fixpoint Vertex_loop (usd_data : list T) (i : nat) (data : list U)
  : result (list U) :=
  match usd_data with
  | [] => Ok data
  | x :: rest =>
      data' ← attr_write data i (to_cycles x);
      Vertex_loop rest (S i) data'
  end.

Definition _PopulateAttribte_Vertex (usd_data : list T) (data : list U)
  : result (bool * list U) :=
  let arr_size := length usd_data in
  if decide (arr_size <= 0) then Ok (false, data)
  else data' ← Vertex_loop usd_data 0 data; Ok (true, data').

(** The inner loop of the uniform populator: [n] stores of [v] at [idx],
    [idx + 1], ... *)
Fixpoint Uniform_fill (n : nat) (v : U) (idx : nat) (data : list U)
  : result (nat * list U) :=
  match n with
  | O => Ok (idx, data)
  | S n' =>
      data' ← attr_write data idx v;
      Uniform_fill n' v (S idx) data'
  end.

(** The outer loop of the uniform populator, from source element [i] on;
    [counts] is [mesh->GetFaceVertexCounts()]. *)
Fixpoint Uniform_loop (usd_data : list T) (i : nat) (counts : list Z)
    (idx : nat) (data : list U) : result (nat * list U) :=
  match usd_data with
  | [] => Ok (idx, data)
  | x :: rest =>
      match counts !! i with
      | None => Undefined
      | Some k =>
          '(idx', data') ←
            Uniform_fill (Z.to_nat (size_t_of_int (k - 2))) (to_cycles x) idx data;
          Uniform_loop rest (S i) counts idx' data'
      end
  end.

(** [mesh_counts] is the outcome of evaluating [mesh->GetFaceVertexCounts()]. *)
Definition _PopulateAttribte_Uniform (usd_data : list T)
    (mesh_counts : result (list Z)) (data : list U) : result (bool * list U) :=
  let arr_size := length usd_data in
  if decide (arr_size <= 0) then Ok (false, data)
  else
    counts ← mesh_counts;
    '(_, data') ← Uniform_loop usd_data 0 counts 0 data;
    Ok (true, data').

(** One fan triangle of the face-varying populator: the three stores at the
    current position [off] of the moving [data] pointer. *)
Definition FaceVarying_triangle (usd_data : list T) (leftHanded : bool)
    (count vCount j : Z) (off : nat) (data : list U) : result (list U) :=
  let v0 := count in
  let v1 := if leftHanded then (count + ((vCount - 1) - j) + 0)%Z
            else (count + j + 0)%Z in
  let v2 := if leftHanded then (count + ((vCount - 1) - j) + 1)%Z
            else (count + j + 1)%Z in
  x0 ← usd_read usd_data v0;
  data0 ← attr_write data (off + 0) (to_cycles x0);
  x1 ← usd_read usd_data v1;
  data1 ← attr_write data0 (off + 1) (to_cycles x1);
  x2 ← usd_read usd_data v2;
  attr_write data1 (off + 2) (to_cycles x2).

(** [for (int j = 1; j < vCount - 1; ++j)], with [n] iterations left. *)
Fixpoint FaceVarying_fan (n : nat) (usd_data : list T) (leftHanded : bool)
    (count vCount j : Z) (off : nat) (data : list U) : result (nat * list U) :=
  match n with
  | O => Ok (off, data)
  | S n' =>
      data' ← FaceVarying_triangle usd_data leftHanded count vCount j off data;
      FaceVarying_fan n' usd_data leftHanded count vCount (j + 1) (off + 3) data'
  end.

(** The loop over [mesh->GetFaceVertexCounts()]. *)
Fixpoint FaceVarying_loop (counts : list Z) (usd_data : list T)
    (leftHanded : bool) (count : Z) (off : nat) (data : list U)
  : result (nat * list U) :=
  match counts with
  | [] => Ok (off, data)
  | vCount :: rest =>
      '(off', data') ←
        FaceVarying_fan (Z.to_nat (vCount - 2)) usd_data leftHanded count vCount 1
                        off data;
      FaceVarying_loop rest usd_data leftHanded (count + vCount) off' data'
  end.

Definition _PopulateAttribte_FaceVarying (usd_data : list T)
    (mesh_counts : result (list Z)) (orientation : TfToken) (data : list U)
  : result (bool * list U) :=
  let arr_size := length usd_data in
  if decide (arr_size <= 0) then Ok (false, data)
  else
    counts ← mesh_counts;
    '(_, data') ←
      FaceVarying_loop counts usd_data
                       (bool_decide (orientation = HdTokens.leftHanded)) 0 0 data;
    Ok (true, data').

Definition _PopulateAttribte_Constant (usd_data : list T) (data : list U)
  : result (bool * list U * list Diagnostic) :=
  let arr_size := length usd_data in
  if decide (arr_size ≠ 1)
  then Ok (false, data, [ConstantIncompatibleSize arr_size])
  else
    x ← usd_read usd_data 0;
    data' ← attr_write data 0 (to_cycles x);
    Ok (true, data', []).
End Populators.

(** ** Record update

    [r <| f := v |>] is [r] with field [f] set to [v], the embedding of the
    assignment [r.f = v]. *)

Class Setter {R E : Type} (proj : R -> E) := set : (E -> E) -> R -> R.
Arguments set {R E} proj {Setter} _ _ /.

Notation "r <| proj := v |>" := (set proj (fun _ => v) r)
  (at level 1, left associativity, format "r  <| proj  :=  v |>").
Notation "r <| proj ::= f |>" := (set proj f r)
  (at level 1, left associativity, format "r  <| proj  ::=  f |>").

(** [setter_of eta] builds the setter of the projection in the goal from the
    eta-expansion [eta] of the record: the field is replaced by the image of
    its old value, all other fields are copied. *)
Ltac setter_of eta :=
  lazymatch goal with
  | |- Setter ?proj =>
      let f := fresh "f" in
      let r := fresh "r" in
      unfold Setter; intros f r;
      let t := eval cbv beta delta [eta] in (eta r) in
      let t' := eval pattern (proj r) in t in
      lazymatch t' with
      | ?g _ => exact (g (f (proj r)))
      end
  end.

(** ** The renderer's containers

    [ccl::Mesh], [ccl::Object], [ccl::Attribute] and [ccl::AttributeSet] belong
    to the renderer library, not to this repository; each operation the
    delegate calls is modelled by its effect on the fields the delegate reads
    or writes. *)

Definition Shader := string.

Inductive AttributeStandard :=
  | ATTR_STD_NONE
  | ATTR_STD_VERTEX_NORMAL
  | ATTR_STD_FACE_NORMAL
  | ATTR_STD_UV
  | ATTR_STD_UV_TANGENT
  | ATTR_STD_UV_TANGENT_SIGN
  | ATTR_STD_VERTEX_COLOR
  | ATTR_STD_GENERATED
  | ATTR_STD_MOTION_VERTEX_POSITION.

Inductive AttributeElement :=
  | ATTR_ELEMENT_NONE
  | ATTR_ELEMENT_MESH
  | ATTR_ELEMENT_FACE
  | ATTR_ELEMENT_VERTEX
  | ATTR_ELEMENT_VERTEX_MOTION
  | ATTR_ELEMENT_CORNER
  | ATTR_ELEMENT_CORNER_BYTE
  | ATTR_ELEMENT_CURVE_KEY.

Inductive TypeDesc :=
  | TypeUnknown
  | TypeFloat
  | TypeFloat2
  | TypeColor
  | TypeVector
  | TypeNormal
  | TypePoint
  | TypeRGBA.

Inductive SubdivisionType :=
  | SUBDIVISION_NONE
  | SUBDIVISION_LINEAR
  | SUBDIVISION_CATMULL_CLARK.

#[global] Instance AttributeStandard_eq_dec : EqDecision AttributeStandard.
Proof. solve_decision. Defined.
#[global] Instance AttributeElement_eq_dec : EqDecision AttributeElement.
Proof. solve_decision. Defined.
#[global] Instance TypeDesc_eq_dec : EqDecision TypeDesc.
Proof. solve_decision. Defined.

(** [Attribute::standard_name] *)
Definition standard_name (std : AttributeStandard) : string :=
  match std with
  | ATTR_STD_NONE => ""
  | ATTR_STD_VERTEX_NORMAL => "N"
  | ATTR_STD_FACE_NORMAL => "Ng"
  | ATTR_STD_UV => "uv"
  | ATTR_STD_UV_TANGENT => "tangent"
  | ATTR_STD_UV_TANGENT_SIGN => "tangent_sign"
  | ATTR_STD_VERTEX_COLOR => "vertex_color"
  | ATTR_STD_GENERATED => "generated"
  | ATTR_STD_MOTION_VERTEX_POSITION => "motion_P"
  end.

(** The type and element [AttributeSet::add (std, name)] gives a standard
    attribute of a mesh. *)
Definition standard_layout (std : AttributeStandard) : TypeDesc * AttributeElement :=
  match std with
  | ATTR_STD_NONE => (TypeUnknown, ATTR_ELEMENT_NONE)
  | ATTR_STD_VERTEX_NORMAL => (TypeNormal, ATTR_ELEMENT_VERTEX)
  | ATTR_STD_FACE_NORMAL => (TypeNormal, ATTR_ELEMENT_FACE)
  | ATTR_STD_UV => (TypeFloat2, ATTR_ELEMENT_CORNER)
  | ATTR_STD_UV_TANGENT => (TypeVector, ATTR_ELEMENT_CORNER)
  | ATTR_STD_UV_TANGENT_SIGN => (TypeFloat, ATTR_ELEMENT_CORNER)
  | ATTR_STD_VERTEX_COLOR => (TypeRGBA, ATTR_ELEMENT_CORNER_BYTE)
  | ATTR_STD_GENERATED => (TypePoint, ATTR_ELEMENT_VERTEX)
  | ATTR_STD_MOTION_VERTEX_POSITION => (TypePoint, ATTR_ELEMENT_VERTEX_MOTION)
  end.

Section Renderer.
Context {N : Numerics}.

Record Attribute := {
  attr_name : string;
  attr_std : AttributeStandard;
  attr_type : TypeDesc;
  attr_element : AttributeElement;
  attr_data : list AttrElem;
}.

(** [ccl::Transform]: the three rows [x], [y], [z] of an affine 3x4 matrix. *)
Definition Transform : Type := float4 * float4 * float4.

Definition transform_identity : Transform :=
  (make_float4 f_one f_zero f_zero f_zero,
   make_float4 f_zero f_one f_zero f_zero,
   make_float4 f_zero f_zero f_one f_zero).

Definition transform_empty : Transform :=
  (make_float4 f_zero f_zero f_zero f_zero,
   make_float4 f_zero f_zero f_zero f_zero,
   make_float4 f_zero f_zero f_zero f_zero).

Record CclMesh := {
  verts : list float3;
  (** three vertex indices per triangle, with the triangle's shader index and
      smooth flag *)
  triangles : list (Z * Z * Z);
  shader : list Z;
  smooth : list bool;
  (** subdivision faces as (start_corner, num_corners) *)
  subd_faces : list (Z * Z);
  subd_face_corners : list Z;
  attributes : list Attribute;
  subd_attributes : list Attribute;
  used_shaders : list Shader;
  motion_steps : Z;
  use_motion_blur : bool;
  subdivision_type : SubdivisionType;
  (** [subd_params], a pointer that may be null, with its [objecttoworld] *)
  subd_params : option Transform;
  transform_applied : bool;
  need_update : bool;
  (** [bounds.min], [bounds.max] *)
  bounds : float3 * float3;
}.

Definition CclMesh_eta (r : CclMesh) : CclMesh :=
  {| verts := verts r; triangles := triangles r; shader := shader r;
     smooth := smooth r; subd_faces := subd_faces r;
     subd_face_corners := subd_face_corners r; attributes := attributes r;
     subd_attributes := subd_attributes r; used_shaders := used_shaders r;
     motion_steps := motion_steps r; use_motion_blur := use_motion_blur r;
     subdivision_type := subdivision_type r; subd_params := subd_params r;
     transform_applied := transform_applied r; need_update := need_update r;
     bounds := bounds r |}.
#[global] Instance set_verts : Setter verts := ltac:(setter_of CclMesh_eta).
#[global] Instance set_triangles : Setter triangles := ltac:(setter_of CclMesh_eta).
#[global] Instance set_shader : Setter shader := ltac:(setter_of CclMesh_eta).
#[global] Instance set_smooth : Setter smooth := ltac:(setter_of CclMesh_eta).
#[global] Instance set_subd_faces : Setter subd_faces := ltac:(setter_of CclMesh_eta).
#[global] Instance set_subd_face_corners : Setter subd_face_corners := ltac:(setter_of CclMesh_eta).
#[global] Instance set_attributes : Setter attributes := ltac:(setter_of CclMesh_eta).
#[global] Instance set_subd_attributes : Setter subd_attributes := ltac:(setter_of CclMesh_eta).
#[global] Instance set_used_shaders : Setter used_shaders := ltac:(setter_of CclMesh_eta).
#[global] Instance set_motion_steps : Setter motion_steps := ltac:(setter_of CclMesh_eta).
#[global] Instance set_use_motion_blur : Setter use_motion_blur := ltac:(setter_of CclMesh_eta).
#[global] Instance set_subdivision_type : Setter subdivision_type := ltac:(setter_of CclMesh_eta).
#[global] Instance set_subd_params : Setter subd_params := ltac:(setter_of CclMesh_eta).
#[global] Instance set_transform_applied : Setter transform_applied := ltac:(setter_of CclMesh_eta).
#[global] Instance set_need_update : Setter need_update := ltac:(setter_of CclMesh_eta).
#[global] Instance set_bounds : Setter bounds := ltac:(setter_of CclMesh_eta).

Record CclObject := {
  tfm : Transform;
  color : float3;
  pass_id : Z;
  visibility : Z;
  motion : list Transform;
  is_shadow_catcher : bool;
  use_holdout : bool;
}.

Definition CclObject_eta (r : CclObject) : CclObject :=
  {| tfm := tfm r; color := color r; pass_id := pass_id r;
     visibility := visibility r; motion := motion r;
     is_shadow_catcher := is_shadow_catcher r; use_holdout := use_holdout r |}.
#[global] Instance set_tfm : Setter tfm := ltac:(setter_of CclObject_eta).
#[global] Instance set_color : Setter color := ltac:(setter_of CclObject_eta).
#[global] Instance set_pass_id : Setter pass_id := ltac:(setter_of CclObject_eta).
#[global] Instance set_visibility : Setter visibility := ltac:(setter_of CclObject_eta).
#[global] Instance set_motion : Setter motion := ltac:(setter_of CclObject_eta).
#[global] Instance set_is_shadow_catcher : Setter is_shadow_catcher := ltac:(setter_of CclObject_eta).
#[global] Instance set_use_holdout : Setter use_holdout := ltac:(setter_of CclObject_eta).

Definition set_attr_data (d : list AttrElem) (a : Attribute) : Attribute :=
  {| attr_name := attr_name a; attr_std := attr_std a; attr_type := attr_type a;
     attr_element := attr_element a; attr_data := d |}.

Definition set_attr_std (s : AttributeStandard) (a : Attribute) : Attribute :=
  {| attr_name := attr_name a; attr_std := s; attr_type := attr_type a;
     attr_element := attr_element a; attr_data := attr_data a |}.

Definition num_triangles (m : CclMesh) : nat := length (triangles m).

(** [Attribute::element_size]: the number of elements an attribute of the
    given element kind has on mesh [m]; [subd] tells the attribute set
    ([subd_attributes] or [attributes]). *)
Definition element_size (m : CclMesh) (subd : bool) (e : AttributeElement) : nat :=
  match e with
  | ATTR_ELEMENT_NONE => 0
  | ATTR_ELEMENT_MESH => 1
  | ATTR_ELEMENT_FACE => if subd then length (subd_faces m) else num_triangles m
  | ATTR_ELEMENT_VERTEX => length (verts m)
  | ATTR_ELEMENT_VERTEX_MOTION => length (verts m) * Z.to_nat (motion_steps m - 1)
  | ATTR_ELEMENT_CORNER | ATTR_ELEMENT_CORNER_BYTE =>
      if subd then length (subd_face_corners m) else num_triangles m * 3
  | ATTR_ELEMENT_CURVE_KEY => 0
  end.

(** [AttributeSet::find (name)] and [AttributeSet::find (std)] *)
Definition find_name (attrs : list Attribute) (name : string) : option Attribute :=
  list_find (fun a => attr_name a = name) attrs ≫= fun p => Some p.2.

Definition find_std (attrs : list Attribute) (std : AttributeStandard)
  : option Attribute :=
  list_find (fun a => attr_std a = std) attrs ≫= fun p => Some p.2.

(** [AttributeSet::remove] *)
Definition remove_name (attrs : list Attribute) (name : string) : list Attribute :=
  filter (fun a => attr_name a ≠ name) attrs.

(** Writing through the [Attribute*] that [add] returned: the attribute of
    that name in the set is replaced. *)
Definition put_attr (attrs : list Attribute) (a : Attribute) : list Attribute :=
  (fun b => if decide (attr_name b = attr_name a) then a else b) <$> attrs.

(** [AttributeSet::add (name, type, element)]: an attribute of that name, type
    and element is returned as it is; otherwise one of that name is removed
    and a new, zero-filled one is appended. The result is the set and the
    attribute [add] points to. *)
Definition add_named (m : CclMesh) (subd : bool) (attrs : list Attribute)
    (name : string) (type : TypeDesc) (element : AttributeElement)
  : list Attribute * Attribute :=
  let fresh :=
    {| attr_name := name; attr_std := ATTR_STD_NONE; attr_type := type;
       attr_element := element;
       attr_data := replicate (element_size m subd element) elem_zero |} in
  match find_name attrs name with
  | Some a =>
      if decide (attr_type a = type ∧ attr_element a = element)
      then (attrs, a)
      else (remove_name attrs name ++ [fresh], fresh)
  | None => (attrs ++ [fresh], fresh)
  end.

(** [AttributeSet::add (std, name)]; an empty [name] stands for the standard
    name. *)
Definition add_std (m : CclMesh) (subd : bool) (attrs : list Attribute)
    (std : AttributeStandard) (name : string) : list Attribute * Attribute :=
  let name := if decide (name = "") then standard_name std else name in
  let '(type, element) := standard_layout std in
  let '(attrs', a) := add_named m subd attrs name type element in
  let a' := set_attr_std std a in
  (put_attr attrs' a', a').

(** The attribute set a function works on: [subd_attributes] or
    [attributes]. *)
Definition attribute_set (subd : bool) (m : CclMesh) : list Attribute :=
  if subd then subd_attributes m else attributes m.

Definition set_attribute_set (subd : bool) (l : list Attribute) (m : CclMesh) : CclMesh :=
  if subd then m <| subd_attributes := l |> else m <| attributes := l |>.

(** [Mesh::clear] *)
Definition Mesh_clear (m : CclMesh) : CclMesh :=
  m <| verts := [] |> <| triangles := [] |> <| shader := [] |> <| smooth := [] |>
    <| subd_faces := [] |> <| subd_face_corners := [] |>
    <| attributes := [] |> <| subd_attributes := [] |> <| used_shaders := [] |>
    <| transform_applied := false |>.

(** [Mesh::add_vertex] and [Mesh::add_triangle] *)
Definition add_vertex (P : float3) (m : CclMesh) : CclMesh :=
  m <| verts ::= fun vs => vs ++ [P] |>.

Definition add_triangle (v0 v1 v2 shader_ : Z) (smooth_ : bool) (m : CclMesh)
  : CclMesh :=
  m <| triangles ::= fun ts => ts ++ [(v0, v1, v2)] |>
    <| shader ::= fun ss => ss ++ [shader_] |>
    <| smooth ::= fun ss => ss ++ [smooth_] |>.

(** What a sync call does to the scene outside the mesh and its object, and
    what it prints. *)
Inductive Event :=
  | Cout (d : Diagnostic)
  | TF_CODING_WARNING (msg : string)
  | Shader_tag_update (sh : Shader)
  | Mesh_tag_update
  | Object_tag_update
  | Interrupt
  | Scene_AddGeometry (m : CclMesh)
  | Scene_AddObject (o : CclObject)
  | Scene_RemoveObject (o : CclObject).

End Renderer.

(** ** The scene graph's types (USD and Hydra)

    Library types of the host, reduced to what the delegate reads. *)

Module HdChangeTracker.
(** [HdChangeTracker::RprimDirtyBits], as pxr/imaging/hd/changeTracker.h
    numbers them. *)
Definition Clean : Z := 0.
Definition DirtyPrimID : Z := Z.shiftl 1 2.
Definition DirtyExtent : Z := Z.shiftl 1 3.
Definition DirtyDisplayStyle : Z := Z.shiftl 1 4.
Definition DirtyPoints : Z := Z.shiftl 1 5.
Definition DirtyPrimvar : Z := Z.shiftl 1 6.
Definition DirtyMaterialId : Z := Z.shiftl 1 7.
Definition DirtyTopology : Z := Z.shiftl 1 8.
Definition DirtyTransform : Z := Z.shiftl 1 9.
Definition DirtyVisibility : Z := Z.shiftl 1 10.
Definition DirtyNormals : Z := Z.shiftl 1 11.
Definition DirtyDoubleSided : Z := Z.shiftl 1 12.
Definition DirtySubdivTags : Z := Z.shiftl 1 14.
Definition DirtyWidths : Z := Z.shiftl 1 15.
Definition DirtyInstancer : Z := Z.shiftl 1 16.

(** [(bits & mask) != 0] *)
Definition has (bits mask : Z) : bool := negb (Z.land bits mask =? 0)%Z.

Definition IsTopologyDirty (bits : Z) : bool := has bits DirtyTopology.
Definition IsSubdivTagsDirty (bits : Z) : bool := has bits DirtySubdivTags.
Definition IsDisplayStyleDirty (bits : Z) : bool := has bits DirtyDisplayStyle.

Definition IsPrimvarDirty (bits : Z) (name : TfToken) : bool :=
  if decide (name = HdTokens.points) then has bits DirtyPoints
  else if decide (name = HdTokens.normals) then has bits DirtyNormals
  else if decide (name = HdTokens.widths) then has bits DirtyWidths
  else has bits DirtyPrimvar.
End HdChangeTracker.

(** The usdCycles schema tokens that [Sync] asks for. *)
Inductive UsdCyclesToken :=
  | primvarsCyclesObjectMblur
  | primvarsCyclesObjectMblurDeform
  | primvarsCyclesObjectMblurSteps
  | primvarsCyclesMeshSubdivision_type
  | primvarsCyclesMeshDicingRate
  | primvarsCyclesMeshSubdivision_max_level
  | primvarsCyclesObjectIs_shadow_catcher
  | primvarsCyclesObjectPass_id
  | primvarsCyclesObjectUse_holdout
  | primvarsCyclesObjectVisibilityCamera
  | primvarsCyclesObjectVisibilityDiffuse
  | primvarsCyclesObjectVisibilityGlossy
  | primvarsCyclesObjectVisibilityScatter
  | primvarsCyclesObjectVisibilityShadow
  | primvarsCyclesObjectVisibilityTransmission.

Inductive UsdCyclesSubdivisionToken :=
  | catmull_clark
  | linear
  | other_subdivision_token.

Section SceneGraph.
Context {N : Numerics}.

(** [GfMatrix4d]: four rows of four doubles, [mat[i][j]] being row [i],
    column [j]. *)
Definition GfMatrix4d : Type := GfVec4 (GfVec4 double).

(** [GfMatrix4d (1)] *)
Definition GfMatrix4d_diagonal_one : GfMatrix4d :=
  ((d_one, d_zero, d_zero, d_zero),
   (d_zero, d_one, d_zero, d_zero),
   (d_zero, d_zero, d_one, d_zero),
   (d_zero, d_zero, d_zero, d_one)).

Definition GfVec4d_eqb (a b : GfVec4 double) : bool :=
  let '(a0, a1, a2, a3) := a in
  let '(b0, b1, b2, b3) := b in
  d_eqb a0 b0 && d_eqb a1 b1 && d_eqb a2 b2 && d_eqb a3 b3.

Definition GfMatrix4d_eqb (a b : GfMatrix4d) : bool :=
  let '(a0, a1, a2, a3) := a in
  let '(b0, b1, b2, b3) := b in
  GfVec4d_eqb a0 b0 && GfVec4d_eqb a1 b1 && GfVec4d_eqb a2 b2 && GfVec4d_eqb a3 b3.

(** utils.cpp, [mat4d_to_transform]: row [x] of the result is column 0 of
    [mat], narrowed to float, and so on. *)
Definition mat4d_to_transform (mat : GfMatrix4d) : Transform :=
  let '((m00, m01, m02, m03), (m10, m11, m12, m13),
        (m20, m21, m22, m23), (m30, m31, m32, m33)) := mat in
  (make_float4 (float_of_double m00) (float_of_double m10)
               (float_of_double m20) (float_of_double m30),
   make_float4 (float_of_double m01) (float_of_double m11)
               (float_of_double m21) (float_of_double m31),
   make_float4 (float_of_double m02) (float_of_double m12)
               (float_of_double m22) (float_of_double m32)).

(** [HdTimeSampleArray<A, CAPACITY>]: [count] samples, [times.data ()[i]] and
    [values.data ()[i]] for [i < count]. *)
Record HdTimeSampleArray (A : Type) := {
  count : nat;
  times : list float;
  values : list A;
}.
Arguments count {A} _.
Arguments times {A} _.
Arguments values {A} _.

Definition HdTimeSampleArray_empty {A : Type} : HdTimeSampleArray A :=
  {| count := 0; times := []; values := [] |}.

Record HdDisplayStyle := {
  refineLevel : Z;
  flatShadingEnabled : bool;
  displacementEnabled : bool;
}.

Record HdGeomSubset := {
  subset_materialId : SdfPath;
  subset_indices : list Z;
}.

Record HdMeshTopology := {
  faceVertexCounts : list Z;
  faceVertexIndices : list Z;
  geomSubsets : list HdGeomSubset;
}.

Definition GetNumFaces (t : HdMeshTopology) : nat := length (faceVertexCounts t).

(** A primvar descriptor; its interpolation is the key it is listed under. *)
Record HdPrimvarDescriptor := {
  pv_name : TfToken;
  pv_role : TfToken;
}.

(** [HdCyclesMeshRefiner] (meshRefiner.h is not part of this source tree):
    the answers of one refiner to the calls the mesh makes. *)
Record HdCyclesMeshRefiner := {
  RefinedCounts : list Z;
  RefinedIndices : list (Z * Z * Z);
  GetNumVertices : Z;
  GetNumTriangles : Z;
  RefineVertexData : VtValue -> VtValue;
  RefineUniformData : VtValue -> VtValue;
  RefineData : VtValue -> HdInterpolation -> VtValue;
}.

(** ** mesh.cpp, the state of one [HdCyclesMesh]

    [m_cyclesMesh] and [m_cyclesObject] are created by the constructor and
    never reset, so the pointers are modelled by the objects they point to;
    [m_cyclesObject->geometry] is [m_cyclesMesh]. *)
Record HdCyclesMesh := {
  m_cyclesMesh : CclMesh;
  m_cyclesObject : CclObject;
  m_cyclesInstances : list CclObject;
  m_hasVertexColors : bool;
  m_visibilityFlags : Z;
  m_visCamera : bool;
  m_visDiffuse : bool;
  m_visGlossy : bool;
  m_visScatter : bool;
  m_visShadow : bool;
  m_visTransmission : bool;
  m_useMotionBlur : bool;
  m_useDeformMotionBlur : bool;
  m_useSubdivision : bool;
  m_subdivEnabled : bool;
  m_dicingRate : float;
  m_maxSubdivision : Z;
  m_motionSteps : Z;
  m_numTransformSamples : Z;
  m_numMeshVerts : nat;
  m_numMeshFaces : nat;
  m_points : list GfVec3f;
  m_normalsValid : bool;
  m_adjacencyValid : bool;
  m_topology : HdMeshTopology;
  (** a smart pointer, null until the first topology sync *)
  m_refiner : option HdCyclesMeshRefiner;
  m_orientation : TfToken;
  m_doubleSided : bool;
  m_displayStyle : HdDisplayStyle;
  m_refineLevel : Z;
  m_usedShaders : list Shader;
  m_materialMap : gmap SdfPath nat;
  m_cachedMaterialId : SdfPath;
  m_transformSamples : HdTimeSampleArray GfMatrix4d;
  m_pointSamples : HdTimeSampleArray VtValue;
  (** [_sharedData.visible] *)
  sharedData_visible : bool;
}.

Definition HdCyclesMesh_eta (r : HdCyclesMesh) : HdCyclesMesh :=
  {| m_cyclesMesh := m_cyclesMesh r; m_cyclesObject := m_cyclesObject r;
     m_cyclesInstances := m_cyclesInstances r;
     m_hasVertexColors := m_hasVertexColors r;
     m_visibilityFlags := m_visibilityFlags r; m_visCamera := m_visCamera r;
     m_visDiffuse := m_visDiffuse r; m_visGlossy := m_visGlossy r;
     m_visScatter := m_visScatter r; m_visShadow := m_visShadow r;
     m_visTransmission := m_visTransmission r;
     m_useMotionBlur := m_useMotionBlur r;
     m_useDeformMotionBlur := m_useDeformMotionBlur r;
     m_useSubdivision := m_useSubdivision r;
     m_subdivEnabled := m_subdivEnabled r; m_dicingRate := m_dicingRate r;
     m_maxSubdivision := m_maxSubdivision r; m_motionSteps := m_motionSteps r;
     m_numTransformSamples := m_numTransformSamples r;
     m_numMeshVerts := m_numMeshVerts r; m_numMeshFaces := m_numMeshFaces r;
     m_points := m_points r; m_normalsValid := m_normalsValid r;
     m_adjacencyValid := m_adjacencyValid r; m_topology := m_topology r;
     m_refiner := m_refiner r; m_orientation := m_orientation r;
     m_doubleSided := m_doubleSided r; m_displayStyle := m_displayStyle r;
     m_refineLevel := m_refineLevel r; m_usedShaders := m_usedShaders r;
     m_materialMap := m_materialMap r;
     m_cachedMaterialId := m_cachedMaterialId r;
     m_transformSamples := m_transformSamples r;
     m_pointSamples := m_pointSamples r;
     sharedData_visible := sharedData_visible r |}.
#[global] Instance set_m_cyclesMesh : Setter m_cyclesMesh := ltac:(setter_of HdCyclesMesh_eta).
#[global] Instance set_m_cyclesObject : Setter m_cyclesObject := ltac:(setter_of HdCyclesMesh_eta).
#[global] Instance set_m_cyclesInstances : Setter m_cyclesInstances := ltac:(setter_of HdCyclesMesh_eta).
#[global] Instance set_m_hasVertexColors : Setter m_hasVertexColors := ltac:(setter_of HdCyclesMesh_eta).
#[global] Instance set_m_visibilityFlags : Setter m_visibilityFlags := ltac:(setter_of HdCyclesMesh_eta).
#[global] Instance set_m_visCamera : Setter m_visCamera := ltac:(setter_of HdCyclesMesh_eta).
#[global] Instance set_m_visDiffuse : Setter m_visDiffuse := ltac:(setter_of HdCyclesMesh_eta).
#[global] Instance set_m_visGlossy : Setter m_visGlossy := ltac:(setter_of HdCyclesMesh_eta).
#[global] Instance set_m_visScatter : Setter m_visScatter := ltac:(setter_of HdCyclesMesh_eta).
#[global] Instance set_m_visShadow : Setter m_visShadow := ltac:(setter_of HdCyclesMesh_eta).
#[global] Instance set_m_visTransmission : Setter m_visTransmission := ltac:(setter_of HdCyclesMesh_eta).
#[global] Instance set_m_useMotionBlur : Setter m_useMotionBlur := ltac:(setter_of HdCyclesMesh_eta).
#[global] Instance set_m_useDeformMotionBlur : Setter m_useDeformMotionBlur := ltac:(setter_of HdCyclesMesh_eta).
#[global] Instance set_m_useSubdivision : Setter m_useSubdivision := ltac:(setter_of HdCyclesMesh_eta).
#[global] Instance set_m_subdivEnabled : Setter m_subdivEnabled := ltac:(setter_of HdCyclesMesh_eta).
#[global] Instance set_m_dicingRate : Setter m_dicingRate := ltac:(setter_of HdCyclesMesh_eta).
#[global] Instance set_m_maxSubdivision : Setter m_maxSubdivision := ltac:(setter_of HdCyclesMesh_eta).
#[global] Instance set_m_motionSteps : Setter m_motionSteps := ltac:(setter_of HdCyclesMesh_eta).
#[global] Instance set_m_numTransformSamples : Setter m_numTransformSamples := ltac:(setter_of HdCyclesMesh_eta).
#[global] Instance set_m_numMeshVerts : Setter m_numMeshVerts := ltac:(setter_of HdCyclesMesh_eta).
#[global] Instance set_m_numMeshFaces : Setter m_numMeshFaces := ltac:(setter_of HdCyclesMesh_eta).
#[global] Instance set_m_points : Setter m_points := ltac:(setter_of HdCyclesMesh_eta).
#[global] Instance set_m_normalsValid : Setter m_normalsValid := ltac:(setter_of HdCyclesMesh_eta).
#[global] Instance set_m_adjacencyValid : Setter m_adjacencyValid := ltac:(setter_of HdCyclesMesh_eta).
#[global] Instance set_m_topology : Setter m_topology := ltac:(setter_of HdCyclesMesh_eta).
#[global] Instance set_m_refiner : Setter m_refiner := ltac:(setter_of HdCyclesMesh_eta).
#[global] Instance set_m_orientation : Setter m_orientation := ltac:(setter_of HdCyclesMesh_eta).
#[global] Instance set_m_doubleSided : Setter m_doubleSided := ltac:(setter_of HdCyclesMesh_eta).
#[global] Instance set_m_displayStyle : Setter m_displayStyle := ltac:(setter_of HdCyclesMesh_eta).
#[global] Instance set_m_refineLevel : Setter m_refineLevel := ltac:(setter_of HdCyclesMesh_eta).
#[global] Instance set_m_usedShaders : Setter m_usedShaders := ltac:(setter_of HdCyclesMesh_eta).
#[global] Instance set_m_materialMap : Setter m_materialMap := ltac:(setter_of HdCyclesMesh_eta).
#[global] Instance set_m_cachedMaterialId : Setter m_cachedMaterialId := ltac:(setter_of HdCyclesMesh_eta).
#[global] Instance set_m_transformSamples : Setter m_transformSamples := ltac:(setter_of HdCyclesMesh_eta).
#[global] Instance set_m_pointSamples : Setter m_pointSamples := ltac:(setter_of HdCyclesMesh_eta).
#[global] Instance set_sharedData_visible : Setter sharedData_visible := ltac:(setter_of HdCyclesMesh_eta).

(** What the scene delegate and the render index answer for this primitive
    during one [Sync] call. *)
Record HdSceneDelegate := {
  (** the names of the ext-computation primvar descriptors *)
  GetExtComputationPrimvarDescriptors : HdInterpolation -> list TfToken;
  (** [HdExtComputationUtils::GetComputedPrimvarValues ({desc})]: the entry
      of the value store under the descriptor's name, if any *)
  GetComputedPrimvarValues : TfToken -> option VtValue;
  GetDisplayStyle : HdDisplayStyle;
  GetMeshTopology : HdMeshTopology;
  GetPrimvarDescriptors : HdInterpolation -> list HdPrimvarDescriptor;
  GetPrimvar : TfToken -> VtValue;
  GetDoubleSided : bool;
  (** [GetRenderIndex ().GetSprim (material, id)]: no such material, or the
      material with its Cycles shader, which may be null *)
  GetSprim_material : SdfPath -> option (option Shader);
  GetMaterialId : SdfPath;
  GetVisible : bool;
  (** the instancer, if any, with its [SampleInstanceTransforms (id)] *)
  GetInstancer : option (HdTimeSampleArray (list GfMatrix4d));
  SampleTransform : HdTimeSampleArray GfMatrix4d;
  GetPrimId : Z;
}.

(** [HdCyclesRenderParam] and its scene: the two fallback shaders. *)
Record HdCyclesRenderParam := {
  (** [scene->default_surface] *)
  default_surface : Shader;
  default_vcol_surface : Shader;
}.

(** Code that [Sync] calls and that is not in this source tree: library
    functions of the renderer, of the tangent-space library and of the scene
    graph, the refiner factory, the schema helper of utils.h, and the build
    configuration. *)
Class Externals := {
  HdCyclesMeshRefiner_Create : HdMeshTopology -> HdCyclesMeshRefiner;
  (** [Mesh::need_attribute (scene, std)] and [(scene, name)] *)
  need_attribute_std : CclMesh -> AttributeStandard -> bool;
  need_attribute_name : CclMesh -> string -> bool;
  (** [Mesh::compute_bounds], giving [bounds.min] and [bounds.max] *)
  compute_bounds : CclMesh -> float3 * float3;
  add_face_normals : CclMesh -> CclMesh;
  add_vertex_normals : CclMesh -> CclMesh;
  (** [genTangSpaceDefault]: the calls of [m_setTSpaceBasic] it makes, each
      already reduced to (corner index, tangent, sign) *)
  genTangSpaceDefault : CclMesh -> string -> list (nat * float3 * float);
  (** [GfMatrix4d::operator*] and [HdTimeSampleArray::Resample] *)
  GfMatrix4d_mul : GfMatrix4d -> GfMatrix4d -> GfMatrix4d;
  Resample : HdTimeSampleArray GfMatrix4d -> float -> GfMatrix4d;
  (** the default arguments [a_z], [a_alpha] of [vec2f_to_float4] and
      [a_alpha] of [vec3f_to_float4] (utils.h) *)
  default_a_z : float;
  default_a_alpha : float;
  HD_CYCLES_MOTION_STEPS : Z;
  (** [new ccl::Mesh ()] and [new ccl::Object ()] *)
  Mesh_new : CclMesh;
  Object_new : CclObject;
  (** [ccl::PathRayFlag], the bits combined into [m_visibilityFlags] *)
  PATH_RAY_CAMERA : Z;
  PATH_RAY_DIFFUSE : Z;
  PATH_RAY_GLOSSY : Z;
  PATH_RAY_VOLUME_SCATTER : Z;
  PATH_RAY_SHADOW : Z;
  PATH_RAY_TRANSMIT : Z;
  PATH_RAY_ALL_VISIBILITY : Z;
  (** whether the build defines [USE_USD_CYCLES_SCHEMA] *)
  USE_USD_CYCLES_SCHEMA : bool;
  (** [_HdCyclesGetMeshParam<T> (pv, dirtyBits, id, this, sceneDelegate,
      token, default)] of utils.h *)
  _HdCyclesGetMeshParam_bool :
    HdSceneDelegate -> HdPrimvarDescriptor -> Z -> UsdCyclesToken -> bool -> bool;
  _HdCyclesGetMeshParam_float :
    HdSceneDelegate -> HdPrimvarDescriptor -> Z -> UsdCyclesToken -> float -> float;
  _HdCyclesGetMeshParam_int :
    HdSceneDelegate -> HdPrimvarDescriptor -> Z -> UsdCyclesToken -> Z -> Z;
  _HdCyclesGetMeshParam_TfToken :
    HdSceneDelegate -> HdPrimvarDescriptor -> Z -> UsdCyclesToken ->
    UsdCyclesSubdivisionToken -> UsdCyclesSubdivisionToken;
}.

End SceneGraph.

Arguments count {N A} _.
Arguments times {N A} _.
Arguments values {N A} _.

(** ** utils.cpp and mesh.cpp, the functions *)

Section Code.
Context {N : Numerics} {X : Externals}.

(** [mesh->GetFaceVertexCounts ()], which dereferences [m_refiner], and
    [mesh->GetOrientation ()]. *)
Definition GetFaceVertexCounts (mesh : HdCyclesMesh) : result (list Z) :=
  match m_refiner mesh with
  | Some r => Ok (RefinedCounts r)
  | None => Undefined
  end.

Definition GetOrientation (mesh : HdCyclesMesh) : TfToken := m_orientation mesh.

(** The chain of [value.IsHolding<VtArray<T>> ()] tests that every branch of
    [_PopulateAttribute] goes through: [k] is the populator instantiated at
    the held element type, [otherwise] what happens when no test succeeds. *)
Definition populate_by_type (R : Type) (value : VtValue)
    (k : forall T : Type, (T -> AttrElem) -> list T -> R) (otherwise : R) : R :=
  match value with
  | VtFloatArray a => k _ (fun v => elem_float (to_cycles_float v)) a
  | VtDoubleArray a => k _ (fun v => elem_float (to_cycles_double v)) a
  | VtIntArray a => k _ (fun v => elem_float (to_cycles_int v)) a
  | VtVec2fArray a => k _ (fun v => elem_float2 (to_cycles_GfVec2f v)) a
  | VtVec2dArray a => k _ (fun v => elem_float2 (to_cycles_GfVec2d v)) a
  | VtVec2iArray a => k _ (fun v => elem_float2 (to_cycles_GfVec2i v)) a
  | VtVec3fArray a => k _ (fun v => elem_float3 (to_cycles_GfVec3f v)) a
  | VtVec3dArray a => k _ (fun v => elem_float3 (to_cycles_GfVec3d v)) a
  | VtVec3iArray a => k _ (fun v => elem_float3 (to_cycles_GfVec3i v)) a
  | VtVec4fArray a => k _ (fun v => elem_float4 (to_cycles_GfVec4f v)) a
  | VtVec4dArray a => k _ (fun v => elem_float4 (to_cycles_GfVec4d v)) a
  | VtVec4iArray a => k _ (fun v => elem_float4 (to_cycles_GfVec4i v)) a
  | VtEmpty | VtBoolArray _ | VtOther _ => otherwise
  end.

(** The callers of the populators drop the returned flag. *)
Definition drop_flag {U : Type} (r : result (bool * list U)) (out : list Diagnostic)
  : result (list U * list Diagnostic) :=
  match r with
  | Ok (_, d) => Ok (d, out)
  | Undefined => Undefined
  end.

Definition drop_flag_out {U : Type} (r : result (bool * list U * list Diagnostic))
  : result (list U * list Diagnostic) :=
  match r with
  | Ok (_, d, out) => Ok (d, out)
  | Undefined => Undefined
  end.

(** utils.cpp, [_PopulateAttribute]: the attribute's buffer afterwards and
    what was printed. *)
Definition _PopulateAttribute (name role : TfToken) (interpolation : HdInterpolation)
    (value : VtValue) (data : list AttrElem) (mesh : HdCyclesMesh)
  : result (list AttrElem * list Diagnostic) :=
  match interpolation with
  | HdInterpolationVertex =>
      populate_by_type _ value
        (fun T conv a => drop_flag (_PopulateAttribte_Vertex conv a data) [])
        (Ok (data, []))
  | HdInterpolationUniform =>
      counts ← GetFaceVertexCounts mesh;
      let sizes := UniformSizes (GetArraySize value) (length counts) in
      if decide (length counts < GetArraySize value)
      then Ok (data, [sizes; Oversized])
      else
        populate_by_type _ value
          (fun T conv a =>
             drop_flag (_PopulateAttribte_Uniform conv a (GetFaceVertexCounts mesh) data)
                       [sizes])
          (Ok (data, [sizes]))
  | HdInterpolationFaceVarying =>
      populate_by_type _ value
        (fun T conv a =>
           drop_flag (_PopulateAttribte_FaceVarying conv a (GetFaceVertexCounts mesh)
                                                    (GetOrientation mesh) data) [])
        (Ok (data, []))
  | HdInterpolationConstant =>
      populate_by_type _ value
        (fun T conv a => drop_flag_out (_PopulateAttribte_Constant conv a data))
        (Ok (data, []))
  | HdInterpolationVarying | HdInterpolationInstance =>
      Ok (data, [InterpolationUnsupported interpolation])
  end.

(** Componentwise arithmetic of [ccl::float3]. *)
Definition float3_map2 (op : float -> float -> float) (a b : float3) : float3 :=
  let '(a0, a1, a2) := a in
  let '(b0, b1, b2) := b in
  make_float3 (op a0 b0) (op a1 b1) (op a2 b2).

Definition float3_neg (a : float3) : float3 :=
  let '(a0, a1, a2) := a in make_float3 (f_neg a0) (f_neg a1) (f_neg a2).

Definition float3_div_scalar (a : float3) (s : float) : float3 :=
  let '(a0, a1, a2) := a in make_float3 (f_div a0 s) (f_div a1 s) (f_div a2 s).

(** utils.cpp, [HdCyclesMeshTextureSpace]: the resulting [a_loc], [a_size]. *)
Definition HdCyclesMeshTextureSpace (a_geom : CclMesh) : float3 * float3 :=
  let '(bmin, bmax) := bounds a_geom in
  let a_loc := float3_div_scalar (float3_map2 f_add bmax bmin) f_two in
  let '(sx, sy, sz) := float3_div_scalar (float3_map2 f_sub bmax bmin) f_two in
  let sx := if f_eqb sx f_zero then sx else f_div f_half sx in
  let sy := if f_eqb sy f_zero then sy else f_div f_half sy in
  let sz := if f_eqb sz f_zero then sz else f_div f_half sz in
  let a_size := make_float3 sx sy sz in
  (float3_map2 f_sub (float3_map2 f_mul a_loc a_size) (make_float3 f_half f_half f_half),
   a_size).

(** [xf.times.data ()[i]] and [xf.values.data ()[i]] *)
Definition sample_time {A : Type} (xf : HdTimeSampleArray A) (i : nat) : result float :=
  match times xf !! i with Some t => Ok t | None => Undefined end.

Definition sample_value {A : Type} (xf : HdTimeSampleArray A) (i : nat) : result A :=
  match values xf !! i with Some v => Ok v | None => Undefined end.

(** utils.cpp, [HdCyclesSetTransform], first loop: samples [i], [i + 1], ...
    ([n] of them) are looked at, and each one at time 0 becomes the base
    transform. *)
Fixpoint SetTransform_findCenter (n i : nat) (xf : HdTimeSampleArray GfMatrix4d)
    (object : CclObject) (foundCenter : bool) : result (CclObject * bool) :=
  match n with
  | O => Ok (object, foundCenter)
  | S n' =>
      t ← sample_time xf i;
      if f_eqb t f_zero
      then
        v ← sample_value xf i;
        SetTransform_findCenter n' (S i) xf (object <| tfm := mat4d_to_transform v |>) true
      else SetTransform_findCenter n' (S i) xf object foundCenter
  end.

(** utils.cpp, [HdCyclesSetTransform], the base transform for a positive
    sample count. *)
Definition SetTransform_base (xf : HdTimeSampleArray GfMatrix4d) (object : CclObject)
  : result CclObject :=
  let sampleCount := count xf in
  if decide (1 < sampleCount)
  then
    match SetTransform_findCenter sampleCount 0 xf object false with
    | Ok (object, true) => Ok object
    | Ok (object, false) =>
        v ← sample_value xf 0; Ok (object <| tfm := mat4d_to_transform v |>)
    | Undefined => Undefined
    end
  else v ← sample_value xf 0; Ok (object <| tfm := mat4d_to_transform v |>).

(** [motion[idx] = ...] on a [ccl::array] *)
Definition motion_write (motion_ : list Transform) (idx : nat) (t : Transform)
  : result (list Transform) :=
  if decide (idx < length motion_) then Ok (<[idx := t]> motion_) else Undefined.

(** utils.cpp, [HdCyclesSetTransform], second loop, which fills [motion]. *)
Fixpoint SetTransform_fillMotion (n i : nat) (xf : HdTimeSampleArray GfMatrix4d)
    (object : CclObject) : result CclObject :=
  match n with
  | O => Ok object
  | S n' =>
      t ← sample_time xf i;
      v ← sample_value xf i;
      let object :=
        if f_eqb t f_zero then object <| tfm := mat4d_to_transform v |> else object in
      motion' ← motion_write (motion object) i (mat4d_to_transform v);
      SetTransform_fillMotion n' (S i) xf (object <| motion := motion' |>)
  end.

(** utils.cpp, [HdCyclesSetTransform]. [object] may be null; [geometry] is
    the mesh [object->geometry] points to, if any; [xf] is what
    [delegate->SampleTransform] produced. The result is the object, its
    geometry and the returned samples. *)
Definition HdCyclesSetTransform (object : option CclObject) (geometry : option CclMesh)
    (xf : HdTimeSampleArray GfMatrix4d) (use_motion : bool)
  : result (option CclObject * option CclMesh * HdTimeSampleArray GfMatrix4d) :=
  match object with
  | None => Ok (None, geometry, HdTimeSampleArray_empty)
  | Some object =>
      let sampleCount := count xf in
      if decide (sampleCount = 0)
      then Ok (Some (object <| tfm := transform_identity |>), geometry, xf)
      else
        object ← SetTransform_base xf object;
        if negb use_motion then Ok (Some object, geometry, xf)
        else
          let object := object <| motion := [] |> in
          match geometry with
          | None => Ok (Some object, None, xf)
          | Some g =>
              if use_motion_blur g && negb (motion_steps g =? Z.of_nat sampleCount)%Z
              then
                Ok (Some (object <| motion :=
                                      replicate (Z.to_nat (motion_steps g)) (tfm object) |>),
                    Some g, xf)
              else if (motion_steps g =? Z.of_nat sampleCount)%Z
              then
                let g := g <| use_motion_blur := true |> in
                let g := if transform_applied g then g <| need_update := true |> else g in
                let object := object <| motion := replicate sampleCount transform_empty |> in
                object ← SetTransform_fillMotion sampleCount 0 xf object;
                Ok (Some object, Some g, xf)
              else Ok (Some object, Some g, xf)
          end
  end.

(** utils.cpp, [mikk_set_tangent_space], for each call that
    [genTangSpaceDefault] makes: the tangent and sign buffers afterwards. *)
Fixpoint mikk_set_tangent_spaces (calls : list (nat * float3 * float))
    (tangent tangent_sign : list AttrElem) : result (list AttrElem * list AttrElem) :=
  match calls with
  | [] => Ok (tangent, tangent_sign)
  | (corner_index, T_, sign) :: rest =>
      tangent' ← attr_write tangent corner_index (elem_float3 T_);
      tangent_sign' ← attr_write tangent_sign corner_index (elem_float sign);
      mikk_set_tangent_spaces rest tangent' tangent_sign'
  end.

(** utils.cpp, [mikk_compute_tangents (layer_name, mesh, true, true)], the
    only way mesh.cpp calls it on its live path. *)
Definition mikk_compute_tangents (layer_name : string) (mesh : CclMesh)
  : result CclMesh :=
  let subd := negb (bool_decide (length (subd_faces mesh) = 0)) in
  let get := attribute_set subd in
  let put := set_attribute_set subd in
  let '(attrs, attr) :=
    add_std mesh subd (get mesh) ATTR_STD_UV_TANGENT (layer_name +:+ ".tangent") in
  let '(attrs, attr_sign) :=
    add_std mesh subd attrs ATTR_STD_UV_TANGENT_SIGN (layer_name +:+ ".tangent_sign") in
  let mesh := put attrs mesh in
  (* MikkUserData: vertex normals are created when the mesh has none *)
  let mesh :=
    match find_std (get mesh) ATTR_STD_VERTEX_NORMAL with
    | Some _ => mesh
    | None => add_vertex_normals (add_face_normals mesh)
    end in
  match find_std (get mesh) ATTR_STD_VERTEX_NORMAL with
  | None => Undefined
  | Some _ =>
      match find_name (get mesh) (attr_name attr), find_name (get mesh) (attr_name attr_sign) with
      | Some attr, Some attr_sign =>
          '(tangent, tangent_sign) ←
            mikk_set_tangent_spaces (genTangSpaceDefault mesh layer_name)
                                    (attr_data attr) (attr_data attr_sign);
          Ok (put (put_attr (put_attr (get mesh) (set_attr_data tangent attr))
                            (set_attr_data tangent_sign attr_sign)) mesh)
      | _, _ => Undefined
      end
  end.

(** [a[i]] for a [size_t] index into a [VtArray] *)
Definition array_read {A : Type} (a : list A) (i : nat) : result A :=
  match a !! i with Some x => Ok x | None => Undefined end.

(** [memset (cdata, 0, n * sizeof (ccl::float3))] *)
Definition memset_zero (n : nat) (cdata : list AttrElem) : result (list AttrElem) :=
  if decide (n <= length cdata)
  then Ok (replicate n elem_zero ++ drop n cdata)
  else Undefined.

(** [*m_refiner] *)
Definition refiner_of (self : HdCyclesMesh) : result HdCyclesMeshRefiner :=
  match m_refiner self with Some r => Ok r | None => Undefined end.

(** mesh.cpp, [_AddNormals], the loop of the per-vertex branch: vertices [i],
    [i + 1], ... ([n] of them). *)
Fixpoint AddNormals_vertex_loop (n i : nat) (normals : list GfVec3f)
    (leftHanded : bool) (cdata : list AttrElem) : result (list AttrElem) :=
  match n with
  | O => Ok cdata
  | S n' =>
      x ← array_read normals i;
      let n_ := vec3f_to_float3 x in
      let n_ := if leftHanded then float3_neg n_ else n_ in
      cdata' ← attr_write cdata i (elem_float3 n_);
      AddNormals_vertex_loop n' (S i) normals leftHanded cdata'
  end.

(** mesh.cpp, [_AddNormals]. In the uniform branch the inner loop
    [for (int j = 1; j < vCount - 1; ++idx)] never changes [j]: once entered
    it has no exit. *)
Definition _AddNormals (normals : list GfVec3f) (interpolation : HdInterpolation)
    (self : HdCyclesMesh) : result HdCyclesMesh :=
  let mesh := m_cyclesMesh self in
  match interpolation with
  | HdInterpolationUniform =>
      let added :=
        add_std mesh false (attributes mesh) ATTR_STD_FACE_NORMAL "" in
      let attrs := added.1 in
      let attr_fN := added.2 in
      let self := self <| m_cyclesMesh := mesh <| attributes := attrs |> |> in
      vertex_counts ← GetFaceVertexCounts self;
      if forallb (fun vCount => negb (1 <? vCount - 1)%Z) vertex_counts
      then Ok self
      else Undefined
  | HdInterpolationVertex =>
      let added :=
        add_std mesh false (attributes mesh) ATTR_STD_VERTEX_NORMAL "" in
      let attrs := added.1 in
      let attr := added.2 in
      let n := length (verts mesh) in
      cdata ← memset_zero n (attr_data attr);
      cdata ← AddNormals_vertex_loop n 0 normals
                 (bool_decide (m_orientation self = HdTokens.leftHanded)) cdata;
      Ok (self <| m_cyclesMesh :=
                    mesh <| attributes := put_attr attrs (set_attr_data cdata attr) |> |>)
  | HdInterpolationFaceVarying =>
      Ok (self <| m_cyclesMesh := add_vertex_normals (add_face_normals mesh) |>)
  | HdInterpolationConstant | HdInterpolationVarying | HdInterpolationInstance =>
      Ok self
  end.

(** mesh.cpp, [_AddUVSet] *)
Definition _AddUVSet (name : TfToken) (uvs : VtValue) (interpolation : HdInterpolation)
    (self : HdCyclesMesh) : result (HdCyclesMesh * list Event) :=
  let mesh := m_cyclesMesh self in
  let added := add_std mesh false (attributes mesh) ATTR_STD_UV name in
  let attrs := added.1 in
  let attr := added.2 in
  let self := self <| m_cyclesMesh := mesh <| attributes := attrs |> |> in
  populated ←
    _PopulateAttribute name HdPrimvarRoleTokens.textureCoordinate interpolation uvs
                       (attr_data attr) self;
  let mesh := (m_cyclesMesh self)
                <| attributes := put_attr attrs (set_attr_data populated.1 attr) |> in
  (* need_tangent and need_sign are forced to true *)
  mesh ← mikk_compute_tangents name mesh;
  Ok (self <| m_cyclesMesh := mesh |>, map Cout populated.2).

(** mesh.cpp, [_AddColors], the element and type chosen for the attribute. *)
Definition AddColors_celem (interpolation : HdInterpolation) : AttributeElement :=
  match interpolation with
  | HdInterpolationConstant => ATTR_ELEMENT_MESH
  | HdInterpolationVertex => ATTR_ELEMENT_VERTEX
  | HdInterpolationVarying | HdInterpolationFaceVarying => ATTR_ELEMENT_CORNER
  | HdInterpolationUniform => ATTR_ELEMENT_FACE
  | HdInterpolationInstance => ATTR_ELEMENT_NONE
  end.

Definition AddColors_ctype (colors : VtValue) : TypeDesc :=
  match colors with
  | VtFloatArray _ | VtDoubleArray _ | VtIntArray _ | VtBoolArray _ => TypeFloat
  | VtVec2fArray _ | VtVec2dArray _ | VtVec2iArray _ => TypeFloat2
  | VtVec3fArray _ | VtVec3dArray _ | VtVec3iArray _ => TypeColor
  | VtVec4fArray _ | VtVec4dArray _ | VtVec4iArray _ => TypeVector
  | VtEmpty | VtOther _ => TypeUnknown
  end.

(** mesh.cpp, [_AddColors], the local [displayColor]. When the value holds
    none of the four float types the source prints a message and then reads
    the local without having initialised it. *)
Definition AddColors_displayColor (colors : VtValue) : result float4 :=
  match colors with
  | VtFloatArray a => x ← array_read a 0; Ok (vec1f_to_float4 x)
  | VtVec2fArray a => x ← array_read a 0; Ok (vec2f_to_float4 x default_a_z default_a_alpha)
  | VtVec3fArray a => x ← array_read a 0; Ok (vec3f_to_float4 x default_a_alpha)
  | VtVec4fArray a => x ← array_read a 0; Ok (vec4f_to_float4 x)
  | _ => Undefined
  end.

(** mesh.cpp, [_AddColors] *)
Definition _AddColors (name role : TfToken) (colors : VtValue)
    (interpolation : HdInterpolation) (self : HdCyclesMesh)
  : result (HdCyclesMesh * list Event) :=
  if IsEmpty colors then Ok (self, [])
  else
    let mesh := m_cyclesMesh self in
    let celem := AddColors_celem interpolation in
    let ctype := AddColors_ctype colors in
    let added := add_named mesh false (attributes mesh) name ctype celem in
    let attrs := added.1 in
    let vcol_attr := added.2 in
    let self := self <| m_cyclesMesh := mesh <| attributes := attrs |> |> in
    populated ←
      _PopulateAttribute name HdPrimvarRoleTokens.vector interpolation colors
                         (attr_data vcol_attr) self;
    let self :=
      self <| m_cyclesMesh ::= fun m =>
                m <| attributes := put_attr attrs (set_attr_data populated.1 vcol_attr) |> |> in
    if bool_decide (name = HdTokens.displayColor ∧ interpolation = HdInterpolationConstant)
    then
      displayColor ← AddColors_displayColor colors;
      Ok (self <| m_cyclesObject ::= fun o =>
                    o <| color := make_float3 (float4_x displayColor) (float4_y displayColor)
                                              (float4_z displayColor) |> |>,
          map Cout populated.2)
    else Ok (self, map Cout populated.2).

(** mesh.cpp, [_CreateCyclesObject] *)
Definition _CreateCyclesObject : CclObject :=
  Object_new <| tfm := transform_identity |> <| pass_id := (-1)%Z |>
             <| visibility := PATH_RAY_ALL_VISIBILITY |>.

(** mesh.cpp, [_CreateCyclesMesh]: the new mesh, and [self] with its two
    counters reset. *)
Definition _CreateCyclesMesh (self : HdCyclesMesh) : CclMesh * HdCyclesMesh :=
  let mesh := Mesh_clear Mesh_new in
  let mesh :=
    if m_useMotionBlur self && m_useDeformMotionBlur self
    then mesh <| use_motion_blur := true |> else mesh in
  (mesh <| subdivision_type := SUBDIVISION_NONE |>,
   self <| m_numMeshVerts := 0 |> <| m_numMeshFaces := 0 |>).

(** mesh.cpp, [_PopulateVertices] *)
Definition _PopulateVertices (sceneDelegate : HdSceneDelegate) (self : HdCyclesMesh)
  : result HdCyclesMesh :=
  let points_value := GetPrimvar sceneDelegate HdTokens.points in
  refiner ← refiner_of self;
  let refined_points_value := RefineVertexData refiner points_value in
  let points :=
    match refined_points_value with VtVec3fArray a => a | _ => [] end in
  Ok (self <| m_cyclesMesh ::= fun m =>
                foldl (fun m '(d0, d1, d2) => add_vertex (make_float3 d0 d1 d2) m) m points |>).

(** mesh.cpp, [_PopulateMotion], the inner loop: [n] points of sample [pp],
    from point [j] on, are stored at [mP], [mP + 1], ... *)
Fixpoint PopulateMotion_points (n j : nat) (pp : list GfVec3f) (mP : nat)
    (data : list AttrElem) : result (nat * list AttrElem) :=
  match n with
  | O => Ok (mP, data)
  | S n' =>
      x ← array_read pp j;
      data' ← attr_write data mP (elem_float3 (vec3f_to_float3 x));
      PopulateMotion_points n' (S j) pp (S mP) data'
  end.

(** mesh.cpp, [_PopulateMotion], the outer loop over the samples [i],
    [i + 1], ... ([n] of them). *)
Fixpoint PopulateMotion_samples (n i : nat) (samples : HdTimeSampleArray VtValue)
    (numMeshVerts : nat) (mP : nat) (data : list AttrElem)
  : result (nat * list AttrElem) :=
  match n with
  | O => Ok (mP, data)
  | S n' =>
      t ← sample_time samples i;
      if f_eqb t f_zero
      then PopulateMotion_samples n' (S i) samples numMeshVerts mP data
      else
        v ← sample_value samples i;
        let pp := Get_VtVec3fArray v in
        written ← PopulateMotion_points numMeshVerts 0 pp mP data;
        PopulateMotion_samples n' (S i) samples numMeshVerts written.1 written.2
  end.

(** mesh.cpp, [_PopulateMotion]. An attribute that [find] returns is removed
    and then written through the stale pointer. *)
Definition _PopulateMotion (self : HdCyclesMesh) : result HdCyclesMesh :=
  let samples := m_pointSamples self in
  if decide (count samples <= 1) then Ok self
  else
    let subd := m_useSubdivision self in
    let mesh := (m_cyclesMesh self)
                  <| use_motion_blur := true |>
                  <| motion_steps := (Z.of_nat (count samples) + 1)%Z |> in
    let attrs := attribute_set subd mesh in
    match find_std attrs ATTR_STD_MOTION_VERTEX_POSITION with
    | Some _ => Undefined
    | None =>
        let added :=
          add_std mesh subd attrs ATTR_STD_MOTION_VERTEX_POSITION "" in
        let attrs := added.1 in
        let attr_mP := added.2 in
        written ←
          PopulateMotion_samples (count samples) 0 samples (m_numMeshVerts self) 0
                                 (attr_data attr_mP);
        let attrs := put_attr attrs (set_attr_data written.2 attr_mP) in
        Ok (self <| m_cyclesMesh := set_attribute_set subd attrs mesh |>)
    end.

(** mesh.cpp, [_PopulateFaces], the loop over the refined triangles [i],
    [i + 1], ... *)
Fixpoint PopulateFaces_loop (refined_indices : list (Z * Z * Z)) (i : nat)
    (material_ids : list Z) (mesh : CclMesh) : CclMesh :=
  match refined_indices with
  | [] => mesh
  | (i0, i1, i2) :: rest =>
      let material_id := default 0%Z (material_ids !! i) in
      PopulateFaces_loop rest (S i) material_ids (add_triangle i0 i1 i2 material_id true mesh)
  end.

(** mesh.cpp, [_PopulateFaces]; [reserve_mesh] only reserves capacity. *)
Definition _PopulateFaces (input_material_ids : list Z) (self : HdCyclesMesh)
  : result HdCyclesMesh :=
  refiner ← refiner_of self;
  let refined_indices := RefinedIndices refiner in
  let material_ids :=
    match RefineUniformData refiner (VtIntArray input_material_ids) with
    | VtIntArray a => a
    | _ => []
    end in
  Ok (self <| m_cyclesMesh ::= PopulateFaces_loop refined_indices 0 material_ids |>).

(** mesh.cpp, [_PopulateGenerated], the loop over the vertices. *)
Fixpoint PopulateGenerated_loop (vs : list float3) (i : nat) (loc size : float3)
    (generated : list AttrElem) : result (list AttrElem) :=
  match vs with
  | [] => Ok generated
  | v :: rest =>
      generated' ←
        attr_write generated i
          (elem_float3 (float3_map2 f_sub (float3_map2 f_mul v size) loc));
      PopulateGenerated_loop rest (S i) loc size generated'
  end.

(** mesh.cpp, [_PopulateGenerated] *)
Definition _PopulateGenerated (self : HdCyclesMesh) : result HdCyclesMesh :=
  let mesh := m_cyclesMesh self in
  if need_attribute_std mesh ATTR_STD_GENERATED
  then
    let space := HdCyclesMeshTextureSpace mesh in
    let loc := space.1 in
    let size := space.2 in
    let subd := m_useSubdivision self in
    let attrs := attribute_set subd mesh in
    let added := add_std mesh subd attrs ATTR_STD_GENERATED "" in
    let attrs := added.1 in
    let attr := added.2 in
    generated ← PopulateGenerated_loop (verts mesh) 0 loc size (attr_data attr);
    let attrs := put_attr attrs (set_attr_data generated attr) in
    Ok (self <| m_cyclesMesh := set_attribute_set subd attrs mesh |>)
  else Ok self.

(** mesh.cpp, [_FinishMesh] *)
Definition _FinishMesh (self : HdCyclesMesh) : result HdCyclesMesh :=
  _PopulateGenerated
    (self <| m_cyclesMesh ::= fun m => m <| bounds := compute_bounds m |> |>).

(** ** mesh.cpp, [HdCyclesMesh::Sync] *)

(** The locals of [Sync] that outlive the block that sets them, and the calls
    made so far on the scene and on the output streams. *)
Record SyncState := {
  self : HdCyclesMesh;
  mesh_updated : bool;
  newMesh : bool;
  out : list Event;
}.

Definition SyncState_eta (r : SyncState) : SyncState :=
  {| self := self r; mesh_updated := mesh_updated r; newMesh := newMesh r; out := out r |}.
#[global] Instance set_self : Setter self := ltac:(setter_of SyncState_eta).
#[global] Instance set_mesh_updated : Setter mesh_updated := ltac:(setter_of SyncState_eta).
#[global] Instance set_newMesh : Setter newMesh := ltac:(setter_of SyncState_eta).
#[global] Instance set_out : Setter out := ltac:(setter_of SyncState_eta).

Definition emit (es : list Event) (s : SyncState) : SyncState :=
  s <| out ::= fun l => l ++ es |>.

(** Lines 655-679: the loop over the ext-computation descriptors skips every
    name but [points] and stops at the first [points]. *)
Fixpoint Sync_computedPoints (sceneDelegate : HdSceneDelegate) (dirtyBits : Z)
    (extComputationDescs : list TfToken) (s : SyncState) : SyncState :=
  match extComputationDescs with
  | [] => s
  | name :: rest =>
      if decide (name ≠ HdTokens.points)
      then Sync_computedPoints sceneDelegate dirtyBits rest s
      else if HdChangeTracker.IsPrimvarDirty dirtyBits name
      then
        let s := s <| mesh_updated := true |> in
        match GetComputedPrimvarValues sceneDelegate name with
        | Some v =>
            if IsEmpty v then s
            else
              s <| self ::= fun m =>
                     m <| m_points := Get_VtVec3fArray v |>
                       <| m_numMeshVerts := length (Get_VtVec3fArray v) |>
                       <| m_normalsValid := false |> |>
                <| newMesh := true |>
        | None => s
        end
      else s
  end.

(** Lines 702-714 *)
Definition Sync_topology (sceneDelegate : HdSceneDelegate) (dirtyBits : Z)
    (s : SyncState) : SyncState :=
  if HdChangeTracker.IsTopologyDirty dirtyBits
     || HdChangeTracker.IsSubdivTagsDirty dirtyBits
     || HdChangeTracker.IsDisplayStyleDirty dirtyBits
  then
    let topology := GetMeshTopology sceneDelegate in
    s <| self ::= fun m =>
           m <| m_topology := topology |>
             <| m_refiner := Some (HdCyclesMeshRefiner_Create topology) |>
             <| m_adjacencyValid := false |>
             <| m_normalsValid := false |> |>
      <| newMesh := true |>
  else s.

(** The [std::map] built at lines 716-728, in the order its iteration visits
    the keys (the order of the enumeration). *)
Definition primvarDescsPerInterpolation (sceneDelegate : HdSceneDelegate)
  : list (HdInterpolation * list HdPrimvarDescriptor) :=
  [ (HdInterpolationConstant, GetPrimvarDescriptors sceneDelegate HdInterpolationConstant);
    (HdInterpolationUniform, GetPrimvarDescriptors sceneDelegate HdInterpolationUniform);
    (HdInterpolationVertex, GetPrimvarDescriptors sceneDelegate HdInterpolationVertex);
    (HdInterpolationFaceVarying,
     GetPrimvarDescriptors sceneDelegate HdInterpolationFaceVarying) ].

(** Lines 730-733 *)
Definition Sync_doubleSided (sceneDelegate : HdSceneDelegate) (dirtyBits : Z)
    (s : SyncState) : SyncState :=
  if HdChangeTracker.has dirtyBits HdChangeTracker.DirtyDoubleSided
  then s <| mesh_updated := true |>
         <| self ::= fun m => m <| m_doubleSided := GetDoubleSided sceneDelegate |> |>
  else s.

(** Lines 738-748 *)
Definition Sync_displayStyle (sceneDelegate : HdSceneDelegate) (dirtyBits : Z)
    (s : SyncState) : SyncState :=
  if HdChangeTracker.has dirtyBits HdChangeTracker.DirtyDisplayStyle
  then
    let style := GetDisplayStyle sceneDelegate in
    let s := s <| mesh_updated := true |>
               <| self ::= fun m => m <| m_displayStyle := style |> |> in
    if decide (m_refineLevel (self s) ≠ refineLevel style)
    then s <| self ::= fun m => m <| m_refineLevel := refineLevel style |> |>
           <| newMesh := true |>
    else s
  else s.

(** [(bool) k] for an [int] [k] *)
Definition bool_of_int (k : Z) : bool := negb (k =? 0)%Z.

Definition visibility_bit (b : bool) (flag : Z) : Z := if b then flag else 0%Z.

(** Lines 754-853: the body of the loop that the build compiles under
    [USE_USD_CYCLES_SCHEMA], for one primvar descriptor. *)
Definition Sync_schema_primvar (sceneDelegate : HdSceneDelegate) (dirtyBits : Z)
    (pv : HdPrimvarDescriptor) (s : SyncState) : SyncState :=
  let get_bool := _HdCyclesGetMeshParam_bool sceneDelegate pv dirtyBits in
  let me := self s in
  let me := me <| m_useMotionBlur := get_bool primvarsCyclesObjectMblur (m_useMotionBlur me) |> in
  let me := me <| m_useDeformMotionBlur :=
                    get_bool primvarsCyclesObjectMblurDeform (m_useDeformMotionBlur me) |> in
  let me := me <| m_motionSteps :=
                    Z.b2z (get_bool primvarsCyclesObjectMblurSteps
                                    (bool_of_int (m_motionSteps me))) |> in
  let subdivisionType :=
    _HdCyclesGetMeshParam_TfToken sceneDelegate pv dirtyBits
      primvarsCyclesMeshSubdivision_type catmull_clark in
  let me := me <| m_cyclesMesh ::= fun m =>
                    m <| subdivision_type :=
                           match subdivisionType with
                           | catmull_clark => SUBDIVISION_CATMULL_CLARK
                           | linear => SUBDIVISION_LINEAR
                           | other_subdivision_token => SUBDIVISION_NONE
                           end |> |> in
  let me := me <| m_dicingRate :=
                    _HdCyclesGetMeshParam_float sceneDelegate pv dirtyBits
                      primvarsCyclesMeshDicingRate (m_dicingRate me) |> in
  let me := me <| m_maxSubdivision :=
                    _HdCyclesGetMeshParam_int sceneDelegate pv dirtyBits
                      primvarsCyclesMeshSubdivision_max_level (m_maxSubdivision me) |> in
  let me := me <| m_cyclesObject ::= fun o =>
                    o <| is_shadow_catcher :=
                           get_bool primvarsCyclesObjectIs_shadow_catcher
                                    (is_shadow_catcher o) |> |> in
  let me := me <| m_cyclesObject ::= fun o =>
                    o <| pass_id :=
                           Z.b2z (get_bool primvarsCyclesObjectPass_id
                                           (bool_of_int (pass_id o))) |> |> in
  let me := me <| m_cyclesObject ::= fun o =>
                    o <| use_holdout :=
                           get_bool primvarsCyclesObjectUse_holdout (use_holdout o) |> |> in
  let me := me <| m_visibilityFlags := 0%Z |> in
  let me := me <| m_visCamera :=
                    get_bool primvarsCyclesObjectVisibilityCamera (m_visCamera me) |> in
  let me := me <| m_visDiffuse :=
                    get_bool primvarsCyclesObjectVisibilityDiffuse (m_visDiffuse me) |> in
  let me := me <| m_visGlossy :=
                    get_bool primvarsCyclesObjectVisibilityGlossy (m_visGlossy me) |> in
  let me := me <| m_visScatter :=
                    get_bool primvarsCyclesObjectVisibilityScatter (m_visScatter me) |> in
  let me := me <| m_visShadow :=
                    get_bool primvarsCyclesObjectVisibilityShadow (m_visShadow me) |> in
  let me := me <| m_visTransmission :=
                    get_bool primvarsCyclesObjectVisibilityTransmission
                             (m_visTransmission me) |> in
  let flags :=
    fold_left Z.lor
      [ visibility_bit (m_visCamera me) PATH_RAY_CAMERA;
        visibility_bit (m_visDiffuse me) PATH_RAY_DIFFUSE;
        visibility_bit (m_visGlossy me) PATH_RAY_GLOSSY;
        visibility_bit (m_visScatter me) PATH_RAY_VOLUME_SCATTER;
        visibility_bit (m_visShadow me) PATH_RAY_SHADOW;
        visibility_bit (m_visTransmission me) PATH_RAY_TRANSMIT ]
      (m_visibilityFlags me) in
  s <| self := me <| m_visibilityFlags := flags |> |> <| mesh_updated := true |>.

(** Lines 751-856 *)
Definition Sync_schema (sceneDelegate : HdSceneDelegate) (dirtyBits : Z)
    (s : SyncState) : SyncState :=
  if USE_USD_CYCLES_SCHEMA
  then
    foldl (fun s entry =>
             foldl (fun s pv => Sync_schema_primvar sceneDelegate dirtyBits pv s)
                   s entry.2)
          s (primvarDescsPerInterpolation sceneDelegate)
  else s.

(** [faceMaterials[i] = v] for an [int] index *)
Definition faceMaterials_write (faceMaterials : list Z) (i v : Z) : result (list Z) :=
  if decide (0 <= i < Z.of_nat (length faceMaterials))%Z
  then Ok (<[Z.to_nat i := v]> faceMaterials)
  else Undefined.

(** Lines 886-888 *)
Fixpoint Sync_subset_indices (indices : list Z) (subsetMaterialIndex : Z)
    (faceMaterials : list Z) : result (list Z) :=
  match indices with
  | [] => Ok faceMaterials
  | i :: rest =>
      faceMaterials' ←
        faceMaterials_write faceMaterials i (Z.max (subsetMaterialIndex - 1) 0);
      Sync_subset_indices rest subsetMaterialIndex faceMaterials'
  end.

(** Lines 867-884: the shader of one geometry subset; the result is the
    state and [subsetMaterialIndex]. *)
Definition Sync_subset_material (sceneDelegate : HdSceneDelegate) (subset : HdGeomSubset)
    (s : SyncState) : SyncState * Z :=
  let id := subset_materialId subset in
  if decide (id = "") then (s, 0%Z)
  else
    match GetSprim_material sceneDelegate id with
    | Some (Some sh) =>
        let found := m_materialMap (self s) !! id in
        let s :=
          match found with
          | None =>
              let used := m_usedShaders (self s) ++ [sh] in
              emit [Shader_tag_update sh]
                (s <| self ::= fun m =>
                       m <| m_usedShaders := used |>
                         <| m_materialMap ::= fun mm => <[id := length used]> mm |> |>)
          | Some _ => s
          end in
        let subsetMaterialIndex :=
          match found with
          | None => Z.of_nat (length (m_usedShaders (self s)))
          | Some k => Z.of_nat k
          end in
        (s <| self ::= fun m =>
               m <| m_cyclesMesh ::= fun c => c <| used_shaders := m_usedShaders m |> |> |>,
         subsetMaterialIndex)
    | Some None | None => (s, 0%Z)
    end.

(** Lines 866-889 *)
Fixpoint Sync_subsets (sceneDelegate : HdSceneDelegate) (subsets : list HdGeomSubset)
    (faceMaterials : list Z) (s : SyncState) : result (SyncState * list Z) :=
  match subsets with
  | [] => Ok (s, faceMaterials)
  | subset :: rest =>
      let chosen := Sync_subset_material sceneDelegate subset s in
      faceMaterials' ←
        Sync_subset_indices (subset_indices subset) chosen.2 faceMaterials;
      Sync_subsets sceneDelegate rest faceMaterials' chosen.1
  end.

Definition warn_normals : string := "Failed to compute normals!".
Definition warn_texture_coordinates : string := "Failed to compute texture coordinates!".
Definition warn_colors : string := "Failed to compute colors!".

(** Lines 899-957: the body of the primvar loop, for descriptor [pv] listed
    under [interpolation]. *)
Definition Sync_primvar (sceneDelegate : HdSceneDelegate) (dirtyBits : Z)
    (interpolation : HdInterpolation) (pv : HdPrimvarDescriptor) (s : SyncState)
  : result SyncState :=
  if negb (HdChangeTracker.IsPrimvarDirty dirtyBits (pv_name pv)) then Ok s
  else
    let value := GetPrimvar sceneDelegate (pv_name pv) in
    if bool_decide (pv_name pv = HdTokens.normals ∨ pv_role pv = HdPrimvarRoleTokens.normal)
    then
      refiner ← refiner_of (self s);
      match RefineData refiner value interpolation with
      | VtVec3fArray normals =>
          if decide (0 < length normals)
          then
            me ← _AddNormals normals interpolation (self s);
            Ok (s <| self := me |> <| mesh_updated := true |>)
          else Ok (emit [TF_CODING_WARNING warn_normals] s)
      | _ => Ok (emit [TF_CODING_WARNING warn_normals] s)
      end
    else if bool_decide (pv_name pv = HdTokens.velocities) then Ok s
    else if bool_decide (pv_role pv = HdPrimvarRoleTokens.textureCoordinate)
    then
      refiner ← refiner_of (self s);
      let refined_value := RefineData refiner value interpolation in
      if decide (GetArraySize value <= GetArraySize refined_value)
      then
        added ← _AddUVSet (pv_name pv) refined_value interpolation (self s);
        Ok (emit added.2 (s <| self := added.1 |>) <| mesh_updated := true |>)
      else Ok (emit [TF_CODING_WARNING warn_texture_coordinates] s)
    else if bool_decide (pv_name pv = HdTokens.displayColor
                         ∨ pv_role pv = HdPrimvarRoleTokens.color)
    then
      refiner ← refiner_of (self s);
      let refined_value := RefineData refiner value interpolation in
      s ← (if decide (GetArraySize value <= GetArraySize refined_value)
           then
             added ← _AddColors (pv_name pv) (pv_role pv) refined_value interpolation (self s);
             Ok (emit added.2 (s <| self := added.1 |>))
           else Ok (emit [TF_CODING_WARNING warn_colors] s));
      let s :=
        if bool_decide (pv_name pv = HdTokens.displayColor)
        then s <| self ::= fun m => m <| m_hasVertexColors := true |> |>
        else s in
      Ok (s <| mesh_updated := true |>)
    else Ok s.

(** Lines 898-958: the two nested loops. *)
Fixpoint Sync_primvars_of (sceneDelegate : HdSceneDelegate) (dirtyBits : Z)
    (interpolation : HdInterpolation) (descs : list HdPrimvarDescriptor) (s : SyncState)
  : result SyncState :=
  match descs with
  | [] => Ok s
  | pv :: rest =>
      s' ← Sync_primvar sceneDelegate dirtyBits interpolation pv s;
      Sync_primvars_of sceneDelegate dirtyBits interpolation rest s'
  end.

Fixpoint Sync_primvars (sceneDelegate : HdSceneDelegate) (dirtyBits : Z)
    (entries : list (HdInterpolation * list HdPrimvarDescriptor)) (s : SyncState)
  : result SyncState :=
  match entries with
  | [] => Ok s
  | entry :: rest =>
      s' ← Sync_primvars_of sceneDelegate dirtyBits entry.1 entry.2 s;
      Sync_primvars sceneDelegate dirtyBits rest s'
  end.

(** Lines 861-963 *)
Definition Sync_createMesh (sceneDelegate : HdSceneDelegate) (dirtyBits : Z)
    (s : SyncState) : result SyncState :=
  if newMesh s
  then
    let s := s <| self ::= fun m => m <| m_cyclesMesh ::= Mesh_clear |> |> in
    let topology := m_topology (self s) in
    materials ←
      Sync_subsets sceneDelegate (geomSubsets topology)
                   (replicate (GetNumFaces topology) 0%Z) s;
    me ← _PopulateFaces materials.2 (self materials.1);
    me ← _PopulateVertices sceneDelegate me;
    me ← (if m_useMotionBlur me && m_useDeformMotionBlur me
          then _PopulateMotion me else Ok me);
    s ← Sync_primvars sceneDelegate dirtyBits (primvarDescsPerInterpolation sceneDelegate)
                      (materials.1 <| self := me |>);
    if decide (0 < length (m_usedShaders (self s)))
    then Ok (s <| self ::= fun m =>
                    m <| m_cyclesMesh ::= fun c => c <| used_shaders := m_usedShaders m |> |> |>)
    else Ok s
  else Ok s.

(** Lines 965-976 *)
Definition Sync_transform (sceneDelegate : HdSceneDelegate) (dirtyBits : Z)
    (s : SyncState) : result SyncState :=
  if HdChangeTracker.has dirtyBits HdChangeTracker.DirtyTransform
  then
    let me := self s in
    r ← HdCyclesSetTransform (Some (m_cyclesObject me)) (Some (m_cyclesMesh me))
                             (SampleTransform sceneDelegate) (m_useMotionBlur me);
    let object := default (m_cyclesObject me) r.1.1 in
    let mesh := default (m_cyclesMesh me) r.1.2 in
    let mesh :=
      match subd_params mesh with
      | Some _ => mesh <| subd_params := Some (tfm object) |>
      | None => mesh
      end in
    Ok (s <| self := me <| m_transformSamples := r.2 |> <| m_cyclesObject := object |>
                        <| m_cyclesMesh := mesh |> |>
          <| mesh_updated := true |>)
  else Ok s.

(** Lines 978-982 *)
Definition fallbackShader (param : HdCyclesRenderParam) (me : HdCyclesMesh) : Shader :=
  if m_hasVertexColors me then default_vcol_surface param else default_surface param.

(** Lines 984-987 *)
Definition Sync_primId (sceneDelegate : HdSceneDelegate) (dirtyBits : Z)
    (s : SyncState) : SyncState :=
  if HdChangeTracker.has dirtyBits HdChangeTracker.DirtyPrimID
  then s <| self ::= fun m =>
              m <| m_cyclesObject ::= fun o =>
                     o <| pass_id := (GetPrimId sceneDelegate + 1)%Z |> |> |>
  else s.

(** Lines 989-1017 *)
Definition Sync_materialId (sceneDelegate : HdSceneDelegate) (param : HdCyclesRenderParam)
    (dirtyBits : Z) (s : SyncState) : result SyncState :=
  if HdChangeTracker.has dirtyBits HdChangeTracker.DirtyMaterialId
  then
    let fallback := fallbackShader param (self s) in
    let id := GetMaterialId sceneDelegate in
    let s := s <| self ::= fun m => m <| m_cachedMaterialId := id |> |> in
    counts ← GetFaceVertexCounts (self s);
    if decide (0 < length counts)
    then
      let push (sh : Shader) (s : SyncState) : SyncState :=
        s <| self ::= fun m => m <| m_usedShaders ::= fun l => l ++ [sh] |> |> in
      let s :=
        if decide (id ≠ "")
        then
          match GetSprim_material sceneDelegate id with
          | Some (Some sh) => emit [Shader_tag_update sh] (push sh s)
          | Some None | None => push fallback s
          end
        else push fallback s in
      Ok (s <| self ::= fun m =>
                m <| m_cyclesMesh ::= fun c => c <| used_shaders := m_usedShaders m |> |> |>)
    else Ok s
  else Ok s.

(** Lines 1019-1022 *)
Definition Sync_visibility (sceneDelegate : HdSceneDelegate) (dirtyBits : Z)
    (s : SyncState) : SyncState :=
  if HdChangeTracker.has dirtyBits HdChangeTracker.DirtyVisibility
  then s <| mesh_updated := true |>
         <| self ::= fun m => m <| sharedData_visible := GetVisible sceneDelegate |> |>
  else s.

(** Lines 1051-1072: the transforms of instance [i], one per time sample of
    the instancer. *)
Definition Sync_combinedTransform (me : HdCyclesMesh)
    (instanceTransforms : HdTimeSampleArray (list GfMatrix4d)) (i : nat)
  : result (list GfMatrix4d) :=
  let own := m_transformSamples me in
  plain ←
    (if decide (count own = 0) then Ok true
     else if decide (count own = 1)
     then v ← sample_value own 0; Ok (GfMatrix4d_eqb v GfMatrix4d_diagonal_one)
     else Ok false);
  mapM (fun j =>
          per_time ← sample_value instanceTransforms j;
          m ← array_read per_time i;
          if plain : bool then Ok m
          else
            t ← sample_time instanceTransforms j;
            Ok (GfMatrix4d_mul (Resample own t) m))
       (seq 0 (count instanceTransforms)).

(** Lines 1074-1098: the renderer object of one instance. *)
Definition Sync_instanceObject (combined : list GfMatrix4d) : result CclObject :=
  first ← array_read combined 0;
  Ok (_CreateCyclesObject <| tfm := mat4d_to_transform first |>).

(** Lines 1027-1105 *)
Definition Sync_instances (sceneDelegate : HdSceneDelegate) (dirtyBits : Z)
    (s : SyncState) : result SyncState :=
  if newMesh s || HdChangeTracker.has dirtyBits HdChangeTracker.DirtyInstancer
  then
    let s := s <| mesh_updated := true |> in
    match GetInstancer sceneDelegate with
    | None => Ok s
    | Some instanceTransforms =>
        newNumInstances ←
          (if decide (0 < count instanceTransforms)
           then first ← sample_value instanceTransforms 0; Ok (length first)
           else Ok 0);
        let s :=
          emit (map Scene_RemoveObject (m_cyclesInstances (self s)))
               (s <| self ::= fun m => m <| m_cyclesInstances := [] |> |>) in
        if decide (newNumInstances ≠ 0)
        then
          combinedTransforms ←
            mapM (Sync_combinedTransform (self s) instanceTransforms) (seq 0 newNumInstances);
          objects ← mapM Sync_instanceObject combinedTransforms;
          Ok (emit (map Scene_AddObject objects)
                   (s <| self ::= fun m =>
                          m <| m_cyclesInstances := objects |>
                            <| m_visibilityFlags := 0%Z |> |>))
        else Ok s
    end
  else Ok s.

(** Lines 1110-1112 *)
Definition Sync_finish (s : SyncState) : result SyncState :=
  if newMesh s
  then me ← _FinishMesh (self s); Ok (s <| self := me |>)
  else Ok s.

(** Lines 1114-1122; [Mesh::tag_update] marks the mesh as needing an update. *)
Definition Sync_tag (s : SyncState) : SyncState :=
  if mesh_updated s || newMesh s
  then
    let me := self s in
    let me := me <| m_cyclesObject ::= fun o => o <| visibility := m_visibilityFlags me |> |> in
    let me :=
      if sharedData_visible me then me
      else me <| m_cyclesObject ::= fun o => o <| visibility := 0%Z |> |> in
    let me := me <| m_cyclesMesh ::= fun c => c <| need_update := true |> |> in
    emit [Mesh_tag_update; Object_tag_update; Interrupt] (s <| self := me |>)
  else s.

(** [HdCyclesMesh::Sync]: the primitive afterwards, [*dirtyBits] afterwards,
    and the calls made on the scene and on the output streams, in order. *)
Definition Sync (sceneDelegate : HdSceneDelegate) (renderParam : HdCyclesRenderParam)
    (dirtyBits : Z) (me : HdCyclesMesh) : result (HdCyclesMesh * Z * list Event) :=
  let s := {| self := me; mesh_updated := false; newMesh := false; out := [] |} in
  let s :=
    Sync_computedPoints sceneDelegate dirtyBits
      (GetExtComputationPrimvarDescriptors sceneDelegate HdInterpolationVertex) s in
  let s := Sync_topology sceneDelegate dirtyBits s in
  let s := Sync_doubleSided sceneDelegate dirtyBits s in
  let s := Sync_displayStyle sceneDelegate dirtyBits s in
  let s := Sync_schema sceneDelegate dirtyBits s in
  s ← Sync_createMesh sceneDelegate dirtyBits s;
  s ← Sync_transform sceneDelegate dirtyBits s;
  let s := Sync_primId sceneDelegate dirtyBits s in
  s ← Sync_materialId sceneDelegate renderParam dirtyBits s;
  let s := Sync_visibility sceneDelegate dirtyBits s in
  s ← Sync_instances sceneDelegate dirtyBits s;
  s ← Sync_finish s;
  let s := Sync_tag s in
  Ok (self s, HdChangeTracker.Clean, out s).

(** [HdCyclesConfig], the four values the constructor reads; [eval (m, true)]
    stores the configured value in [m]. *)
Record HdCyclesConfig := {
  enable_subdivision : bool;
  subdivision_dicing_rate : float;
  max_subdivision : Z;
  enable_motion_blur : bool;
}.

(** mesh.cpp, the constructor. [decl] holds the members as the class
    declaration (mesh.h) leaves them; the constructor overwrites the ones it
    names. The result is the new primitive and the calls on the scene. *)
Definition HdCyclesMesh_new (config : HdCyclesConfig) (decl : HdCyclesMesh)
  : HdCyclesMesh * list Event :=
  let me :=
    decl <| m_hasVertexColors := false |>
         <| m_visibilityFlags := PATH_RAY_ALL_VISIBILITY |>
         <| m_visCamera := true |> <| m_visDiffuse := true |> <| m_visGlossy := true |>
         <| m_visScatter := true |> <| m_visShadow := true |> <| m_visTransmission := true |>
         <| m_useMotionBlur := false |> <| m_useDeformMotionBlur := false |> in
  let me :=
    me <| m_subdivEnabled := enable_subdivision config |>
       <| m_dicingRate := subdivision_dicing_rate config |>
       <| m_maxSubdivision := max_subdivision config |>
       <| m_useMotionBlur := enable_motion_blur config |> in
  let me := me <| m_cyclesObject := _CreateCyclesObject |> in
  let created := _CreateCyclesMesh me in
  let me := created.2 <| m_cyclesMesh := created.1 |>
                      <| m_numTransformSamples := HD_CYCLES_MOTION_STEPS |> in
  let me :=
    if m_useMotionBlur me
    then
      me <| m_motionSteps := m_numTransformSamples me |>
         <| m_useDeformMotionBlur := true |>
         <| m_cyclesMesh ::= fun c =>
              c <| motion_steps := m_numTransformSamples me |>
                <| use_motion_blur := true |> |>
    else me in
  (me, [Scene_AddGeometry (m_cyclesMesh me); Scene_AddObject (m_cyclesObject me)]).

End Code.

(** ** Reference definitions

    What the specification says the populators produce, written without the
    loops of the source. *)

(** An N-gon of size [k] fan-triangulates to [k - 2] triangles. *)
Definition fan_triangle_count (k : Z) : nat := Z.to_nat (k - 2).

(** Per-face data expanded to one value per fan triangle. *)
Definition uniform_expansion {T U : Type} (to_cycles : T -> U) (usd_data : list T)
    (counts : list Z) : list U :=
  concat (zip_with (fun x k => replicate (fan_triangle_count k) (to_cycles x))
                   usd_data counts).

(** The buffer [data] with the elements [written] stored from slot [idx] on,
    every other slot as before. *)
Definition overwrite {U : Type} (idx : nat) (written : list U) (data : list U) : list U :=
  take idx data ++ written ++ drop (idx + length written) data.

Section Reference.
Context {N : Numerics}.

(** The attribute that [add (std, "")] creates on a mesh that has none of
    that name, holding [data]. *)
Definition standard_attribute (std : AttributeStandard) (data : list AttrElem)
  : Attribute :=
  {| attr_name := standard_name std; attr_std := std;
     attr_type := (standard_layout std).1; attr_element := (standard_layout std).2;
     attr_data := data |}.

(** The positions of the samples whose time is not 0, sample after sample,
    [numMeshVerts] points of each. *)
Fixpoint motion_blocks (numMeshVerts : nat) (ts : list float) (vs : list VtValue)
  : list AttrElem :=
  match ts, vs with
  | t :: ts', v :: vs' =>
      (if f_eqb t f_zero then []
       else (fun p => elem_float3 (vec3f_to_float3 p))
              <$> take numMeshVerts (Get_VtVec3fArray v))
      ++ motion_blocks numMeshVerts ts' vs'
  | _, _ => []
  end.

(** The last sample whose time equals 0, or [acc] when there is none. *)
Fixpoint last_center {A : Type} (ts : list float) (vs : list A) (acc : option A)
  : option A :=
  match ts, vs with
  | t :: ts', v :: vs' => last_center ts' vs' (if f_eqb t f_zero then Some v else acc)
  | _, _ => acc
  end.

(** The object with the base transform taken from sample [c], if any. *)
Definition with_center (c : option GfMatrix4d) (object : CclObject) : CclObject :=
  match c with
  | Some v => object <| tfm := mat4d_to_transform v |>
  | None => object
  end.

End Reference.

Section ReferenceColor.
Context {N : Numerics} {X : Externals}.

(** The first element of a colour array of one of the four float types, as
    the three components of a flat object colour. *)
Definition constant_color_value (colors : VtValue) : option float3 :=
  match colors with
  | VtFloatArray (v :: _) => Some (make_float3 v v v)
  | VtVec2fArray ((a, b) :: _) => Some (make_float3 a b default_a_z)
  | VtVec3fArray ((a, b, c) :: _) => Some (make_float3 a b c)
  | VtVec4fArray ((a, b, c, _) :: _) => Some (make_float3 a b c)
  | _ => None
  end.

(** The material bound to the primitive cannot be resolved: no binding, no
    such material, or a material without a shader. *)
Definition material_unresolved (sceneDelegate : HdSceneDelegate) : Prop :=
  GetMaterialId sceneDelegate = ""
  \/ GetSprim_material sceneDelegate (GetMaterialId sceneDelegate) = None
  \/ GetSprim_material sceneDelegate (GetMaterialId sceneDelegate) = Some None.

End ReferenceColor.

Section InitialBits.

(** mesh.cpp, [GetInitialDirtyBitsMask] *)
Definition GetInitialDirtyBitsMask : Z :=
  fold_left Z.lor
    [ HdChangeTracker.DirtyPoints; HdChangeTracker.DirtyTransform;
      HdChangeTracker.DirtyPrimvar; HdChangeTracker.DirtyTopology;
      HdChangeTracker.DirtyVisibility; HdChangeTracker.DirtyMaterialId;
      HdChangeTracker.DirtySubdivTags; HdChangeTracker.DirtyPrimID;
      HdChangeTracker.DirtyDisplayStyle; HdChangeTracker.DirtyDoubleSided ]
    HdChangeTracker.Clean.

End InitialBits.

(** ** A concrete instance

    The examples run the code on rational numbers, with stand-ins for the
    code outside this source tree. *)

Module Example.

Definition Q_numerics : Numerics :=
  {| float := Q; double := Q;
     f_zero := 0%Q; f_half := (1 # 2)%Q; f_one := 1%Q; f_two := 2%Q;
     f_neg := Qopp; f_add := Qplus; f_sub := Qminus; f_mul := Qmult; f_div := Qdiv;
     f_eqb := Qeq_bool;
     d_zero := 0%Q; d_one := 1%Q; d_eqb := Qeq_bool;
     float_of_double := fun q => q; float_of_int := inject_Z |}.

Section Instances.
#[local] Existing Instance Q_numerics.

Definition origin : float3 := (0%Q, 0%Q, 0%Q).

(** [new ccl::Mesh ()] and [new ccl::Object ()] *)
Definition mesh_new : CclMesh :=
  {| verts := []; triangles := []; shader := []; smooth := [];
     subd_faces := []; subd_face_corners := [];
     attributes := []; subd_attributes := []; used_shaders := [];
     motion_steps := 3; use_motion_blur := false;
     subdivision_type := SUBDIVISION_NONE; subd_params := None;
     transform_applied := false; need_update := true;
     bounds := (origin, origin) |}.

Definition object_new : CclObject :=
  {| tfm := transform_identity; color := origin; pass_id := 0;
     visibility := 0; motion := []; is_shadow_catcher := false;
     use_holdout := false |}.

(** The three-by-three grouping of the face-vertex indices of a mesh made of
    triangles only. *)
Fixpoint triples (indices : list Z) : list (Z * Z * Z) :=
  match indices with
  | a :: b :: c :: rest => (a, b, c) :: triples rest
  | _ => []
  end.

(** A refiner for meshes made of triangles only (and for the mesh without
    faces): nothing to triangulate, every array passes through. *)
Definition triangle_mesh_refiner (topology : HdMeshTopology) : HdCyclesMeshRefiner :=
  {| RefinedCounts := faceVertexCounts topology;
     RefinedIndices := triples (faceVertexIndices topology);
     GetNumVertices := 0;
     GetNumTriangles := Z.of_nat (length (faceVertexCounts topology));
     RefineVertexData := fun v => v;
     RefineUniformData := fun v => v;
     RefineData := fun v _ => v |}.

(** A refiner whose [RefineData] loses the last element of an array of
    three-component floats. *)
Definition lossy_refiner (topology : HdMeshTopology) : HdCyclesMeshRefiner :=
  {| RefinedCounts := faceVertexCounts topology;
     RefinedIndices := triples (faceVertexIndices topology);
     GetNumVertices := 0;
     GetNumTriangles := Z.of_nat (length (faceVertexCounts topology));
     RefineVertexData := fun v => v;
     RefineUniformData := fun v => v;
     RefineData := fun v _ =>
       match v with
       | VtVec3fArray a => VtVec3fArray (removelast a)
       | _ => v
       end |}.

(** Stand-ins for the code outside this source tree. The schema helper
    returns its default, as it does for a primvar that is not dirty. *)
Definition externals (schema : bool) : Externals :=
  {| HdCyclesMeshRefiner_Create := triangle_mesh_refiner;
     need_attribute_std := fun _ _ => false;
     need_attribute_name := fun _ _ => false;
     compute_bounds := fun m => bounds m;
     add_face_normals := fun m => m;
     add_vertex_normals := fun m => m;
     genTangSpaceDefault := fun _ _ => [];
     GfMatrix4d_mul := fun a _ => a;
     Resample := fun _ _ => GfMatrix4d_diagonal_one;
     default_a_z := 0%Q;
     default_a_alpha := 1%Q;
     HD_CYCLES_MOTION_STEPS := 3;
     Mesh_new := mesh_new;
     Object_new := object_new;
     PATH_RAY_CAMERA := 1;
     PATH_RAY_DIFFUSE := 8;
     PATH_RAY_GLOSSY := 16;
     PATH_RAY_VOLUME_SCATTER := 128;
     PATH_RAY_SHADOW := 768;
     PATH_RAY_TRANSMIT := 4;
     PATH_RAY_ALL_VISIBILITY := 4095;
     USE_USD_CYCLES_SCHEMA := schema;
     _HdCyclesGetMeshParam_bool := fun _ _ _ _ d => d;
     _HdCyclesGetMeshParam_float := fun _ _ _ _ d => d;
     _HdCyclesGetMeshParam_int := fun _ _ _ _ d => d;
     _HdCyclesGetMeshParam_TfToken := fun _ _ _ _ d => d |}.

Definition empty_topology : HdMeshTopology :=
  {| faceVertexCounts := []; faceVertexIndices := []; geomSubsets := [] |}.

(** The members as a class declaration without initialisers could leave
    them. *)
Definition declared : HdCyclesMesh :=
  {| m_cyclesMesh := mesh_new; m_cyclesObject := object_new; m_cyclesInstances := [];
     m_hasVertexColors := false; m_visibilityFlags := 0;
     m_visCamera := false; m_visDiffuse := false; m_visGlossy := false;
     m_visScatter := false; m_visShadow := false; m_visTransmission := false;
     m_useMotionBlur := false; m_useDeformMotionBlur := false;
     m_useSubdivision := false; m_subdivEnabled := false; m_dicingRate := 1%Q;
     m_maxSubdivision := 0; m_motionSteps := 0; m_numTransformSamples := 0;
     m_numMeshVerts := 0; m_numMeshFaces := 0; m_points := [];
     m_normalsValid := false; m_adjacencyValid := false;
     m_topology := empty_topology; m_refiner := None;
     m_orientation := HdTokens.rightHanded; m_doubleSided := false;
     m_displayStyle := {| refineLevel := 0; flatShadingEnabled := false;
                          displacementEnabled := false |};
     m_refineLevel := 0; m_usedShaders := []; m_materialMap := ∅;
     m_cachedMaterialId := ""; m_transformSamples := HdTimeSampleArray_empty;
     m_pointSamples := HdTimeSampleArray_empty; sharedData_visible := true |}.

Definition config : HdCyclesConfig :=
  {| enable_subdivision := false; subdivision_dicing_rate := 1%Q;
     max_subdivision := 0; enable_motion_blur := false |}.

(** The primitive as its constructor leaves it. *)
Definition constructed (schema : bool) : HdCyclesMesh :=
  (HdCyclesMesh_new (X := externals schema) config declared).1.

Definition renderParam : HdCyclesRenderParam :=
  {| default_surface := "default_surface"; default_vcol_surface := "default_vcol_surface" |}.

Definition red : GfVec3f := (1%Q, 0%Q, 0%Q).

(** A mesh without faces that carries a constant [displayColor] of one red
    element and no material binding. *)
Definition red_delegate : HdSceneDelegate :=
  {| GetExtComputationPrimvarDescriptors := fun _ => [];
     GetComputedPrimvarValues := fun _ => None;
     GetDisplayStyle := {| refineLevel := 0; flatShadingEnabled := false;
                           displacementEnabled := false |};
     GetMeshTopology := empty_topology;
     GetPrimvarDescriptors := fun i =>
       match i with
       | HdInterpolationConstant =>
           [ {| pv_name := HdTokens.displayColor; pv_role := HdPrimvarRoleTokens.color |} ]
       | _ => []
       end;
     GetPrimvar := fun name =>
       if decide (name = HdTokens.displayColor) then VtVec3fArray [red] else VtEmpty;
     GetDoubleSided := false;
     GetSprim_material := fun _ => None;
     GetMaterialId := "";
     GetVisible := true;
     GetInstancer := None;
     SampleTransform :=
       {| count := 1; times := [0%Q]; values := [GfMatrix4d_diagonal_one] |};
     GetPrimId := 0 |}.

(** The same scene with two per-vertex normals in place of the colour. *)
Definition up : GfVec3f := (0%Q, 0%Q, 1%Q).

Definition normals_delegate : HdSceneDelegate :=
  {| GetExtComputationPrimvarDescriptors := fun _ => [];
     GetComputedPrimvarValues := fun _ => None;
     GetDisplayStyle := {| refineLevel := 0; flatShadingEnabled := false;
                           displacementEnabled := false |};
     GetMeshTopology := empty_topology;
     GetPrimvarDescriptors := fun i =>
       match i with
       | HdInterpolationVertex =>
           [ {| pv_name := HdTokens.normals; pv_role := HdPrimvarRoleTokens.normal |} ]
       | _ => []
       end;
     GetPrimvar := fun name =>
       if decide (name = HdTokens.normals) then VtVec3fArray [up; red] else VtEmpty;
     GetDoubleSided := false;
     GetSprim_material := fun _ => None;
     GetMaterialId := "";
     GetVisible := true;
     GetInstancer := None;
     SampleTransform :=
       {| count := 1; times := [0%Q]; values := [GfMatrix4d_diagonal_one] |};
     GetPrimId := 0 |}.

(** A primitive with one vertex whose refiner is the lossy one, at the start
    of the primvar loop of a new-mesh sync. *)
Definition lossy_state : SyncState :=
  {| self := (constructed false)
               <| m_refiner := Some (lossy_refiner empty_topology) |>
               <| m_cyclesMesh ::= add_vertex origin |>;
     mesh_updated := false; newMesh := true; out := [] |}.

(** The same primitive with the triangle refiner of the mesh without faces,
    and with that of a mesh of one triangle. *)
Definition faceless_state : SyncState :=
  {| self := (constructed false)
               <| m_refiner := Some (triangle_mesh_refiner empty_topology) |>;
     mesh_updated := false; newMesh := true; out := [] |}.

Definition one_triangle : HdMeshTopology :=
  {| faceVertexCounts := [3%Z]; faceVertexIndices := [0%Z; 1%Z; 2%Z]; geomSubsets := [] |}.

Definition vertex_coloured_triangle : SyncState :=
  {| self := (constructed false)
               <| m_topology := one_triangle |>
               <| m_refiner := Some (triangle_mesh_refiner one_triangle) |>
               <| m_hasVertexColors := true |>;
     mesh_updated := false; newMesh := false; out := [] |}.

(** A left-handed primitive with one vertex. *)
Definition left_handed_vertex : HdCyclesMesh :=
  (constructed false) <| m_orientation := HdTokens.leftHanded |>
                      <| m_cyclesMesh ::= add_vertex origin |>.

(** A right-handed primitive with one vertex. *)
Definition right_handed_vertex : HdCyclesMesh :=
  (constructed false) <| m_cyclesMesh ::= add_vertex origin |>.

(** A primitive without vertices yet that has three position samples of one
    point, at times -1/2, 0 and 1/2, and a scene whose [points] primvar is
    the sample at time 0. *)
Definition before : GfVec3f := (0%Q, 0%Q, Qmake (-1) 1).
Definition after : GfVec3f := (0%Q, 0%Q, 1%Q).
Definition rest_position : GfVec3f := (1%Q, 2%Q, 3%Q).

Definition deforming_mesh : HdCyclesMesh :=
  (constructed false)
    <| m_refiner := Some (triangle_mesh_refiner empty_topology) |>
    <| m_numMeshVerts := 1 |>
    <| m_pointSamples :=
         {| count := 3;
            times := [Qmake (-1) 2; 0%Q; Qmake 1 2];
            values := [VtVec3fArray [before]; VtVec3fArray [rest_position];
                       VtVec3fArray [after]] |} |>.

Definition points_delegate : HdSceneDelegate :=
  {| GetExtComputationPrimvarDescriptors := fun _ => [];
     GetComputedPrimvarValues := fun _ => None;
     GetDisplayStyle := {| refineLevel := 0; flatShadingEnabled := false;
                           displacementEnabled := false |};
     GetMeshTopology := empty_topology;
     GetPrimvarDescriptors := fun _ => [];
     GetPrimvar := fun name =>
       if decide (name = HdTokens.points) then VtVec3fArray [rest_position] else VtEmpty;
     GetDoubleSided := false;
     GetSprim_material := fun _ => None;
     GetMaterialId := "";
     GetVisible := true;
     GetInstancer := None;
     SampleTransform :=
       {| count := 1; times := [0%Q]; values := [GfMatrix4d_diagonal_one] |};
     GetPrimId := 0 |}.

(** The matrix of the translation by [(x, y, z)]: the offsets are its last
    row. *)
Definition translation (x y z : Q) : GfMatrix4d :=
  ((1%Q, 0%Q, 0%Q, 0%Q), (0%Q, 1%Q, 0%Q, 0%Q), (0%Q, 0%Q, 1%Q, 0%Q), (x, y, z, 1%Q)).

(** A scene without primvars whose transform samples are [xf]. *)
Definition moving (xf : HdTimeSampleArray GfMatrix4d) : HdSceneDelegate :=
  {| GetExtComputationPrimvarDescriptors := fun _ => [];
     GetComputedPrimvarValues := fun _ => None;
     GetDisplayStyle := {| refineLevel := 0; flatShadingEnabled := false;
                           displacementEnabled := false |};
     GetMeshTopology := empty_topology;
     GetPrimvarDescriptors := fun _ => [];
     GetPrimvar := fun _ => VtEmpty;
     GetDoubleSided := false;
     GetSprim_material := fun _ => None;
     GetMaterialId := "";
     GetVisible := true;
     GetInstancer := None;
     SampleTransform := xf;
     GetPrimId := 0 |}.

(** Three transform samples, the second one at time 0, and two samples none
    of which is at time 0. *)
Definition centred_delegate : HdSceneDelegate :=
  moving {| count := 3;
            times := [Qmake (-1) 2; 0%Q; Qmake 1 2];
            values := [translation 1 2 3; translation 4 5 6; translation 7 8 9] |}.

Definition off_centre_delegate : HdSceneDelegate :=
  moving {| count := 2;
            times := [Qmake 1 4; Qmake 1 2];
            values := [translation 1 2 3; translation 7 8 9] |}.

(** The constructed primitive (three motion steps on its mesh) with motion
    blur switched on. *)
Definition blurred_state : SyncState :=
  {| self := (constructed false) <| m_useMotionBlur := true |>;
     mesh_updated := false; newMesh := false; out := [] |}.

(** The primitive of [lossy_state] with a second vertex. *)
Definition lossy_two_vertices : SyncState :=
  {| self := (constructed false)
               <| m_refiner := Some (lossy_refiner empty_topology) |>
               <| m_cyclesMesh ::= add_vertex origin |>
               <| m_cyclesMesh ::= add_vertex origin |>;
     mesh_updated := false; newMesh := true; out := [] |}.

End Instances.
End Example.

(** * Properties *)

(** ** Buffers *)

Section BufferFacts.
Context {U : Type}.
Implicit Types (data written : list U).

Lemma attr_write_lt data (i : nat) (v : U) :
  i < length data -> attr_write data i v = Ok (<[i := v]> data).
Proof. intros Hi. unfold attr_write. by rewrite decide_True. Qed.

Lemma attr_write_ge data (i : nat) (v : U) :
  length data <= i -> attr_write data i v = Undefined.
Proof. intros Hi. unfold attr_write. rewrite decide_False; [done | lia]. Qed.

Lemma length_overwrite idx written data :
  idx + length written <= length data ->
  length (overwrite idx written data) = length data.
Proof.
  intros H. unfold overwrite.
  rewrite !length_app, length_take, length_drop. lia.
Qed.

Lemma overwrite_nil idx data : overwrite idx [] data = data.
Proof. unfold overwrite. simpl. rewrite Nat.add_0_r. apply take_drop. Qed.

Lemma overwrite_0_all written data :
  overwrite 0 written data = written ++ drop (length written) data.
Proof. done. Qed.

(** A single store is an [overwrite] by one element. *)
Lemma insert_overwrite idx (v : U) data :
  idx < length data -> <[idx := v]> data = overwrite idx [v] data.
Proof.
  intros H. unfold overwrite. simpl.
  replace (idx + 1) with (S idx) by lia.
  by apply insert_take_drop.
Qed.

(** Two adjacent [overwrite]s are one. *)
Lemma overwrite_app idx written1 written2 data :
  idx + length written1 + length written2 <= length data ->
  overwrite (idx + length written1) written2 (overwrite idx written1 data)
  = overwrite idx (written1 ++ written2) data.
Proof.
  intros H. unfold overwrite.
  rewrite length_app.
  rewrite (app_assoc (take idx data) written1).
  rewrite take_app_length' by (rewrite length_app, length_take; lia).
  rewrite drop_app_add' by (rewrite length_app, length_take; lia).
  rewrite drop_drop, <- !app_assoc.
  by rewrite Nat.add_assoc.
Qed.

Lemma overwrite_lookup_written idx written data (i : nat) :
  idx <= length data -> i < length written ->
  overwrite idx written data !! (idx + i) = written !! i.
Proof.
  intros H1 H2. unfold overwrite.
  rewrite lookup_app_r by (rewrite length_take; lia).
  rewrite length_take_le by lia.
  replace (idx + i - idx) with i by lia.
  by rewrite lookup_app_l.
Qed.

Lemma overwrite_lookup_before idx written data (i : nat) :
  i < idx -> idx <= length data -> overwrite idx written data !! i = data !! i.
Proof.
  intros H1 H2. unfold overwrite.
  rewrite lookup_app_l by (rewrite length_take; lia).
  by rewrite lookup_take_lt.
Qed.

Lemma overwrite_lookup_after idx written data (i : nat) :
  idx + length written <= i -> idx <= length data ->
  overwrite idx written data !! i = data !! i.
Proof.
  intros H1 H2. unfold overwrite.
  rewrite lookup_app_r by (rewrite length_take; lia).
  rewrite lookup_app_r by (rewrite length_take; lia).
  rewrite lookup_drop, length_take_le by lia.
  f_equal. lia.
Qed.

End BufferFacts.

(** ** The attribute populators *)

Section PopulatorFacts.
Context {T U : Type} (to_cycles : T -> U).

Lemma size_t_of_int_small (k : Z) :
  (0 <= k <= INT_MAX)%Z -> size_t_of_int k = k.
Proof.
  unfold size_t_of_int, INT_MAX. intros Hk.
  apply Z.mod_small. lia.
Qed.

(** [n] stores of [v] from [idx] on overwrite exactly the slots [idx], ...,
    [idx + n - 1]. *)
Lemma Uniform_fill_ok (n : nat) (v : U) (idx : nat) (data : list U) :
  idx + n <= length data ->
  Uniform_fill n v idx data = Ok (idx + n, overwrite idx (replicate n v) data).
Proof.
  revert idx data. induction n as [|n IH]; intros idx data Hlen; simpl.
  - by rewrite Nat.add_0_r, overwrite_nil.
  - rewrite attr_write_lt by lia. simpl.
    rewrite IH by (rewrite length_insert; lia).
    rewrite insert_overwrite by lia.
    replace (S idx) with (idx + length [v]) by (simpl; lia).
    rewrite overwrite_app by (simpl; rewrite length_replicate; lia).
    simpl. do 2 f_equal. lia.
Qed.

Lemma uniform_expansion_cons (x : T) (usd_data : list T) (k : Z) (counts : list Z) :
  uniform_expansion to_cycles (x :: usd_data) (k :: counts)
  = replicate (fan_triangle_count k) (to_cycles x)
    ++ uniform_expansion to_cycles usd_data counts.
Proof. done. Qed.

Lemma length_uniform_expansion (usd_data : list T) (counts : list Z) :
  length usd_data = length counts ->
  length (uniform_expansion to_cycles usd_data counts)
  = sum_list (fan_triangle_count <$> counts).
Proof.
  revert counts. induction usd_data as [|x l IH]; intros [|k counts] Hlen;
    simplify_eq/=; [done|].
  rewrite uniform_expansion_cons, length_app, length_replicate.
  by rewrite IH.
Qed.

(** The outer loop, started at source element [i] and output slot [idx]. *)
Lemma Uniform_loop_ok (usd_data : list T) (i : nat) (counts : list Z) (idx : nat)
    (data : list U) :
  Forall (fun k => 2 <= k <= INT_MAX)%Z counts ->
  i + length usd_data <= length counts ->
  idx + length (uniform_expansion to_cycles usd_data (drop i counts)) <= length data ->
  Uniform_loop to_cycles usd_data i counts idx data
  = Ok (idx + length (uniform_expansion to_cycles usd_data (drop i counts)),
        overwrite idx (uniform_expansion to_cycles usd_data (drop i counts)) data).
Proof.
  intros Hk. revert i idx data.
  induction usd_data as [|x l IH]; intros i idx data Hi Hlen; simpl in *.
  - unfold uniform_expansion. simpl. by rewrite Nat.add_0_r, overwrite_nil.
  - destruct (counts !! i) as [k|] eqn:Ek;
      [| apply lookup_ge_None in Ek; lia].
    rewrite (drop_S _ _ _ Ek), uniform_expansion_cons in *.
    rewrite length_app, length_replicate in Hlen.
    assert (2 <= k <= INT_MAX)%Z as Hk'
      by (eapply (proj1 (Forall_lookup _ _) Hk); eauto).
    rewrite size_t_of_int_small by (unfold INT_MAX in *; lia).
    fold (fan_triangle_count k).
    rewrite Uniform_fill_ok by lia. simpl.
    rewrite IH; [| lia | rewrite length_overwrite; rewrite ?length_replicate; lia].
    rewrite <- (length_replicate (fan_triangle_count k) (to_cycles x)) at 2.
    rewrite overwrite_app
      by (rewrite length_replicate; lia).
    rewrite length_app, length_replicate. do 2 f_equal. lia.
Qed.

End PopulatorFacts.

Section PopulatorClaims.
Context {T U : Type} (to_cycles : T -> U).

(** C3. Uniform populate: for a per-face source array with one element per
    face of the mesh, every face having at least two corners, the populator
    stores exactly one element per fan triangle (a face of size [k] gives
    [k - 2] of them), each holding the converted value of the face it comes
    from, in face order from slot 0 on; the total is the sum of the [k - 2],
    and the slots after it are left as they were. *)
Theorem Uniform_populate_expands_each_face (usd_data : list T) (counts : list Z)
    (data : list U) :
  length usd_data = length counts ->
  Forall (fun k => 2 <= k <= INT_MAX)%Z counts ->
  sum_list (fan_triangle_count <$> counts) <= length data ->
  length (uniform_expansion to_cycles usd_data counts)
  = sum_list (fan_triangle_count <$> counts)
  /\ _PopulateAttribte_Uniform to_cycles usd_data (Ok counts) data
     = Ok (bool_decide (usd_data <> []),
           overwrite 0 (uniform_expansion to_cycles usd_data counts) data).
Proof.
  intros Hlen Hk Hdata.
  pose proof (length_uniform_expansion to_cycles usd_data counts Hlen) as Hexp.
  split; [done|].
  unfold _PopulateAttribte_Uniform.
  destruct usd_data as [|x l].
  - unfold uniform_expansion. simpl. by rewrite overwrite_nil.
  - rewrite decide_False by (simpl; lia).
    unfold mbind, result_bind; cbv beta iota.
    pose proof (Uniform_loop_ok to_cycles (x :: l) 0 counts 0 data Hk) as Hloop.
    rewrite drop_0 in Hloop. rewrite Hloop by (simpl in *; lia).
    by rewrite bool_decide_true.
Qed.

(** C6. Constant populate: an array whose length is not 1 is reported and
    nothing is stored; an array of length 1 has its converted element stored
    in slot 0 and nothing else is touched. *)
Theorem Constant_populate_requires_one_element (usd_data : list T) (data : list U) :
  (length usd_data <> 1 ->
   _PopulateAttribte_Constant to_cycles usd_data data
   = Ok (false, data, [ConstantIncompatibleSize (length usd_data)]))
  /\ (forall x : T, usd_data = [x] -> 0 < length data ->
      _PopulateAttribte_Constant to_cycles usd_data data
      = Ok (true, overwrite 0 [to_cycles x] data, [])).
Proof.
  split.
  - intros Hne. unfold _PopulateAttribte_Constant. by rewrite decide_True.
  - intros x -> Hdata. unfold _PopulateAttribte_Constant. simpl.
    rewrite attr_write_lt by done. simpl.
    by rewrite insert_overwrite.
Qed.

(** C2. Face-varying populate of one triangle: with left-handed orientation
    the populator stores the corners in the order 1, 2, 3, exactly as it does
    with right-handed orientation; corners 2 and 3 are not swapped. *)
Theorem FaceVarying_leftHanded_triangle_not_swapped (a b c : T) (u0 u1 u2 : U) :
  _PopulateAttribte_FaceVarying to_cycles [a; b; c] (Ok [3%Z]) HdTokens.leftHanded
                                [u0; u1; u2]
  = Ok (true, [to_cycles a; to_cycles b; to_cycles c])
  /\ _PopulateAttribte_FaceVarying to_cycles [a; b; c] (Ok [3%Z]) HdTokens.rightHanded
                                   [u0; u1; u2]
     = Ok (true, [to_cycles a; to_cycles b; to_cycles c]).
Proof. split; reflexivity. Qed.

(** Face-varying populate of one quad: with left-handed orientation the two
    fan triangles of the right-handed output come out in the opposite order,
    each with its corners in the right-handed order. *)
Lemma FaceVarying_leftHanded_quad (a b c d : T) (u : U) :
  _PopulateAttribte_FaceVarying to_cycles [a; b; c; d] (Ok [4%Z]) HdTokens.leftHanded
                                (replicate 6 u)
  = Ok (true, [to_cycles a; to_cycles c; to_cycles d;
               to_cycles a; to_cycles b; to_cycles c])
  /\ _PopulateAttribte_FaceVarying to_cycles [a; b; c; d] (Ok [4%Z]) HdTokens.rightHanded
                                   (replicate 6 u)
     = Ok (true, [to_cycles a; to_cycles b; to_cycles c;
                  to_cycles a; to_cycles c; to_cycles d]).
Proof. split; reflexivity. Qed.

End PopulatorClaims.

Section CodeClaims.
Context {N : Numerics} {X : Externals}.

(** C4. Uniform populate of an array longer than the mesh's face-vertex-count
    array: [_PopulateAttribute] prints the two sizes and "Oversized", returns
    to its caller and leaves the attribute buffer as it was. *)
Theorem Uniform_oversized_is_reported_and_skipped (name role : TfToken)
    (value : VtValue) (data : list AttrElem) (mesh : HdCyclesMesh) (counts : list Z) :
  GetFaceVertexCounts mesh = Ok counts ->
  length counts < GetArraySize value ->
  _PopulateAttribute name role HdInterpolationUniform value data mesh
  = Ok (data, [UniformSizes (GetArraySize value) (length counts); Oversized]).
Proof.
  intros Hcounts Hlen. unfold _PopulateAttribute.
  rewrite Hcounts. simpl. by rewrite decide_True.
Qed.

End CodeClaims.

(** ** Attribute sets *)

Section AttributeFacts.
Context {N : Numerics}.

Lemma find_name_None (attrs : list Attribute) (name : string) :
  find_name attrs name = None <-> Forall (fun a => attr_name a <> name) attrs.
Proof.
  unfold find_name. destruct (list_find _ attrs) as [[i a]|] eqn:E; simpl.
  - split; [done|]. intros HF.
    apply list_find_Some in E as (Hi & Ha & _).
    eapply (proj1 (Forall_lookup _ _)) in HF; eauto. done.
  - split; [|done]. intros _. by apply list_find_None in E.
Qed.

Lemma find_std_None (attrs : list Attribute) (std : AttributeStandard) :
  find_std attrs std = None <-> Forall (fun a => attr_std a <> std) attrs.
Proof.
  unfold find_std. destruct (list_find _ attrs) as [[i a]|] eqn:E; simpl.
  - split; [done|]. intros HF.
    apply list_find_Some in E as (Hi & Ha & _).
    eapply (proj1 (Forall_lookup _ _)) in HF; eauto. done.
  - split; [|done]. intros _. by apply list_find_None in E.
Qed.

Lemma find_std_app_fresh (attrs : list Attribute) (a : Attribute) :
  find_std attrs (attr_std a) = None -> find_std (attrs ++ [a]) (attr_std a) = Some a.
Proof.
  intros HF%find_std_None. unfold find_std.
  rewrite list_find_app_r by (by apply list_find_None).
  simpl. by rewrite decide_True.
Qed.

Lemma put_attr_unrelated (attrs : list Attribute) (a : Attribute) :
  Forall (fun b => attr_name b <> attr_name a) attrs -> put_attr attrs a = attrs.
Proof.
  intros HF. unfold put_attr. induction HF as [|b l Hb _ IH]; [done|].
  rewrite fmap_cons, decide_False by done. by rewrite IH.
Qed.

Lemma put_attr_last (attrs : list Attribute) (a b : Attribute) :
  find_name attrs (attr_name a) = None -> attr_name b = attr_name a ->
  put_attr (attrs ++ [b]) a = attrs ++ [a].
Proof.
  intros HF%find_name_None Hb. unfold put_attr.
  rewrite fmap_app, fmap_cons, fmap_nil.
  rewrite decide_True by done. f_equal.
  by apply put_attr_unrelated.
Qed.

(** [add (std, "")] on a set that has no attribute of the standard name
    appends a zero-filled attribute. *)
Lemma add_std_fresh (m : CclMesh) (subd : bool) (attrs : list Attribute)
    (std : AttributeStandard) :
  find_name attrs (standard_name std) = None ->
  add_std m subd attrs std ""
  = (attrs ++ [standard_attribute std
                 (replicate (element_size m subd (standard_layout std).2) elem_zero)],
     standard_attribute std
       (replicate (element_size m subd (standard_layout std).2) elem_zero)).
Proof.
  intros HF. unfold add_std. rewrite decide_True by done.
  destruct (standard_layout std) as [type element] eqn:El.
  unfold add_named. rewrite HF. simpl.
  unfold standard_attribute. rewrite El. simpl.
  rewrite put_attr_last; done.
Qed.

Lemma memset_zero_fresh (n : nat) :
  memset_zero n (replicate n elem_zero) = Ok (replicate n elem_zero).
Proof.
  unfold memset_zero. rewrite decide_True by (by rewrite length_replicate).
  by rewrite drop_replicate, Nat.sub_diag, app_nil_r.
Qed.

End AttributeFacts.

(** ** Normals *)

Section NormalsClaims.
Context {N : Numerics} {X : Externals}.

Lemma array_read_lookup {A : Type} (a : list A) (i : nat) (x : A) :
  a !! i = Some x -> array_read a i = Ok x.
Proof. intros H. unfold array_read. by rewrite H. Qed.

(** The loop over the vertices stores one normal per vertex, negated for a
    left-handed mesh. *)
Lemma AddNormals_vertex_loop_ok (n i : nat) (normals : list GfVec3f)
    (leftHanded : bool) (cdata : list AttrElem) :
  i + n <= length normals ->
  i + n <= length cdata ->
  AddNormals_vertex_loop n i normals leftHanded cdata
  = Ok (overwrite i
          ((fun x => elem_float3 (if leftHanded then float3_neg (vec3f_to_float3 x)
                                  else vec3f_to_float3 x))
             <$> take n (drop i normals))
          cdata).
Proof.
  revert i cdata. induction n as [|n IH]; intros i cdata Hn Hc; simpl.
  - by rewrite overwrite_nil.
  - destruct (normals !! i) as [x|] eqn:Ex;
      [| apply lookup_ge_None in Ex; lia].
    rewrite (array_read_lookup _ _ _ Ex). simpl.
    rewrite attr_write_lt by lia. simpl.
    rewrite IH by (rewrite ?length_insert; lia).
    rewrite insert_overwrite by lia.
    rewrite (drop_S _ _ _ Ex). simpl.
    replace (S i) with (i + length [elem_float3 (if leftHanded
                                                then float3_neg (vec3f_to_float3 x)
                                                else vec3f_to_float3 x)])
      by (simpl; lia).
    rewrite overwrite_app; [done|].
    simpl. rewrite length_fmap, length_take, length_drop. lia.
Qed.

(** Reading normals that the array does not have. *)
Lemma AddNormals_vertex_loop_overrun (n i : nat) (normals : list GfVec3f)
    (leftHanded : bool) (cdata : list AttrElem) :
  i <= length normals -> length normals < i + n ->
  AddNormals_vertex_loop n i normals leftHanded cdata = Undefined.
Proof.
  revert i cdata. induction n as [|n IH]; intros i cdata Hi Hn; [lia|].
  cbn [AddNormals_vertex_loop]. unfold array_read.
  destruct (normals !! i) as [x|] eqn:Ex; [| done].
  apply lookup_lt_Some in Ex.
  unfold mbind, result_bind; cbv beta iota zeta.
  destruct (attr_write cdata i _) as [cdata'|]; [| done].
  apply IH; lia.
Qed.

(** [_AddNormals] for per-vertex normals on a mesh that has no vertex-normal
    attribute yet. *)
Lemma AddNormals_vertex_ok (normals : list GfVec3f) (self : HdCyclesMesh) :
  find_name (attributes (m_cyclesMesh self)) (standard_name ATTR_STD_VERTEX_NORMAL) = None ->
  length (verts (m_cyclesMesh self)) <= length normals ->
  _AddNormals normals HdInterpolationVertex self
  = Ok (self <| m_cyclesMesh ::= fun mesh =>
                  mesh <| attributes ::= fun attrs =>
                            attrs ++ [standard_attribute ATTR_STD_VERTEX_NORMAL
                                        ((fun x => elem_float3
                                                     (if bool_decide (m_orientation self
                                                                      = HdTokens.leftHanded)
                                                      then float3_neg (vec3f_to_float3 x)
                                                      else vec3f_to_float3 x))
                                           <$> take (length (verts (m_cyclesMesh self)))
                                                    normals)] |> |>).
Proof.
  intros Hfresh Hlen.
  set (n := length (verts (m_cyclesMesh self))) in *.
  set (lh := bool_decide (m_orientation self = HdTokens.leftHanded)).
  unfold _AddNormals. rewrite add_std_fresh by done. simpl.
  fold n. rewrite memset_zero_fresh. simpl.
  fold lh. rewrite AddNormals_vertex_loop_ok
    by (rewrite ?length_replicate; lia).
  simpl. rewrite drop_0.
  rewrite put_attr_last by done.
  rewrite overwrite_0_all.
  rewrite length_fmap, length_take_le by lia.
  rewrite drop_replicate, Nat.sub_diag, app_nil_r.
  done.
Qed.

(** With fewer normals than the mesh has vertices the per-vertex branch
    reads past the end of the array. *)
Lemma AddNormals_vertex_overrun (normals : list GfVec3f) (self : HdCyclesMesh) :
  length normals < length (verts (m_cyclesMesh self)) ->
  _AddNormals normals HdInterpolationVertex self = Undefined.
Proof.
  intros Hlen. unfold _AddNormals. cbv zeta.
  destruct (memset_zero _ _) as [cdata|]; [| done].
  unfold mbind, result_bind; cbv beta iota.
  by rewrite AddNormals_vertex_loop_overrun by lia.
Qed.

(** C10. Per-vertex normals on a mesh that has no vertex-normal attribute
    yet: [_AddNormals] creates the attribute with one slot per mesh vertex
    and stores normal [i] in slot [i]: the normal [(x, y, z)] is stored as
    [(-x, -y, -z)] when the orientation is left-handed and as [(x, y, z)]
    otherwise (so unchanged when it is right-handed). *)
Theorem AddNormals_vertex_follows_orientation (normals : list GfVec3f)
    (self : HdCyclesMesh) :
  find_name (attributes (m_cyclesMesh self)) (standard_name ATTR_STD_VERTEX_NORMAL) = None ->
  length (verts (m_cyclesMesh self)) <= length normals ->
  exists written : list AttrElem,
    _AddNormals normals HdInterpolationVertex self
    = Ok (self <| m_cyclesMesh ::= fun mesh =>
                    mesh <| attributes ::= fun attrs =>
                              attrs ++ [standard_attribute ATTR_STD_VERTEX_NORMAL written] |> |>)
    /\ length written = length (verts (m_cyclesMesh self))
    /\ (m_orientation self = HdTokens.leftHanded ->
        written = (fun '(x, y, z) => elem_float3 (f_neg x, f_neg y, f_neg z))
                    <$> take (length (verts (m_cyclesMesh self))) normals)
    /\ (m_orientation self <> HdTokens.leftHanded ->
        written = (fun '(x, y, z) => elem_float3 (x, y, z))
                    <$> take (length (verts (m_cyclesMesh self))) normals).
Proof.
  intros Hfresh Hlen.
  eexists. split; [by apply AddNormals_vertex_ok|].
  split; [| split].
  - rewrite length_fmap, length_take. lia.
  - intros Hl. rewrite bool_decide_true by done.
    apply list_fmap_ext. by intros i [[x y] z] _.
  - intros Hl. rewrite bool_decide_false by done.
    apply list_fmap_ext. by intros i [[x y] z] _.
Qed.

End NormalsClaims.

(** ** Motion blur of deforming meshes *)

Section MotionClaims.
Context {N : Numerics} {X : Externals}.

Lemma PopulateMotion_points_ok (n j : nat) (pp : list GfVec3f) (mP : nat)
    (data : list AttrElem) :
  j + n <= length pp ->
  mP + n <= length data ->
  PopulateMotion_points n j pp mP data
  = Ok (mP + n,
        overwrite mP ((fun p => elem_float3 (vec3f_to_float3 p)) <$> take n (drop j pp))
                  data).
Proof.
  revert j mP data. induction n as [|n IH]; intros j mP data Hp Hd; simpl.
  - by rewrite Nat.add_0_r, overwrite_nil.
  - destruct (pp !! j) as [x|] eqn:Ex; [| apply lookup_ge_None in Ex; lia].
    rewrite (array_read_lookup _ _ _ Ex). simpl.
    rewrite attr_write_lt by lia. simpl.
    rewrite IH by (rewrite ?length_insert; lia).
    rewrite insert_overwrite by lia.
    rewrite (drop_S _ _ _ Ex). simpl.
    replace (S mP) with (mP + length [elem_float3 (vec3f_to_float3 x)]) by (simpl; lia).
    rewrite overwrite_app
      by (simpl; rewrite length_fmap, length_take, length_drop; lia).
    simpl. do 2 f_equal. lia.
Qed.

Lemma length_motion_blocks (numMeshVerts : nat) (ts : list float) (vs : list VtValue) :
  length (motion_blocks numMeshVerts ts vs) <= numMeshVerts * length ts.
Proof.
  revert vs. induction ts as [|t ts IH]; intros [|v vs]; simpl; try lia.
  rewrite length_app. specialize (IH vs).
  destruct (f_eqb t f_zero); simpl.
  - lia.
  - rewrite length_fmap, length_take. lia.
Qed.

(** The loop over the samples writes the blocks of the samples whose time is
    not 0, one after the other. *)
Lemma PopulateMotion_samples_ok (n i : nat) (samples : HdTimeSampleArray VtValue)
    (numMeshVerts mP : nat) (data : list AttrElem) :
  length (times samples) = i + n ->
  length (values samples) = i + n ->
  Forall (fun v => numMeshVerts <= length (Get_VtVec3fArray v)) (values samples) ->
  mP + length (motion_blocks numMeshVerts (drop i (times samples)) (drop i (values samples)))
    <= length data ->
  PopulateMotion_samples n i samples numMeshVerts mP data
  = Ok (mP + length (motion_blocks numMeshVerts (drop i (times samples))
                                   (drop i (values samples))),
        overwrite mP (motion_blocks numMeshVerts (drop i (times samples))
                                    (drop i (values samples))) data).
Proof.
  intros Ht Hv Hpts. revert i mP data Ht Hv.
  induction n as [|n IH]; intros i mP data Ht Hv Hd; simpl.
  - rewrite !drop_ge by lia. simpl. by rewrite Nat.add_0_r, overwrite_nil.
  - destruct (times samples !! i) as [t|] eqn:Et;
      [| apply lookup_ge_None in Et; lia].
    destruct (values samples !! i) as [v|] eqn:Ev;
      [| apply lookup_ge_None in Ev; lia].
    unfold sample_time, sample_value. rewrite Et, Ev. simpl.
    rewrite (drop_S _ _ _ Et), (drop_S _ _ _ Ev) in *. simpl in *.
    destruct (f_eqb t f_zero) eqn:Ez; simpl in *.
    + apply IH; [lia | lia | done].
    + rewrite length_app, length_fmap in Hd.
      assert (numMeshVerts <= length (Get_VtVec3fArray v)) as Hnv
        by (eapply (proj1 (Forall_lookup _ _) Hpts); eauto).
      rewrite length_take_le in Hd by lia.
      rewrite PopulateMotion_points_ok by (simpl; lia). simpl.
      rewrite drop_0.
      rewrite IH; [| lia | lia | rewrite length_overwrite;
                                  rewrite ?length_fmap, ?length_take_le; lia].
      rewrite length_app, length_fmap, length_take_le by lia.
      rewrite Nat.add_assoc. f_equal. f_equal.
      rewrite <- overwrite_app
        by (rewrite length_fmap, length_take_le; lia).
      by rewrite length_fmap, length_take_le by lia.
Qed.

Lemma foldl_add_vertex (points : list GfVec3f) (m : CclMesh) :
  verts (foldl (fun m '(d0, d1, d2) => add_vertex (make_float3 d0 d1 d2) m) m points)
  = verts m ++ (vec3f_to_float3 <$> points).
Proof.
  revert m. induction points as [|[[d0 d1] d2] l IH]; intros m; simpl.
  - by rewrite app_nil_r.
  - rewrite IH. simpl. by rewrite <- app_assoc.
Qed.

(** [_PopulateMotion] for more than one sample, on a mesh without a
    motion-position attribute. *)
Lemma PopulateMotion_ok (self : HdCyclesMesh) :
  let samples := m_pointSamples self in
  let mesh := m_cyclesMesh self in
  let subd := m_useSubdivision self in
  1 < count samples ->
  length (times samples) = count samples ->
  length (values samples) = count samples ->
  find_std (attribute_set subd mesh) ATTR_STD_MOTION_VERTEX_POSITION = None ->
  find_name (attribute_set subd mesh) (standard_name ATTR_STD_MOTION_VERTEX_POSITION) = None ->
  m_numMeshVerts self <= length (verts mesh) ->
  Forall (fun v => m_numMeshVerts self <= length (Get_VtVec3fArray v)) (values samples) ->
  exists (self' : HdCyclesMesh) (attr_mP : Attribute),
    _PopulateMotion self = Ok self'
    /\ motion_steps (m_cyclesMesh self') = (Z.of_nat (count samples) + 1)%Z
    /\ verts (m_cyclesMesh self') = verts mesh
    /\ find_std (attribute_set subd (m_cyclesMesh self')) ATTR_STD_MOTION_VERTEX_POSITION
       = Some attr_mP
    /\ attr_data attr_mP
       = overwrite 0 (motion_blocks (m_numMeshVerts self) (times samples) (values samples))
                   (replicate (length (verts mesh) * count samples) elem_zero).
Proof.
  intros samples mesh subd Hcount Ht Hv Hstd Hname Hnv Hpts.
  assert (m_useSubdivision self = subd) as Esubd by done. clearbody subd.
  set (mesh1 := mesh <| use_motion_blur := true |>
                     <| motion_steps := (Z.of_nat (count samples) + 1)%Z |>).
  assert (attribute_set subd mesh1 = attribute_set subd mesh) as Hset
    by (by destruct subd).
  assert (element_size mesh1 subd ATTR_ELEMENT_VERTEX_MOTION
          = length (verts mesh) * count samples) as Hsize.
  { simpl. f_equal. lia. }
  pose proof (length_motion_blocks (m_numMeshVerts self) (times samples)
                                   (values samples)) as Hblocks.
  assert (length (motion_blocks (m_numMeshVerts self) (times samples) (values samples))
          <= length (verts mesh) * count samples) as Hfit.
  { etrans; [exact Hblocks|]. rewrite Ht. by apply Nat.mul_le_mono_r. }
  eexists _, _. split; [| split; [| split; [| split]]].
  + unfold _PopulateMotion. fold samples mesh. rewrite Esubd.
    rewrite decide_False by lia. cbv zeta. fold mesh1.
    rewrite Hset, Hstd.
    rewrite add_std_fresh by done.
    cbn [fst snd standard_layout standard_attribute attr_data].
    rewrite Hsize.
    rewrite (PopulateMotion_samples_ok (count samples) 0)
      by (rewrite ?drop_0, ?length_replicate; first [done | lia]).
    rewrite !drop_0. unfold mbind, result_bind; cbv beta iota.
    cbn [fst snd].
    rewrite put_attr_last by done.
    reflexivity.
  + by destruct subd.
  + by destruct subd.
  + destruct subd; simpl.
    * apply (find_std_app_fresh (subd_attributes mesh)
               (set_attr_data _ (standard_attribute ATTR_STD_MOTION_VERTEX_POSITION _))).
      exact Hstd.
    * apply (find_std_app_fresh (attributes mesh)
               (set_attr_data _ (standard_attribute ATTR_STD_MOTION_VERTEX_POSITION _))).
      exact Hstd.
  + simpl. by rewrite overwrite_0_all.
Qed.

(** [_PopulateVertices] touches the vertices of the mesh and nothing else. *)
Lemma foldl_add_vertex_rest (points : list GfVec3f) (m : CclMesh) :
  let m' := foldl (fun m '(d0, d1, d2) => add_vertex (make_float3 d0 d1 d2) m) m points in
  attributes m' = attributes m /\ subd_attributes m' = subd_attributes m.
Proof.
  revert m. induction points as [|[[d0 d1] d2] l IH]; intros m; [done|].
  cbn [foldl]. destruct (IH (add_vertex (make_float3 d0 d1 d2) m)) as [-> ->]. done.
Qed.

Lemma motion_blocks_app (numMeshVerts : nat) (ts1 ts2 : list float)
    (vs1 vs2 : list VtValue) :
  length ts1 = length vs1 ->
  motion_blocks numMeshVerts (ts1 ++ ts2) (vs1 ++ vs2)
  = motion_blocks numMeshVerts ts1 vs1 ++ motion_blocks numMeshVerts ts2 vs2.
Proof.
  revert vs1. induction ts1 as [|t ts1 IH]; intros [|v vs1] Hlen; simplify_eq/=; [done|].
  by rewrite IH, app_assoc.
Qed.

(** Samples none of which is at time 0 are all stored. *)
Lemma motion_blocks_off_center (numMeshVerts : nat) (ts : list float) (vs : list VtValue) :
  length ts = length vs ->
  Forall (fun t => f_eqb t f_zero = false) ts ->
  motion_blocks numMeshVerts ts vs
  = concat ((fun v => (fun '(x, y, z) => elem_float3 (x, y, z))
                        <$> take numMeshVerts (Get_VtVec3fArray v)) <$> vs).
Proof.
  revert vs. induction ts as [|t ts IH]; intros [|v vs] Hlen Hts; simplify_eq/=; [done|].
  apply Forall_cons in Hts as [-> Hts]. rewrite IH by done.
  f_equal. apply list_fmap_ext. by intros i [[x y] z] _.
Qed.

(** C7. Deform motion blur from [N > 1] position samples of which exactly
    one is at time 0, that sample holding the refined points of the mesh
    (well-formed sample array, no motion-position attribute on the mesh yet,
    every sample holding at least [m_numMeshVerts] points):
    [_PopulateVertices] followed by [_PopulateMotion], as [Sync] runs them,
    appends the positions of the time-0 sample to the base vertices, once,
    sets the motion-step count to [N + 1], and fills the motion-position
    attribute with the positions of the [N - 1] other samples, in their
    order, and with nothing else: the time-0 sample is not stored there. *)
Theorem PopulateMotion_steps_and_center (sceneDelegate : HdSceneDelegate)
    (self : HdCyclesMesh) (refiner : HdCyclesMeshRefiner) (t0 : float)
    (earlier_times later_times : list float) (center : list GfVec3f)
    (earlier later : list VtValue) :
  let samples := m_pointSamples self in
  let mesh := m_cyclesMesh self in
  let subd := m_useSubdivision self in
  1 < count samples ->
  count samples = length earlier + 1 + length later ->
  times samples = earlier_times ++ t0 :: later_times ->
  values samples = earlier ++ VtVec3fArray center :: later ->
  length earlier_times = length earlier ->
  length later_times = length later ->
  f_eqb t0 f_zero = true ->
  Forall (fun t => f_eqb t f_zero = false) (earlier_times ++ later_times) ->
  m_refiner self = Some refiner ->
  RefineVertexData refiner (GetPrimvar sceneDelegate HdTokens.points) = VtVec3fArray center ->
  find_std (attribute_set subd mesh) ATTR_STD_MOTION_VERTEX_POSITION = None ->
  find_name (attribute_set subd mesh) (standard_name ATTR_STD_MOTION_VERTEX_POSITION) = None ->
  Forall (fun v => m_numMeshVerts self <= length (Get_VtVec3fArray v)) (values samples) ->
  exists (populated self' : HdCyclesMesh) (attr_mP : Attribute),
    _PopulateVertices sceneDelegate self = Ok populated
    /\ _PopulateMotion populated = Ok self'
    /\ motion_steps (m_cyclesMesh self') = (Z.of_nat (count samples) + 1)%Z
    /\ verts (m_cyclesMesh self')
       = verts mesh ++ ((fun '(x, y, z) => (x, y, z)) <$> center)
    /\ find_std (attribute_set subd (m_cyclesMesh self')) ATTR_STD_MOTION_VERTEX_POSITION
       = Some attr_mP
    /\ attr_data attr_mP
       = overwrite 0
           (concat ((fun v => (fun '(x, y, z) => elem_float3 (x, y, z))
                                <$> take (m_numMeshVerts self) (Get_VtVec3fArray v))
                      <$> (earlier ++ later)))
           (replicate ((length (verts mesh) + length center) * count samples) elem_zero).
Proof.
  intros samples mesh subd Hcount HN Ht Hv Hearlier Hlater Hzero Hoff Hr Hpoints
    Hstd Hname Hpts.
  set (populated :=
         self <| m_cyclesMesh ::= fun m =>
                   foldl (fun m '(d0, d1, d2) => add_vertex (make_float3 d0 d1 d2) m)
                         m center |>).
  assert (_PopulateVertices sceneDelegate self = Ok populated) as Hpop.
  { unfold _PopulateVertices, refiner_of. rewrite Hr.
    unfold mbind, result_bind; cbv beta iota zeta. by rewrite Hpoints. }
  assert (verts (m_cyclesMesh populated)
          = verts mesh ++ ((fun '(x, y, z) => (x, y, z)) <$> center)) as Hverts.
  { unfold populated. cbn. by rewrite foldl_add_vertex. }
  destruct (foldl_add_vertex_rest center mesh) as [Hattrs Hsubd].
  assert (attribute_set subd (m_cyclesMesh populated) = attribute_set subd mesh) as Hset.
  { unfold populated, attribute_set. cbn. by destruct subd. }
  assert (Forall (fun v => m_numMeshVerts self <= length (Get_VtVec3fArray v))
                 (earlier ++ VtVec3fArray center :: later)) as Hpts'
    by (by rewrite <- Hv).
  assert (m_numMeshVerts self <= length center) as Hcenter.
  { apply Forall_app in Hpts' as [_ Hc]. apply Forall_cons in Hc as [Hc _].
    exact Hc. }
  assert (length (times samples) = count samples) as Hlt
    by (rewrite Ht, length_app; cbn [length]; lia).
  assert (length (values samples) = count samples) as Hlv
    by (rewrite Hv, length_app; cbn [length]; lia).
  assert (m_numMeshVerts self <= length (verts (m_cyclesMesh populated))) as Hnv
    by (rewrite Hverts, length_app, length_fmap;
        etrans; [exact Hcenter | apply Nat.le_add_l]).
  rewrite <- Hset in Hstd, Hname.
  destruct (PopulateMotion_ok populated Hcount Hlt Hlv Hstd Hname Hnv Hpts)
    as (self' & attr_mP & Hrun & Hsteps & Hv' & Hfind & Hdata).
  exists populated, self', attr_mP.
  split; [done|]. split; [done|]. split; [done|].
  split; [by rewrite Hv'|]. split; [done|].
  rewrite Hdata, Hverts, length_app, length_fmap.
  change (m_pointSamples populated) with samples.
  change (m_numMeshVerts populated) with (m_numMeshVerts self).
  rewrite Ht, Hv.
  apply Forall_app in Hoff as [Hoff1 Hoff2].
  rewrite motion_blocks_app by done.
  cbn [motion_blocks]. rewrite Hzero. cbn [app].
  rewrite !motion_blocks_off_center by done.
  by rewrite fmap_app, concat_app.
Qed.

End MotionClaims.

(** ** Transforms *)

Section TransformClaims.
Context {N : Numerics} {X : Externals}.

(** One step of a computation in [result], without unfolding the setters. *)
Ltac run_bind := unfold mbind, result_bind; cbv beta iota.

Lemma last_center_acc {A : Type} (ts : list float) (vs : list A) (acc : option A) :
  last_center ts vs acc
  = match last_center ts vs None with Some v => Some v | None => acc end.
Proof.
  revert vs acc. induction ts as [|t ts IH]; intros [|v vs] acc; simpl; try done.
  rewrite IH. rewrite (IH vs (if f_eqb t f_zero then Some v else None)).
  destruct (last_center ts vs None); [done|].
  by destruct (f_eqb t f_zero).
Qed.

(** What [last_center] finds is a sample at time 0. *)
Lemma last_center_Some {A : Type} (ts : list float) (vs : list A) (v : A) :
  last_center ts vs None = Some v ->
  exists (i : nat) (t : float),
    ts !! i = Some t /\ f_eqb t f_zero = true /\ vs !! i = Some v.
Proof.
  revert vs. induction ts as [|t ts IH]; intros [|w vs] H; simpl in *; try done.
  rewrite last_center_acc in H.
  destruct (last_center ts vs None) as [u|] eqn:E.
  - simplify_eq. destruct (IH vs E) as (i & t' & ? & ? & ?).
    by exists (S i), t'.
  - destruct (f_eqb t f_zero) eqn:Ez; simplify_eq.
    by exists 0, t.
Qed.

(** When it finds nothing, no sample is at time 0. *)
Lemma last_center_None {A : Type} (ts : list float) (vs : list A) :
  length ts = length vs ->
  last_center ts vs None = None ->
  forall t : float, t ∈ ts -> f_eqb t f_zero = false.
Proof.
  revert vs. induction ts as [|t ts IH]; intros [|w vs] Hl H t' Hin;
    simplify_eq/=; [by apply elem_of_nil in Hin|].
  rewrite last_center_acc in H.
  destruct (last_center ts vs None) eqn:E; [done|].
  destruct (f_eqb t f_zero) eqn:Ez; [done|].
  apply elem_of_cons in Hin as [->|Hin]; [done|].
  by eapply IH.
Qed.

Lemma with_center_tfm (c : option GfMatrix4d) (v : GfMatrix4d) (object : CclObject) :
  with_center c (object <| tfm := mat4d_to_transform v |>)
  = with_center (match c with Some w => Some w | None => Some v end) object.
Proof. by destruct c. Qed.

Lemma SetTransform_findCenter_ok (n i : nat) (xf : HdTimeSampleArray GfMatrix4d)
    (object : CclObject) (foundCenter : bool) :
  length (times xf) = i + n ->
  length (values xf) = i + n ->
  SetTransform_findCenter n i xf object foundCenter
  = Ok (with_center (last_center (drop i (times xf)) (drop i (values xf)) None) object,
        foundCenter
        || bool_decide (is_Some (last_center (drop i (times xf)) (drop i (values xf)) None))).
Proof.
  revert i object foundCenter.
  induction n as [|n IH]; intros i object foundCenter Ht Hv.
  - rewrite !drop_ge by lia. simpl. by rewrite orb_false_r.
  - destruct (times xf !! i) as [t|] eqn:Et; [| apply lookup_ge_None in Et; lia].
    destruct (values xf !! i) as [v|] eqn:Ev; [| apply lookup_ge_None in Ev; lia].
    cbn [SetTransform_findCenter].
    unfold sample_time, sample_value. rewrite Et, Ev. run_bind.
    rewrite (drop_S _ _ _ Et), (drop_S _ _ _ Ev). cbn [last_center].
    rewrite (last_center_acc _ _ (if f_eqb t f_zero then _ else _)).
    destruct (f_eqb t f_zero) eqn:Ez.
    + rewrite IH by lia. rewrite with_center_tfm.
      destruct (last_center _ _ None); simpl; f_equal; f_equal;
        rewrite ?orb_true_r; try done.
    + rewrite IH by lia.
      by destruct (last_center _ _ None).
Qed.

(** The base transform for a positive sample count: the last sample at time
    0, or the first sample. *)
Lemma SetTransform_base_ok (xf : HdTimeSampleArray GfMatrix4d) (object : CclObject)
    (v0 : GfMatrix4d) :
  length (times xf) = count xf ->
  length (values xf) = count xf ->
  values xf !! 0 = Some v0 ->
  SetTransform_base xf object
  = Ok (object <| tfm := mat4d_to_transform
                           (default v0 (last_center (times xf) (values xf) None)) |>).
Proof.
  intros Ht Hv H0. unfold SetTransform_base.
  destruct (decide (1 < count xf)) as [Hc|Hc].
  - rewrite SetTransform_findCenter_ok by (simpl; lia). rewrite !drop_0. simpl.
    destruct (last_center _ _ None) as [v|] eqn:E; simpl; [done|].
    unfold sample_value. by rewrite H0.
  - unfold sample_value. rewrite H0. simpl.
    destruct (times xf) as [|t [|]] eqn:Ets, (values xf) as [|v [|]] eqn:Evs;
      simpl in *; simplify_eq; try lia.
    by destruct (f_eqb t f_zero).
Qed.

Lemma motion_write_lt (motion_ : list Transform) (idx : nat) (t : Transform) :
  idx < length motion_ -> motion_write motion_ idx t = Ok (<[idx := t]> motion_).
Proof. intros H. unfold motion_write. by rewrite decide_True. Qed.

Lemma SetTransform_fillMotion_ok (n i : nat) (xf : HdTimeSampleArray GfMatrix4d)
    (object : CclObject) :
  length (times xf) = i + n ->
  length (values xf) = i + n ->
  length (motion object) = i + n ->
  SetTransform_fillMotion n i xf object
  = Ok (with_center (last_center (drop i (times xf)) (drop i (values xf)) None) object
          <| motion := overwrite i (mat4d_to_transform <$> drop i (values xf))
                                 (motion object) |>).
Proof.
  revert i object. induction n as [|n IH]; intros i object Ht Hv Hm; simpl.
  - rewrite !drop_ge by lia. simpl. rewrite overwrite_nil. by destruct object.
  - destruct (times xf !! i) as [t|] eqn:Et; [| apply lookup_ge_None in Et; lia].
    destruct (values xf !! i) as [v|] eqn:Ev; [| apply lookup_ge_None in Ev; lia].
    unfold sample_time, sample_value. rewrite Et, Ev. simpl.
    rewrite (drop_S _ _ _ Et), (drop_S _ _ _ Ev). simpl.
    rewrite (last_center_acc _ _ (if f_eqb t f_zero then _ else _)).
    assert (forall o : CclObject,
              length (motion o) = i + S n ->
              motion_write (motion o) i (mat4d_to_transform v)
              = Ok (overwrite i [mat4d_to_transform v] (motion o))) as Hw.
    { intros o Ho. rewrite motion_write_lt by lia. by rewrite insert_overwrite by lia. }
    assert (forall o : CclObject,
              length (motion o) = i + S n ->
              overwrite (S i) (mat4d_to_transform <$> drop (S i) (values xf))
                        (overwrite i [mat4d_to_transform v] (motion o))
              = overwrite i (mat4d_to_transform v
                             :: (mat4d_to_transform <$> drop (S i) (values xf)))
                          (motion o)) as Happ.
    { intros o Ho.
      replace (S i) with (i + length [mat4d_to_transform v]) at 1 by (simpl; lia).
      rewrite overwrite_app; [done|].
      simpl. rewrite length_fmap, length_drop. lia. }
    destruct (f_eqb t f_zero) eqn:Ez.
    + rewrite Hw by done. simpl.
      rewrite IH; simpl; rewrite ?length_overwrite; simpl; try lia.
      rewrite Happ by done.
      destruct (last_center _ _ None); by destruct object.
    + rewrite Hw by done. simpl.
      rewrite IH; simpl; rewrite ?length_overwrite; simpl; try lia.
      rewrite Happ by done.
      destruct (last_center _ _ None); by destruct object.
Qed.

End TransformClaims.

Section TransformTheorem.
Context {N : Numerics} {X : Externals}.

Ltac run_bind := unfold mbind, result_bind; cbv beta iota.

(** The sample that [default v0 (last_center ...)] denotes is one at time 0,
    or the first sample when no sample is at time 0. *)
Lemma base_sample_cases (xf : HdTimeSampleArray GfMatrix4d) (v0 : GfMatrix4d) :
  length (times xf) = length (values xf) ->
  values xf !! 0 = Some v0 ->
  (exists (i : nat) (t : float) (v : GfMatrix4d),
      times xf !! i = Some t /\ f_eqb t f_zero = true /\ values xf !! i = Some v
      /\ default v0 (last_center (times xf) (values xf) None) = v)
  \/ ((forall t : float, t ∈ times xf -> f_eqb t f_zero = false)
      /\ default v0 (last_center (times xf) (values xf) None) = v0).
Proof.
  intros Hl H0. destruct (last_center _ _ None) as [v|] eqn:E.
  - left. destruct (last_center_Some _ _ _ E) as (i & t & ? & ? & ?).
    by exists i, t, v.
  - right. split; [|done]. by apply (last_center_None _ (values xf)).
Qed.

Lemma with_center_same (c : option GfMatrix4d) (v0 : GfMatrix4d) (object : CclObject) :
  tfm object = mat4d_to_transform (default v0 c) ->
  tfm (with_center c object) = mat4d_to_transform (default v0 c).
Proof. by destruct c. Qed.

Lemma with_center_motion (c : option GfMatrix4d) (object : CclObject) :
  motion (with_center c object) = motion object.
Proof. by destruct c. Qed.


End TransformTheorem.

(** ** [Sync] *)

Section SyncClaims.
Context {N : Numerics} {X : Externals}.

Ltac run_bind := unfold mbind, result_bind; cbv beta iota.

Lemma has_Clean (mask : Z) : HdChangeTracker.has HdChangeTracker.Clean mask = false.
Proof. done. Qed.

Lemma IsPrimvarDirty_Clean (name : TfToken) :
  HdChangeTracker.IsPrimvarDirty HdChangeTracker.Clean name = false.
Proof. unfold HdChangeTracker.IsPrimvarDirty. by repeat case_decide. Qed.

Lemma Sync_computedPoints_Clean (sceneDelegate : HdSceneDelegate)
    (descs : list TfToken) (s : SyncState) :
  Sync_computedPoints sceneDelegate HdChangeTracker.Clean descs s = s.
Proof.
  induction descs as [|name rest IH]; simpl; [done|].
  case_decide; [done|]. by rewrite IsPrimvarDirty_Clean.
Qed.

(** The schema block does nothing when it is compiled out or when the
    primitive has no primvar descriptor. *)
Lemma Sync_schema_skipped (sceneDelegate : HdSceneDelegate) (dirtyBits : Z)
    (s : SyncState) :
  USE_USD_CYCLES_SCHEMA = false
  \/ (forall i : HdInterpolation, GetPrimvarDescriptors sceneDelegate i = []) ->
  Sync_schema sceneDelegate dirtyBits s = s.
Proof.
  intros [Hoff|Hnone]; unfold Sync_schema.
  - by rewrite Hoff.
  - destruct USE_USD_CYCLES_SCHEMA; [|done].
    unfold primvarDescsPerInterpolation. by rewrite !Hnone.
Qed.

(** Whatever a sync call does, it leaves the dirty bits clean. *)
Lemma Sync_leaves_bits_clean (sceneDelegate : HdSceneDelegate)
    (renderParam : HdCyclesRenderParam) (dirtyBits : Z) (me me' : HdCyclesMesh)
    (dirtyBits' : Z) (events : list Event) :
  Sync sceneDelegate renderParam dirtyBits me = Ok (me', dirtyBits', events) ->
  dirtyBits' = HdChangeTracker.Clean.
Proof.
  unfold Sync. cbv zeta.
  destruct (Sync_createMesh _ _ _) as [s1|]; [|done]. run_bind.
  destruct (Sync_transform _ _ _) as [s2|]; [|done]. run_bind.
  destruct (Sync_materialId _ _ _ _) as [s3|]; [|done]. run_bind.
  destruct (Sync_instances _ _ _) as [s4|]; [|done]. run_bind.
  destruct (Sync_finish _) as [s5|]; [|done]. run_bind.
  by intros [= _ <- _].
Qed.

(** C1. When the schema block is compiled out, or the primitive has no
    primvar descriptor, [Sync] with the clean dirty-bit set returns the
    primitive (with its renderer mesh and object) exactly as it was and makes
    no call on the scene: no [tag_update], no interrupt, no diagnostic. In
    particular this holds for the bits and the primitive that any earlier
    [Sync] call returned. *)
Theorem Sync_clean_changes_nothing (sceneDelegate : HdSceneDelegate)
    (renderParam : HdCyclesRenderParam) (me : HdCyclesMesh) :
  USE_USD_CYCLES_SCHEMA = false
  \/ (forall i : HdInterpolation, GetPrimvarDescriptors sceneDelegate i = []) ->
  Sync sceneDelegate renderParam HdChangeTracker.Clean me
  = Ok (me, HdChangeTracker.Clean, [])
  /\ (forall (sceneDelegate0 : HdSceneDelegate) (renderParam0 : HdCyclesRenderParam)
        (dirtyBits0 : Z) (me0 : HdCyclesMesh) (dirtyBits1 : Z) (events0 : list Event),
        Sync sceneDelegate0 renderParam0 dirtyBits0 me0 = Ok (me, dirtyBits1, events0) ->
        Sync sceneDelegate renderParam dirtyBits1 me = Ok (me, HdChangeTracker.Clean, [])).
Proof.
  intros Hschema.
  assert (Sync sceneDelegate renderParam HdChangeTracker.Clean me
          = Ok (me, HdChangeTracker.Clean, [])) as Hclean.
  { unfold Sync. cbv zeta.
    rewrite Sync_computedPoints_Clean.
    unfold Sync_topology, Sync_doubleSided, Sync_displayStyle.
    unfold HdChangeTracker.IsTopologyDirty, HdChangeTracker.IsSubdivTagsDirty,
      HdChangeTracker.IsDisplayStyleDirty.
    rewrite !has_Clean. cbn [orb].
    rewrite Sync_schema_skipped by done.
    unfold Sync_createMesh, Sync_transform, Sync_primId, Sync_materialId,
      Sync_visibility, Sync_instances, Sync_finish, Sync_tag.
    rewrite !has_Clean. reflexivity. }
  split; [exact Hclean|].
  intros sceneDelegate0 renderParam0 dirtyBits0 me0 dirtyBits1 events0 Hfirst.
  by rewrite (Sync_leaves_bits_clean _ _ _ _ _ _ _ Hfirst).
Qed.

End SyncClaims.

Section PrimvarClaims.
Context {N : Numerics} {X : Externals}.

Ltac run_bind := unfold mbind, result_bind; cbv beta iota.

(** A dirty primvar of a new-mesh sync whose refined array has fewer
    elements than the source array. For a texture-coordinate primvar and for
    a colour primvar the loop over the primvars reports one warning, leaves
    the renderer mesh and object untouched and goes on with the remaining
    primvars (a colour primvar still marks the mesh as updated, and
    [displayColor] still sets the vertex-colour flag). For a normals primvar
    the same holds when the refined value is empty or does not hold an array
    of three-component floats. *)
Lemma Sync_primvar_shortfall_is_skipped (sceneDelegate : HdSceneDelegate)
    (dirtyBits : Z) (interpolation : HdInterpolation) (pv : HdPrimvarDescriptor)
    (rest : list HdPrimvarDescriptor) (s : SyncState) (refiner : HdCyclesMeshRefiner) :
  let value := GetPrimvar sceneDelegate (pv_name pv) in
  let refined := RefineData refiner value interpolation in
  let is_normals :=
    pv_name pv = HdTokens.normals \/ pv_role pv = HdPrimvarRoleTokens.normal in
  m_refiner (self s) = Some refiner ->
  HdChangeTracker.IsPrimvarDirty dirtyBits (pv_name pv) = true ->
  GetArraySize refined < GetArraySize value ->
  (is_normals ->
   GetArraySize refined = 0 \/ (forall a : list GfVec3f, refined <> VtVec3fArray a) ->
   Sync_primvars_of sceneDelegate dirtyBits interpolation (pv :: rest) s
   = Sync_primvars_of sceneDelegate dirtyBits interpolation rest
       (emit [TF_CODING_WARNING warn_normals] s))
  /\ (~ is_normals -> pv_name pv <> HdTokens.velocities ->
      pv_role pv = HdPrimvarRoleTokens.textureCoordinate ->
      Sync_primvars_of sceneDelegate dirtyBits interpolation (pv :: rest) s
      = Sync_primvars_of sceneDelegate dirtyBits interpolation rest
          (emit [TF_CODING_WARNING warn_texture_coordinates] s))
  /\ (~ is_normals -> pv_name pv <> HdTokens.velocities ->
      pv_role pv <> HdPrimvarRoleTokens.textureCoordinate ->
      pv_name pv = HdTokens.displayColor \/ pv_role pv = HdPrimvarRoleTokens.color ->
      Sync_primvars_of sceneDelegate dirtyBits interpolation (pv :: rest) s
      = Sync_primvars_of sceneDelegate dirtyBits interpolation rest
          ((if bool_decide (pv_name pv = HdTokens.displayColor)
            then (emit [TF_CODING_WARNING warn_colors] s)
                   <| self ::= fun m => m <| m_hasVertexColors := true |> |>
            else emit [TF_CODING_WARNING warn_colors] s)
             <| mesh_updated := true |>)).
Proof.
  intros value refined is_normals Hrefiner Hdirty Hshort.
  cbn [Sync_primvars_of]. unfold Sync_primvar.
  rewrite Hdirty. cbn [negb]. cbv iota. fold value.
  unfold refiner_of. rewrite Hrefiner. run_bind. fold refined.
  split; [| split].
  - intros Hn Hbad. rewrite bool_decide_true by exact Hn.
    destruct refined as [| | | | | | | | a | | | | | |] eqn:E; try done.
    destruct Hbad as [Hzero|Hnot]; [| by destruct (Hnot a)].
    simpl in Hzero. rewrite decide_False by lia. done.
  - intros Hn Hv Huv. rewrite bool_decide_false by exact Hn.
    rewrite bool_decide_false by exact Hv.
    rewrite bool_decide_true by exact Huv.
    rewrite decide_False by lia. done.
  - intros Hn Hv Huv Hcol. rewrite bool_decide_false by exact Hn.
    rewrite bool_decide_false by exact Hv.
    rewrite bool_decide_false by exact Huv.
    rewrite bool_decide_true by exact Hcol.
    rewrite decide_False by lia. run_bind.
    by destruct (bool_decide (pv_name pv = HdTokens.displayColor)).
Qed.

(** C5. A dirty normals primvar of a new-mesh sync whose refined value is a
    non-empty array of three-component floats with fewer elements than the
    source array: the loop reports no warning and does not skip the primvar,
    it hands the short array to [_AddNormals] (the guard of the normals
    branch tests the refined size against 0, not against the source size as
    the texture-coordinate and colour branches do). For per-vertex normals
    on a mesh with more vertices than the short array has normals,
    [_AddNormals] reads past the end of the array, so the loop over the
    primvars has no defined outcome. *)
Theorem Sync_primvar_short_normals_are_not_skipped (sceneDelegate : HdSceneDelegate)
    (dirtyBits : Z) (interpolation : HdInterpolation) (pv : HdPrimvarDescriptor)
    (s : SyncState) (refiner : HdCyclesMeshRefiner) (normals : list GfVec3f) :
  pv_name pv = HdTokens.normals \/ pv_role pv = HdPrimvarRoleTokens.normal ->
  m_refiner (self s) = Some refiner ->
  HdChangeTracker.IsPrimvarDirty dirtyBits (pv_name pv) = true ->
  RefineData refiner (GetPrimvar sceneDelegate (pv_name pv)) interpolation
  = VtVec3fArray normals ->
  0 < length normals ->
  length normals < GetArraySize (GetPrimvar sceneDelegate (pv_name pv)) ->
  Sync_primvar sceneDelegate dirtyBits interpolation pv s
  = match _AddNormals normals interpolation (self s) with
    | Ok me => Ok (s <| self := me |> <| mesh_updated := true |>)
    | Undefined => Undefined
    end
  /\ (interpolation = HdInterpolationVertex ->
      length normals < length (verts (m_cyclesMesh (self s))) ->
      Sync_primvar sceneDelegate dirtyBits interpolation pv s = Undefined
      /\ forall rest : list HdPrimvarDescriptor,
           Sync_primvars_of sceneDelegate dirtyBits interpolation (pv :: rest) s
           = Undefined).
Proof.
  intros Hn Hrefiner Hdirty Hrefined Hpos Hshort.
  assert (Sync_primvar sceneDelegate dirtyBits interpolation pv s
          = match _AddNormals normals interpolation (self s) with
            | Ok me => Ok (s <| self := me |> <| mesh_updated := true |>)
            | Undefined => Undefined
            end) as Hrun.
  { unfold Sync_primvar. rewrite Hdirty. cbn [negb]. cbv iota zeta.
    rewrite bool_decide_true by exact Hn.
    unfold refiner_of. rewrite Hrefiner. run_bind.
    rewrite Hrefined. rewrite decide_True by done. done. }
  split; [exact Hrun|].
  intros -> Hverts.
  rewrite AddNormals_vertex_overrun in Hrun by done.
  split; [exact Hrun|].
  intros rest. cbn [Sync_primvars_of]. by rewrite Hrun.
Qed.

End PrimvarClaims.

(** ** The vertex-colour flag *)

Section FlagFacts.
Context {N : Numerics} {X : Externals}.

Lemma bind_Ok {A B : Type} (r : result A) (k : A -> result B) (b : B) :
  r ≫= k = Ok b -> exists a : A, r = Ok a /\ k a = Ok b.
Proof. destruct r as [a|]; [|done]. intros H. by exists a. Qed.

(** Splits the hypotheses of the form [r ≫= k = Ok b], and the tests they
    go through. *)
Ltac split_run :=
  repeat match goal with
    | H : _ ≫= _ = Ok _ |- _ =>
        let a := fresh "a" in
        let Ha := fresh "Ha" in
        apply bind_Ok in H as (a & Ha & H)
    | H : Ok _ = Ok _ |- _ => injection H as H; try subst
    | H : Undefined = Ok _ |- _ => discriminate H
    | H : (if ?c then _ else _) = Ok _ |- _ => destruct c eqn:?
    | H : match ?c with _ => _ end = Ok _ |- _ => destruct c eqn:?
    end.

Lemma AddNormals_flag (normals : list GfVec3f) (interpolation : HdInterpolation)
    (me me' : HdCyclesMesh) :
  _AddNormals normals interpolation me = Ok me' ->
  m_hasVertexColors me' = m_hasVertexColors me.
Proof.
  unfold _AddNormals. intros H.
  destruct interpolation; split_run; simplify_eq/=; done.
Qed.

Lemma AddUVSet_flag (name : TfToken) (uvs : VtValue) (interpolation : HdInterpolation)
    (me : HdCyclesMesh) (r : HdCyclesMesh * list Event) :
  _AddUVSet name uvs interpolation me = Ok r ->
  m_hasVertexColors r.1 = m_hasVertexColors me.
Proof. unfold _AddUVSet. intros H. split_run. done. Qed.

Lemma AddColors_flag (name role : TfToken) (colors : VtValue)
    (interpolation : HdInterpolation) (me : HdCyclesMesh) (r : HdCyclesMesh * list Event) :
  _AddColors name role colors interpolation me = Ok r ->
  m_hasVertexColors r.1 = m_hasVertexColors me.
Proof. unfold _AddColors. intros H. split_run; done. Qed.

Lemma PopulateFaces_flag (ids : list Z) (me me' : HdCyclesMesh) :
  _PopulateFaces ids me = Ok me' -> m_hasVertexColors me' = m_hasVertexColors me.
Proof. unfold _PopulateFaces. intros H. split_run. done. Qed.

Lemma PopulateVertices_flag (sceneDelegate : HdSceneDelegate) (me me' : HdCyclesMesh) :
  _PopulateVertices sceneDelegate me = Ok me' ->
  m_hasVertexColors me' = m_hasVertexColors me.
Proof. unfold _PopulateVertices. intros H. split_run. done. Qed.

Lemma PopulateMotion_flag (me me' : HdCyclesMesh) :
  _PopulateMotion me = Ok me' -> m_hasVertexColors me' = m_hasVertexColors me.
Proof. unfold _PopulateMotion. intros H. split_run; done. Qed.

Lemma FinishMesh_flag (me me' : HdCyclesMesh) :
  _FinishMesh me = Ok me' -> m_hasVertexColors me' = m_hasVertexColors me.
Proof. unfold _FinishMesh, _PopulateGenerated. intros H. split_run; done. Qed.

Lemma Sync_computedPoints_flag (sceneDelegate : HdSceneDelegate) (dirtyBits : Z)
    (descs : list TfToken) (s : SyncState) :
  m_hasVertexColors (self (Sync_computedPoints sceneDelegate dirtyBits descs s))
  = m_hasVertexColors (self s).
Proof.
  induction descs as [|name rest IH]; simpl; [done|].
  repeat case_match; done.
Qed.

Lemma Sync_schema_primvar_flag (sceneDelegate : HdSceneDelegate) (dirtyBits : Z)
    (pv : HdPrimvarDescriptor) (s : SyncState) :
  m_hasVertexColors (self (Sync_schema_primvar sceneDelegate dirtyBits pv s))
  = m_hasVertexColors (self s).
Proof. done. Qed.

Lemma Sync_schema_flag (sceneDelegate : HdSceneDelegate) (dirtyBits : Z) (s : SyncState) :
  m_hasVertexColors (self (Sync_schema sceneDelegate dirtyBits s))
  = m_hasVertexColors (self s).
Proof.
  unfold Sync_schema. destruct USE_USD_CYCLES_SCHEMA; [|done].
  generalize (primvarDescsPerInterpolation sceneDelegate). intros entries.
  revert s. induction entries as [|entry entries IH]; intros s; simpl; [done|].
  rewrite IH. generalize (entry.2). intros descs. clear IH.
  revert s. induction descs as [|pv descs IH]; intros s; simpl; [done|].
  by rewrite IH.
Qed.

Lemma Sync_subsets_flag (sceneDelegate : HdSceneDelegate) (subsets : list HdGeomSubset)
    (faceMaterials : list Z) (s : SyncState) (r : SyncState * list Z) :
  Sync_subsets sceneDelegate subsets faceMaterials s = Ok r ->
  m_hasVertexColors (self r.1) = m_hasVertexColors (self s).
Proof.
  revert faceMaterials s. induction subsets as [|subset rest IH];
    intros faceMaterials s H; simpl in H.
  - by simplify_eq.
  - apply bind_Ok in H as (fm & _ & H). apply IH in H. rewrite H.
    unfold Sync_subset_material. repeat case_match; done.
Qed.

(** One primvar never clears the flag. *)
Lemma Sync_primvar_flag (sceneDelegate : HdSceneDelegate) (dirtyBits : Z)
    (interpolation : HdInterpolation) (pv : HdPrimvarDescriptor) (s s' : SyncState) :
  Sync_primvar sceneDelegate dirtyBits interpolation pv s = Ok s' ->
  m_hasVertexColors (self s) = true -> m_hasVertexColors (self s') = true.
Proof.
  unfold Sync_primvar. intros H Hflag.
  repeat match goal with
    | H : (if ?c then _ else _) = Ok _ |- _ => destruct c eqn:?
    | H : _ ≫= _ = Ok _ |- _ =>
        let a := fresh "a" in
        let Ha := fresh "Ha" in
        apply bind_Ok in H as (a & Ha & H)
    | H : match ?c with _ => _ end = Ok _ |- _ => destruct c eqn:?
    | H : Ok _ = Ok _ |- _ => injection H as H; try subst
    | H : Undefined = Ok _ |- _ => discriminate H
    end;
    try done;
    repeat match goal with
      | H : _AddNormals _ _ _ = Ok _ |- _ => apply AddNormals_flag in H
      | H : _AddUVSet _ _ _ _ = Ok _ |- _ => apply AddUVSet_flag in H
      | H : _AddColors _ _ _ _ _ = Ok _ |- _ => apply AddColors_flag in H
      end;
    simpl in *; repeat case_match; simpl in *; congruence.
Qed.

Lemma Sync_primvars_of_flag (sceneDelegate : HdSceneDelegate) (dirtyBits : Z)
    (interpolation : HdInterpolation) (descs : list HdPrimvarDescriptor)
    (s s' : SyncState) :
  Sync_primvars_of sceneDelegate dirtyBits interpolation descs s = Ok s' ->
  m_hasVertexColors (self s) = true -> m_hasVertexColors (self s') = true.
Proof.
  revert s. induction descs as [|pv rest IH]; intros s H Hflag; simpl in H.
  - by simplify_eq.
  - apply bind_Ok in H as (s1 & H1 & H). eapply IH; [exact H|].
    by eapply Sync_primvar_flag.
Qed.

Lemma Sync_primvars_flag (sceneDelegate : HdSceneDelegate) (dirtyBits : Z)
    (entries : list (HdInterpolation * list HdPrimvarDescriptor)) (s s' : SyncState) :
  Sync_primvars sceneDelegate dirtyBits entries s = Ok s' ->
  m_hasVertexColors (self s) = true -> m_hasVertexColors (self s') = true.
Proof.
  revert s. induction entries as [|entry rest IH]; intros s H Hflag; simpl in H.
  - by simplify_eq.
  - apply bind_Ok in H as (s1 & H1 & H). eapply IH; [exact H|].
    by eapply Sync_primvars_of_flag.
Qed.

Lemma Sync_createMesh_flag (sceneDelegate : HdSceneDelegate) (dirtyBits : Z)
    (s s' : SyncState) :
  Sync_createMesh sceneDelegate dirtyBits s = Ok s' ->
  m_hasVertexColors (self s) = true -> m_hasVertexColors (self s') = true.
Proof.
  unfold Sync_createMesh. intros H Hflag.
  destruct (newMesh s); [| by simplify_eq].
  apply bind_Ok in H as (materials & Hm & H). apply Sync_subsets_flag in Hm.
  apply bind_Ok in H as (me1 & H1 & H). apply PopulateFaces_flag in H1.
  apply bind_Ok in H as (me2 & H2 & H). apply PopulateVertices_flag in H2.
  apply bind_Ok in H as (me3 & H3 & H).
  assert (m_hasVertexColors me3 = m_hasVertexColors me2) as H3'.
  { destruct (_ && _); [by apply PopulateMotion_flag | by simplify_eq]. }
  apply bind_Ok in H as (s4 & H4 & H).
  apply Sync_primvars_flag in H4;
    [| simpl in *; congruence].
  destruct (decide _); simplify_eq; done.
Qed.

Lemma Sync_transform_flag (sceneDelegate : HdSceneDelegate) (dirtyBits : Z)
    (s s' : SyncState) :
  Sync_transform sceneDelegate dirtyBits s = Ok s' ->
  m_hasVertexColors (self s') = m_hasVertexColors (self s).
Proof.
  unfold Sync_transform. intros H.
  destruct (HdChangeTracker.has _ _); [| by simplify_eq].
  apply bind_Ok in H as (r & _ & H). by simplify_eq.
Qed.

Lemma Sync_materialId_flag (sceneDelegate : HdSceneDelegate)
    (param : HdCyclesRenderParam) (dirtyBits : Z) (s s' : SyncState) :
  Sync_materialId sceneDelegate param dirtyBits s = Ok s' ->
  m_hasVertexColors (self s') = m_hasVertexColors (self s).
Proof.
  unfold Sync_materialId. intros H.
  destruct (HdChangeTracker.has _ _); [| by simplify_eq].
  apply bind_Ok in H as (counts & _ & H).
  destruct (decide (0 < _)); [| by simplify_eq].
  simplify_eq. repeat case_match; done.
Qed.

Lemma Sync_instances_flag (sceneDelegate : HdSceneDelegate) (dirtyBits : Z)
    (s s' : SyncState) :
  Sync_instances sceneDelegate dirtyBits s = Ok s' ->
  m_hasVertexColors (self s') = m_hasVertexColors (self s).
Proof.
  unfold Sync_instances. intros H.
  destruct (_ || _); [| by simplify_eq].
  destruct (GetInstancer sceneDelegate); [| by simplify_eq].
  apply bind_Ok in H as (n & _ & H).
  destruct (decide (n <> 0)); [| by simplify_eq].
  apply bind_Ok in H as (c & _ & H). apply bind_Ok in H as (o & _ & H).
  by simplify_eq.
Qed.

Lemma Sync_finish_flag (s s' : SyncState) :
  Sync_finish s = Ok s' -> m_hasVertexColors (self s') = m_hasVertexColors (self s).
Proof.
  unfold Sync_finish. intros H. destruct (newMesh s); [| by simplify_eq].
  apply bind_Ok in H as (me & Hf & H). apply FinishMesh_flag in Hf. by simplify_eq.
Qed.

Lemma Sync_tag_flag (s : SyncState) :
  m_hasVertexColors (self (Sync_tag s)) = m_hasVertexColors (self s).
Proof. unfold Sync_tag. repeat case_match; done. Qed.

(** No sync call clears the vertex-colour flag. *)
Lemma Sync_keeps_vertex_colour_flag (sceneDelegate : HdSceneDelegate)
    (param : HdCyclesRenderParam) (dirtyBits : Z) (me me' : HdCyclesMesh)
    (dirtyBits' : Z) (events : list Event) :
  Sync sceneDelegate param dirtyBits me = Ok (me', dirtyBits', events) ->
  m_hasVertexColors me = true -> m_hasVertexColors me' = true.
Proof.
  unfold Sync. cbv zeta. intros H Hflag.
  apply bind_Ok in H as (s1 & H1 & H). apply Sync_createMesh_flag in H1.
  2:{ rewrite Sync_schema_flag.
      unfold Sync_displayStyle, Sync_doubleSided, Sync_topology.
      repeat case_match; simpl; rewrite ?Sync_computedPoints_flag; done. }
  apply bind_Ok in H as (s2 & H2 & H). apply Sync_transform_flag in H2.
  apply bind_Ok in H as (s3 & H3 & H). apply Sync_materialId_flag in H3.
  apply bind_Ok in H as (s4 & H4 & H). apply Sync_instances_flag in H4.
  apply bind_Ok in H as (s5 & H5 & H). apply Sync_finish_flag in H5.
  injection H as <- _ _. rewrite Sync_tag_flag, H5, H4.
  unfold Sync_visibility. case_match; simpl; rewrite H3;
    unfold Sync_primId; case_match; simpl; congruence.
Qed.

End FlagFacts.

Section ColorClaims.
Context {N : Numerics} {X : Externals}.

Ltac run_bind := unfold mbind, result_bind; cbv beta iota.

Lemma add_named_fresh (m : CclMesh) (subd : bool) (attrs : list Attribute)
    (name : string) (type : TypeDesc) (element : AttributeElement) :
  find_name attrs name = None ->
  add_named m subd attrs name type element
  = (attrs ++ [ {| attr_name := name; attr_std := ATTR_STD_NONE; attr_type := type;
                   attr_element := element;
                   attr_data := replicate (element_size m subd element) elem_zero |} ],
     {| attr_name := name; attr_std := ATTR_STD_NONE; attr_type := type;
        attr_element := element;
        attr_data := replicate (element_size m subd element) elem_zero |}).
Proof. intros H. unfold add_named. by rewrite H. Qed.

(** [_AddColors] of a constant [displayColor] whose value is a non-empty
    array of one of the four float types, on a mesh that has no attribute of
    that name: the object colour becomes the first element. *)
Lemma AddColors_displayColor_constant (role : TfToken) (colors : VtValue)
    (me : HdCyclesMesh) (c : float3) :
  find_name (attributes (m_cyclesMesh me)) HdTokens.displayColor = None ->
  constant_color_value colors = Some c ->
  exists r : HdCyclesMesh * list Event,
    _AddColors HdTokens.displayColor role colors HdInterpolationConstant me = Ok r
    /\ color (m_cyclesObject r.1) = c.
Proof.
  intros Hfresh Hc. unfold _AddColors.
  destruct colors as [| a | | | | a | | | a | | | a | | |]; try done;
    destruct a as [|x l]; try done; simpl in Hc;
    cbn [IsEmpty]; cbv iota;
    rewrite add_named_fresh by done; cbn [fst snd];
    unfold _PopulateAttribute, populate_by_type, _PopulateAttribte_Constant;
    (destruct l as [|y l];
     [ rewrite decide_False by (simpl; lia)
     | rewrite decide_True by (simpl; lia) ]);
    simpl; repeat case_match; simplify_eq/=; eexists; (split; [reflexivity|]); done.
Qed.


End ColorClaims.

(** ** The claims at concrete inputs *)

Section Witnesses.
#[local] Existing Instance Example.Q_numerics.

(** C3 at two faces, a quad holding 10 and a triangle holding 20, converted
    by [Z.succ], on a buffer of four slots. *)
Lemma Uniform_populate_expands_each_face_witness :
  _PopulateAttribte_Uniform Z.succ [10; 20]%Z (Ok [4; 3]%Z) [0; 0; 0; 0]%Z
  = Ok (true, [11; 11; 21; 0]%Z).
Proof.
  refine (proj2 (Uniform_populate_expands_each_face
                   Z.succ [10; 20]%Z [4; 3]%Z [0; 0; 0; 0]%Z _ _ _)).
  - reflexivity.
  - unfold INT_MAX. repeat constructor; lia.
  - simpl. lia.
Defined.

(** C6 at an array of two elements and at an array of one. *)
Lemma Constant_populate_requires_one_element_witness :
  _PopulateAttribte_Constant Z.succ [10; 20]%Z [0%Z]
  = Ok (false, [0%Z], [ConstantIncompatibleSize 2])
  /\ _PopulateAttribte_Constant Z.succ [10%Z] [0%Z] = Ok (true, [11%Z], []).
Proof.
  split.
  - refine (proj1 (Constant_populate_requires_one_element Z.succ [10; 20]%Z [0%Z]) _).
    simpl. lia.
  - refine (proj2 (Constant_populate_requires_one_element Z.succ [10%Z] [0%Z])
                  10%Z _ _).
    + reflexivity.
    + simpl. lia.
Defined.

(** C4 at a mesh of one triangle and a uniform array of two floats. *)
Lemma Uniform_oversized_is_reported_and_skipped_witness :
  _PopulateAttribute "weight" "" HdInterpolationUniform (VtFloatArray [1%Q; 2%Q]) [elem_zero]
    (self Example.vertex_coloured_triangle)
  = Ok ([elem_zero], [UniformSizes 2 1; Oversized]).
Proof.
  refine (Uniform_oversized_is_reported_and_skipped
            "weight" "" (VtFloatArray [1%Q; 2%Q]) [elem_zero]
            (self Example.vertex_coloured_triangle) [3%Z] _ _).
  - reflexivity.
  - simpl. lia.
Defined.

(** C10 at a left-handed and at a right-handed mesh of one vertex, with the
    normal (0, 0, 1): (0, 0, -1) is stored for the first and (0, 0, 1) for
    the second. *)
Lemma AddNormals_vertex_follows_orientation_witness :
  (exists written : list AttrElem,
     _AddNormals (X := Example.externals false) [Example.up] HdInterpolationVertex
                 Example.left_handed_vertex
     = Ok (Example.left_handed_vertex
             <| m_cyclesMesh ::= fun mesh =>
                  mesh <| attributes ::= fun attrs =>
                            attrs ++ [standard_attribute ATTR_STD_VERTEX_NORMAL written] |> |>)
     /\ written = [elem_float3 (0%Q, 0%Q, Qmake (-1) 1)])
  /\ (exists written : list AttrElem,
        _AddNormals (X := Example.externals false) [Example.up] HdInterpolationVertex
                    Example.right_handed_vertex
        = Ok (Example.right_handed_vertex
                <| m_cyclesMesh ::= fun mesh =>
                     mesh <| attributes ::= fun attrs =>
                               attrs ++ [standard_attribute ATTR_STD_VERTEX_NORMAL written] |> |>)
        /\ written = [elem_float3 (0%Q, 0%Q, 1%Q)]).
Proof.
  split.
  - destruct (AddNormals_vertex_follows_orientation (X := Example.externals false)
                [Example.up] Example.left_handed_vertex)
      as (written & Hrun & _ & Hleft & _).
    + reflexivity.
    + simpl. lia.
    + exists written. split; [exact Hrun|]. exact (Hleft eq_refl).
  - destruct (AddNormals_vertex_follows_orientation (X := Example.externals false)
                [Example.up] Example.right_handed_vertex)
      as (written & Hrun & _ & _ & Hright).
    + reflexivity.
    + simpl. lia.
    + exists written. split; [exact Hrun|]. apply Hright. discriminate.
Defined.

(** C7 at three samples of one point, at times -1/2, 0 and 1/2, the sample
    at time 0 being the [points] primvar (1, 2, 3): four motion steps, the
    base vertex (1, 2, 3), and a motion attribute that holds the first and
    the third sample and one slot left at zero. *)
Lemma PopulateMotion_steps_and_center_witness :
  exists (populated self' : HdCyclesMesh) (attr_mP : Attribute),
    _PopulateVertices Example.points_delegate Example.deforming_mesh = Ok populated
    /\ _PopulateMotion populated = Ok self'
    /\ motion_steps (m_cyclesMesh self') = 4%Z
    /\ verts (m_cyclesMesh self') = [(1%Q, 2%Q, 3%Q)]
    /\ find_std (attributes (m_cyclesMesh self')) ATTR_STD_MOTION_VERTEX_POSITION
       = Some attr_mP
    /\ attr_data attr_mP
       = [elem_float3 (0%Q, 0%Q, Qmake (-1) 1); elem_float3 (0%Q, 0%Q, 1%Q); elem_zero].
Proof.
  refine (PopulateMotion_steps_and_center
            Example.points_delegate Example.deforming_mesh
            (Example.triangle_mesh_refiner Example.empty_topology) 0%Q
            [Qmake (-1) 2] [Qmake 1 2] [Example.rest_position]
            [VtVec3fArray [Example.before]] [VtVec3fArray [Example.after]]
            _ _ _ _ _ _ _ _ _ _ _ _ _).
  - simpl. lia.
  - reflexivity.
  - reflexivity.
  - reflexivity.
  - reflexivity.
  - reflexivity.
  - reflexivity.
  - repeat constructor.
  - reflexivity.
  - reflexivity.
  - reflexivity.
  - reflexivity.
  - repeat constructor.
Defined.


(** C1 at the constructed primitive, in a build without the schema block. *)
Lemma Sync_clean_changes_nothing_witness :
  Sync (X := Example.externals false) Example.red_delegate Example.renderParam
       HdChangeTracker.Clean (Example.constructed false)
  = Ok (Example.constructed false, HdChangeTracker.Clean, []).
Proof.
  refine (proj1 (Sync_clean_changes_nothing (X := Example.externals false)
                   Example.red_delegate Example.renderParam
                   (Example.constructed false) _)).
  left. reflexivity.
Defined.

(** C1 fails in a build with the schema block: the primitive has one primvar
    descriptor, and [Sync] with the clean dirty-bit set rewrites the object's
    pass id and the mesh's subdivision type and ends with the two
    [tag_update] calls and the interrupt. *)
Lemma Sync_clean_schema_build_interrupts :
  exists me' : HdCyclesMesh,
    Sync (X := Example.externals true) Example.red_delegate Example.renderParam
         HdChangeTracker.Clean (Example.constructed true)
    = Ok (me', HdChangeTracker.Clean, [Mesh_tag_update; Object_tag_update; Interrupt])
    /\ pass_id (m_cyclesObject (Example.constructed true)) = (-1)%Z
    /\ pass_id (m_cyclesObject me') = 1%Z
    /\ subdivision_type (m_cyclesMesh (Example.constructed true)) = SUBDIVISION_NONE
    /\ subdivision_type (m_cyclesMesh me') = SUBDIVISION_CATMULL_CLARK.
Proof. eexists. split; [vm_compute; reflexivity|]. by vm_compute. Qed.

(** The loop at a [displayColor] of one element that the refiner loses. *)
Lemma Sync_primvar_shortfall_is_skipped_witness :
  Sync_primvars_of (X := Example.externals false) Example.red_delegate
    HdChangeTracker.DirtyPrimvar HdInterpolationConstant
    [ {| pv_name := HdTokens.displayColor; pv_role := HdPrimvarRoleTokens.color |} ]
    Example.lossy_state
  = Ok ((emit [TF_CODING_WARNING warn_colors] Example.lossy_state)
          <| self ::= fun m => m <| m_hasVertexColors := true |> |>
          <| mesh_updated := true |>).
Proof.
  refine (proj2 (proj2 (Sync_primvar_shortfall_is_skipped (X := Example.externals false)
            Example.red_delegate HdChangeTracker.DirtyPrimvar HdInterpolationConstant
            {| pv_name := HdTokens.displayColor; pv_role := HdPrimvarRoleTokens.color |}
            [] Example.lossy_state (Example.lossy_refiner Example.empty_topology)
            _ _ _)) _ _ _ _).
  - reflexivity.
  - reflexivity.
  - simpl. lia.
  - intros [H|H]; discriminate H.
  - intros H; discriminate H.
  - intros H; discriminate H.
  - left. reflexivity.
Defined.

(** One vertex, two normals of which the refiner returns one: no warning is
    reported and the normal is stored in a new vertex-normal attribute. *)
Lemma Sync_primvar_short_normals_are_ingested :
  GetArraySize (RefineData (Example.lossy_refiner Example.empty_topology)
                           (GetPrimvar Example.normals_delegate HdTokens.normals)
                           HdInterpolationVertex)
  < GetArraySize (GetPrimvar Example.normals_delegate HdTokens.normals)
  /\ exists s' : SyncState,
       Sync_primvar (X := Example.externals false) Example.normals_delegate
         HdChangeTracker.DirtyNormals HdInterpolationVertex
         {| pv_name := HdTokens.normals; pv_role := HdPrimvarRoleTokens.normal |}
         Example.lossy_state
       = Ok s'
       /\ out s' = []
       /\ attributes (m_cyclesMesh (self Example.lossy_state)) = []
       /\ attributes (m_cyclesMesh (self s'))
          = [standard_attribute ATTR_STD_VERTEX_NORMAL
               [elem_float3 (vec3f_to_float3 Example.up)]].
Proof.
  split; [simpl; lia|].
  eexists. split; [vm_compute; reflexivity|]. by vm_compute.
Qed.

(** C5 at two vertices and two normals of which the refiner returns one. *)
Lemma Sync_primvar_short_normals_are_not_skipped_witness :
  GetArraySize (GetPrimvar Example.normals_delegate HdTokens.normals) = 2
  /\ RefineData (Example.lossy_refiner Example.empty_topology)
                (GetPrimvar Example.normals_delegate HdTokens.normals)
                HdInterpolationVertex
     = VtVec3fArray [Example.up]
  /\ length (verts (m_cyclesMesh (self Example.lossy_two_vertices))) = 2
  /\ Sync_primvar (X := Example.externals false) Example.normals_delegate
       HdChangeTracker.DirtyNormals HdInterpolationVertex
       {| pv_name := HdTokens.normals; pv_role := HdPrimvarRoleTokens.normal |}
       Example.lossy_two_vertices
     = Undefined
  /\ (forall rest : list HdPrimvarDescriptor,
        Sync_primvars_of (X := Example.externals false) Example.normals_delegate
          HdChangeTracker.DirtyNormals HdInterpolationVertex
          ({| pv_name := HdTokens.normals; pv_role := HdPrimvarRoleTokens.normal |} :: rest)
          Example.lossy_two_vertices
        = Undefined).
Proof.
  split; [reflexivity|]. split; [reflexivity|]. split; [reflexivity|].
  destruct (Sync_primvar_short_normals_are_not_skipped (X := Example.externals false)
              Example.normals_delegate HdChangeTracker.DirtyNormals HdInterpolationVertex
              {| pv_name := HdTokens.normals; pv_role := HdPrimvarRoleTokens.normal |}
              Example.lossy_two_vertices (Example.lossy_refiner Example.empty_topology)
              [Example.up])
    as [_ Hover].
  - left. reflexivity.
  - reflexivity.
  - reflexivity.
  - reflexivity.
  - simpl. lia.
  - simpl. lia.
  - apply Hover; [reflexivity | simpl; lia].
Defined.



End Witnesses.
